(** * futuresboard, [core/utils.py]: request signing, dispatch and
      response classification

    A shallow embedding of the request layer of futuresboard
    ([hashing], [dispatch_request], [send_public_request],
    [send_signed_request]) together with the parts of the Python
    libraries these functions call ([hmac]/[hashlib], [urllib.parse],
    [str]/[repr], the exception classes of [requests]).

    Conventions of the embedding.
    - A Python [str] is a Rocq [string] holding the UTF-8 bytes of the text.
      [s.encode("utf-8")] is then the byte list of the string, concatenation
      is [++], and the byte order on strings is the code point order that
      Python uses to compare [str] values.
    - A Python [int] is a [Z].
    - A Python [dict] is an association list in insertion order.
    - The clock, the network and the log are explicit: the executors run in
      a monad over a [world] that holds the reading of [get_timestamp], the
      behaviour of the network, the records of the log and the list of
      requests put on the wire; a computation ends with a value or with a
      raised exception. *)

From Stdlib Require Import ZArith List Bool Ascii String Lia.
From Stdlib Require Import Numbers.DecimalString.
From Stdlib Require Import Sorting.Sorted Sorting.Permutation.
From Stdlib Require OrderedTypeEx.
Import ListNotations.

Local Open Scope string_scope.
Local Open Scope Z_scope.

(** ** Python [str] helpers *)

(** [str(z)] and [f"{z}"] for a Python [int]. *)
Definition str_of_int (z : Z) : string :=
  NilEmpty.string_of_int (Z.to_int z).

(** [s.encode("utf-8")]: the bytes of the string, as numbers below 256. *)
Fixpoint encode_utf8 (s : string) : list Z :=
  match s with
  | EmptyString => []
  | String c r => Z.of_N (N_of_ascii c) :: encode_utf8 r
  end.

(** [sep.join(l)]. *)
Fixpoint join (sep : string) (l : list string) : string :=
  match l with
  | [] => ""
  | [x] => x
  | x :: r => x ++ sep ++ join sep r
  end.

(** [sub in s] for two Python strings, as a proposition. *)
Definition contains (s sub : string) : Prop :=
  exists pre post, s = pre ++ sub ++ post.

(** ** [hashlib.sha256] and [hmac] (FIPS 180-4, RFC 2104) *)

Module SHA256.

Definition wrap (x : Z) : Z := x mod 2 ^ 32.

Definition add (x y : Z) : Z := wrap (x + y).

Definition rotr (n x : Z) : Z :=
  Z.lor (Z.shiftr x n) (wrap (Z.shiftl x (32 - n))).

Definition shr (n x : Z) : Z := Z.shiftr x n.

Definition lnot32 (x : Z) : Z := Z.lxor x 0xffffffff.

Definition Ch (x y z : Z) : Z :=
  Z.lxor (Z.land x y) (Z.land (lnot32 x) z).

Definition Maj (x y z : Z) : Z :=
  Z.lxor (Z.lxor (Z.land x y) (Z.land x z)) (Z.land y z).

Definition bsig0 (x : Z) : Z :=
  Z.lxor (Z.lxor (rotr 2 x) (rotr 13 x)) (rotr 22 x).

Definition bsig1 (x : Z) : Z :=
  Z.lxor (Z.lxor (rotr 6 x) (rotr 11 x)) (rotr 25 x).

Definition ssig0 (x : Z) : Z :=
  Z.lxor (Z.lxor (rotr 7 x) (rotr 18 x)) (shr 3 x).

Definition ssig1 (x : Z) : Z :=
  Z.lxor (Z.lxor (rotr 17 x) (rotr 19 x)) (shr 10 x).

(** The constants are fractional parts of roots of the first primes, on
    32 bits: of the cube roots of the first 64 primes for the rounds, of the
    square roots of the first 8 primes for the initial state. *)
Definition is_prime (n : nat) : bool :=
  (1 <? n)%nat
  && forallb (fun d => negb (n mod d =? 0)%nat) (seq 2 (n - 2)).

Definition primes : list Z :=
  map Z.of_nat (filter is_prime (seq 2 310)).

(** The integer cube root below [2 ^ bits], one bit at a time. *)
Fixpoint cube_root (bits : nat) (n r : Z) : Z :=
  match bits with
  | O => r
  | S b =>
      let c := r + 2 ^ Z.of_nat b in
      cube_root b n (if c * c * c <=? n then c else r)
  end.

Definition K : list Z :=
  Eval vm_compute in
    map (fun p => wrap (cube_root 40 (p * 2 ^ 96) 0)) primes.

Definition H0 : list Z :=
  Eval vm_compute in
    map (fun p => wrap (Z.sqrt (p * 2 ^ 64))) (firstn 8 primes).

(** Big-endian bytes of a number, [n] of them. *)
Fixpoint be_bytes (n : nat) (x : Z) : list Z :=
  match n with
  | O => []
  | S k => Z.shiftr x (8 * Z.of_nat k) mod 256 :: be_bytes k x
  end.

(** Padding: the bit 1, zeros up to 56 modulo 64, the bit length on
    eight bytes. *)
Definition pad (msg : list Z) : list Z :=
  let len := Z.of_nat (List.length msg) in
  let zeros := Z.to_nat ((55 - len) mod 64) in
  msg ++ [0x80] ++ repeat 0 zeros ++ be_bytes 8 (8 * len).

(** The big-endian 32-bit words of a byte list (a tail shorter than four
    bytes is dropped; a padded message has none). *)
Fixpoint words (bs : list Z) : list Z :=
  match bs with
  | a :: b :: c :: d :: r =>
      (Z.shiftl a 24 + Z.shiftl b 16 + Z.shiftl c 8 + d) :: words r
  | _ => []
  end.

(** The message schedule, most recent word first. *)
Fixpoint schedule (n : nat) (ws : list Z) : list Z :=
  match n with
  | O => ws
  | S k =>
      let w := add (add (ssig1 (nth 1 ws 0)) (nth 6 ws 0))
                   (add (ssig0 (nth 14 ws 0)) (nth 15 ws 0)) in
      schedule k (w :: ws)
  end.

Record regs : Type :=
  Regs { ra : Z; rb : Z; rc : Z; rd : Z; re : Z; rf : Z; rg : Z; rh : Z }.

Definition round (r : regs) (kw : Z * Z) : regs :=
  let (k, w) := kw in
  let t1 := add (add (add (add (rh r) (bsig1 (re r)))
                          (Ch (re r) (rf r) (rg r))) k) w in
  let t2 := add (bsig0 (ra r)) (Maj (ra r) (rb r) (rc r)) in
  Regs (add t1 t2) (ra r) (rb r) (rc r) (add (rd r) t1) (re r) (rf r) (rg r).

Definition regs_add (x y : regs) : regs :=
  Regs (add (ra x) (ra y)) (add (rb x) (rb y)) (add (rc x) (rc y))
       (add (rd x) (rd y)) (add (re x) (re y)) (add (rf x) (rf y))
       (add (rg x) (rg y)) (add (rh x) (rh y)).

Definition compress (h : regs) (block : list Z) : regs :=
  let ws := rev (schedule 48 (rev block)) in
  regs_add h (fold_left round (combine K ws) h).

(** The blocks of sixteen words, [n] of them. *)
Fixpoint blocks (n : nat) (ws : list Z) : list (list Z) :=
  match n with
  | O => []
  | S k => firstn 16 ws :: blocks k (skipn 16 ws)
  end.

Definition init : regs :=
  Regs (nth 0 H0 0) (nth 1 H0 0) (nth 2 H0 0) (nth 3 H0 0)
       (nth 4 H0 0) (nth 5 H0 0) (nth 6 H0 0) (nth 7 H0 0).

(** [hashlib.sha256(msg).digest()]. *)
Definition digest (msg : list Z) : list Z :=
  let ws := words (pad msg) in
  let h := fold_left compress (blocks (List.length ws / 16) ws) init in
  flat_map (be_bytes 4)
    [ra h; rb h; rc h; rd h; re h; rf h; rg h; rh h].

End SHA256.

Module HMAC.

Definition block_size : nat := 64.

(** The key on one block: hashed when longer than a block, then filled
    with zero bytes. *)
Definition block_key (key : list Z) : list Z :=
  let k := if (block_size <? List.length key)%nat
           then SHA256.digest key else key in
  k ++ repeat 0 (block_size - List.length k).

Definition xor_pad (p : Z) (k : list Z) : list Z := map (Z.lxor p) k.

(** [hmac.new(key, msg, hashlib.sha256).digest()]. *)
Definition digest (key msg : list Z) : list Z :=
  let k := block_key key in
  SHA256.digest (xor_pad 0x5c k ++ SHA256.digest (xor_pad 0x36 k ++ msg)).

End HMAC.

Definition hex_digit (d : Z) : ascii :=
  if d <? 10 then ascii_of_N (Z.to_N (48 + d))
  else ascii_of_N (Z.to_N (87 + d)).

(** Lower-case hexadecimal of a byte list, as [hexdigest] prints it. *)
Fixpoint hex_of_bytes (bs : list Z) : string :=
  match bs with
  | [] => ""
  | b :: r => String (hex_digit (b / 16))
                (String (hex_digit (b mod 16)) (hex_of_bytes r))
  end.

(** [hmac.new(key, msg, hashlib.sha256).hexdigest()], on encoded
    arguments. *)
Definition hmac_sha256_hex (key msg : list Z) : string :=
  hex_of_bytes (HMAC.digest key msg).

(** ** Python values *)

(** The values that occur as parameter values and in decoded JSON bodies:
    what [json] decodes to, floats apart. Floats, bytes, tuples and sets,
    which a caller could also pass as parameter values, are not modelled. *)
#[warnings="-register-all"]
Inductive pyval : Type :=
| VNone
| VBool (b : bool)
| VInt (z : Z)
| VStr (s : string)
| VList (l : list pyval)
| VDict (d : list (string * pyval)).

Definition pydict : Type := list (string * pyval).

Definition squote : ascii := "039"%char.
Definition dquote : ascii := "034"%char.
Definition backslash : ascii := "092"%char.

(** [s.startswith(p)]. *)
Fixpoint starts_with (p s : string) : bool :=
  match p with
  | EmptyString => true
  | String a p' =>
      match s with
      | EmptyString => false
      | String b s' => Ascii.eqb a b && starts_with p' s'
      end
  end.

(** [c in s] for a character. *)
Fixpoint has_char (c : ascii) (s : string) : bool :=
  match s with
  | EmptyString => false
  | String d r => Ascii.eqb c d || has_char c r
  end.

(** [sub in s] for strings, as a test. *)
Fixpoint has_sub (sub s : string) : bool :=
  starts_with sub s ||
  match s with
  | EmptyString => false
  | String _ r => has_sub sub r
  end.

Definition lower_hex (n : Z) : string :=
  String (hex_digit (n / 16)) (String (hex_digit (n mod 16)) "").

(** One ASCII character of [repr(s)], [q] being the quote that was chosen;
    a byte from 128 on is kept. *)
Definition repr_char (q c : ascii) : string :=
  let n := Z.of_N (N_of_ascii c) in
  if Ascii.eqb c q || Ascii.eqb c backslash then String backslash (String c "")
  else if n =? 9 then String backslash "t"
  else if n =? 10 then String backslash "n"
  else if n =? 13 then String backslash "r"
  else if (n <? 32) || (n =? 127) then String backslash ("x" ++ lower_hex n)
  else String c "".

(** The characters from U+0080 to U+00FF that are not printable: the
    controls up to U+009F, the no-break space U+00A0 and the soft hyphen
    U+00AD. Their encoding is the byte [0xC2] and the byte of that number. *)
Definition latin1_unprintable (c d : ascii) : bool :=
  let m := Z.of_N (N_of_ascii c) in
  let n := Z.of_N (N_of_ascii d) in
  (m =? 0xC2) && (((0x80 <=? n) && (n <=? 0xA0)) || (n =? 0xAD)).

(** The characters of [repr(s)] between the quotes. A character outside
    ASCII is escaped when it is not printable; this is decided here up to
    U+00FF, and the characters above are taken to be printable and kept. *)
Fixpoint repr_chars (q : ascii) (s : string) : string :=
  match s with
  | EmptyString => ""
  | String c r =>
      match r with
      | String d r' =>
          if latin1_unprintable c d
          then String backslash ("x" ++ lower_hex (Z.of_N (N_of_ascii d)))
               ++ repr_chars q r'
          else repr_char q c ++ repr_chars q r
      | EmptyString => repr_char q c ++ repr_chars q r
      end
  end.

(** [repr(s)] of a [str]: single quotes, unless the text has a single quote
    and no double quote. *)
Definition repr_str (s : string) : string :=
  let q := if has_char squote s && negb (has_char dquote s)
           then dquote else squote in
  String q (repr_chars q s ++ String q "").

(** [repr(v)]. *)
Fixpoint py_repr (v : pyval) : string :=
  match v with
  | VNone => "None"
  | VBool true => "True"
  | VBool false => "False"
  | VInt z => str_of_int z
  | VStr s => repr_str s
  | VList l => "[" ++ join ", " (map py_repr l) ++ "]"
  | VDict d =>
      "{" ++ join ", "
               (map (fun kv : string * pyval =>
                       let (k, x) := kv in repr_str k ++ ": " ++ py_repr x)
                    d) ++ "}"
  end.

(** [str(v)]. *)
Definition py_str (v : pyval) : string :=
  match v with
  | VStr s => s
  | _ => py_repr v
  end.

(** ** Dictionaries in insertion order *)

Section Dict.
Context {V : Type}.

(** [d.get(k)]: [None] when the key is absent. *)
Fixpoint dict_get (d : list (string * V)) (k : string) : option V :=
  match d with
  | [] => None
  | (k', v) :: r => if String.eqb k k' then Some v else dict_get r k
  end.

(** [k in d]. *)
Definition dict_mem (d : list (string * V)) (k : string) : bool :=
  match dict_get d k with Some _ => true | None => false end.

(** [d[k] = v]: a present key keeps its place, a new key goes last. *)
Fixpoint dict_set (d : list (string * V)) (k : string) (v : V)
  : list (string * V) :=
  match d with
  | [] => [(k, v)]
  | (k', v') :: r =>
      if String.eqb k k' then (k, v) :: r else (k', v') :: dict_set r k v
  end.
End Dict.

(** ** [sorted(payload.items())]

    The items of a dictionary have pairwise different keys, so that the
    comparison of two items is settled by their keys, which are compared as
    strings. The sort is stable. *)

Definition item_le (a b : string * pyval) : Prop :=
  String.leb (fst a) (fst b) = true.

Fixpoint insert_item (x : string * pyval) (l : pydict) : pydict :=
  match l with
  | [] => [x]
  | y :: r =>
      if String.ltb (fst x) (fst y) then x :: l else y :: insert_item x r
  end.

Definition sorted (l : pydict) : pydict :=
  fold_left (fun acc x => insert_item x acc) l [].

(** ** [urllib.parse]: [quote], [quote_plus], [urlencode] *)

Definition is_alnum (c : ascii) : bool :=
  let n := Z.of_N (N_of_ascii c) in
  ((48 <=? n) && (n <=? 57)) || ((65 <=? n) && (n <=? 90))
  || ((97 <=? n) && (n <=? 122)).

(** The characters [quote] never encodes: letters, digits and [_.-~]. *)
Definition always_safe (c : ascii) : bool :=
  is_alnum c || has_char c "_.-~".

Definition upper_hex_digit (d : Z) : ascii :=
  if d <? 10 then ascii_of_N (Z.to_N (48 + d))
  else ascii_of_N (Z.to_N (55 + d)).

(** [%XX] with upper-case digits. *)
Definition percent (c : ascii) : string :=
  let n := Z.of_N (N_of_ascii c) in
  String "%" (String (upper_hex_digit (n / 16))
                     (String (upper_hex_digit (n mod 16)) "")).

(** [quote(s, safe)]. *)
Fixpoint quote (safe s : string) : string :=
  match s with
  | EmptyString => ""
  | String c r =>
      (if always_safe c || has_char c safe then String c "" else percent c)
      ++ quote safe r
  end.

(** [s.replace(a, b)] for single characters. *)
Fixpoint replace_char (a b : ascii) (s : string) : string :=
  match s with
  | EmptyString => ""
  | String c r => String (if Ascii.eqb c a then b else c) (replace_char a b r)
  end.

(** [quote_plus(s)] with the default [safe='']. *)
Definition quote_plus (s : string) : string :=
  if has_char " " s then replace_char " " "+" (quote " " s)
  else quote "" s.

(** The [key=value] pairs that [urlencode] makes of one item. With [doseq]
    a value that has a length and is not a [str] is iterated (a dictionary
    iterates over its keys); everything else goes through [str]. Of the
    values that have a length, [pyval] has strings, lists and
    dictionaries. *)
Definition encode_item (doseq : bool) (kv : string * pyval) : list string :=
  let (k, v) := kv in
  let k := quote_plus k in
  if doseq then
    match v with
    | VStr s => [k ++ "=" ++ quote_plus s]
    | VList l => map (fun elt => k ++ "=" ++ quote_plus (py_str elt)) l
    | VDict d =>
        map (fun elt : string * pyval => k ++ "=" ++ quote_plus (fst elt)) d
    | _ => [k ++ "=" ++ quote_plus (py_str v)]
    end
  else [k ++ "=" ++ quote_plus (py_str v)].

(** [urlencode(query, doseq)] for a dictionary or a list of items. *)
Definition urlencode (query : pydict) (doseq : bool) : string :=
  join "&" (flat_map (encode_item doseq) query).

(** ** [str.replace]

    [replace_from skip old new s] scans [s] from the left; [skip] counts the
    characters of a match that are still to be passed over. [old] is not
    empty. *)
Fixpoint replace_from (skip : nat) (old new s : string) : string :=
  match s with
  | EmptyString => ""
  | String c r =>
      match skip with
      | S k => replace_from k old new r
      | O =>
          if starts_with old s
          then new ++ replace_from (String.length old - 1) old new r
          else String c (replace_from 0 old new r)
      end
  end.

Definition str_replace (old new s : string) : string :=
  replace_from 0 old new s.

(** ** Exceptions *)

(** The exceptions that can travel through the executors: those of
    [requests.exceptions], the module's own [HTTPRequestError] with its
    three attributes, and the built-in [TypeError], [KeyError] and
    [RecursionError]. The library exceptions carry the text that [str(e)]
    prints. *)
Inductive exn : Type :=
| ConnectionError (m : string)
| Timeout (m : string)
| TooManyRedirects (m : string)
| JSONDecodeError (m : string)
| RequestException (m : string)
| HTTPRequestError (url : string) (code msg : pyval)
| TypeError (m : string)
| KeyError (k : string)
| RecursionError (m : string).

(** The classes named by the [except] clauses. *)
Inductive exn_class : Type :=
| cls_ConnectionError
| cls_Timeout
| cls_TooManyRedirects
| cls_JSONDecodeError
| cls_RequestException
| cls_HTTPRequestError.

(** [isinstance(e, c)]: every exception of [requests.exceptions] derives
    from [RequestException]. *)
Definition isinstance (e : exn) (c : exn_class) : bool :=
  match c, e with
  | cls_ConnectionError, ConnectionError _ => true
  | cls_Timeout, Timeout _ => true
  | cls_TooManyRedirects, TooManyRedirects _ => true
  | cls_JSONDecodeError, JSONDecodeError _ => true
  | cls_RequestException,
    (ConnectionError _ | Timeout _ | TooManyRedirects _
     | JSONDecodeError _ | RequestException _) => true
  | cls_HTTPRequestError, HTTPRequestError _ _ _ => true
  | _, _ => false
  end.

(** [str(e)]; for [HTTPRequestError] this is its [__str__]. *)
Definition exn_str (e : exn) : string :=
  match e with
  | ConnectionError m | Timeout m | TooManyRedirects m
  | JSONDecodeError m | RequestException m | TypeError m
  | RecursionError m => m
  | HTTPRequestError url code msg =>
      "Request to " ++ repr_str url ++ " failed. Code: " ++ py_str code
      ++ "; Message: " ++ py_str msg
  | KeyError k => repr_str k
  end.

Inductive result (A : Type) : Type :=
| Ok (a : A)
| Raise (e : exn).
Arguments Ok {A} a.
Arguments Raise {A} e.

Definition result_bind {A B} (r : result A) (k : A -> result B) : result B :=
  match r with
  | Ok a => k a
  | Raise e => Raise e
  end.

(** [d[k]] on a dictionary. *)
Definition getitem {V} (d : list (string * V)) (k : string) : result V :=
  match dict_get d k with
  | Some v => Ok v
  | None => Raise (KeyError k)
  end.

(** ** [hashing] *)

Definition default_keys : list (string * string) :=
  [("key", ""); ("secret", "")].

(** [if keys is None: keys = {"key": "", "secret": ""}] *)
Definition keys_or_default (keys : option (list (string * string)))
  : list (string * string) :=
  match keys with
  | None => default_keys
  | Some d => d
  end.

Definition hashing (query_string exchange : string) (timestamp : Z)
    (keys : option (list (string * string))) : result string :=
  let keys := keys_or_default keys in
  if String.eqb exchange "bybit" then
    result_bind (getitem keys "key") (fun key =>
    let query_string := str_of_int timestamp ++ key ++ "5000" ++ query_string in
    result_bind (getitem keys "secret") (fun secret =>
    Ok (hmac_sha256_hex (encode_utf8 secret) (encode_utf8 query_string))))
  else
    result_bind (getitem keys "secret") (fun secret =>
    Ok (hmac_sha256_hex (encode_utf8 secret) (encode_utf8 query_string))).

(** ** The world: clock, network, log *)

Inductive verb : Type := GET | DELETE | PUT | POST.

Definition headers : Type := list (string * string).

(** One HTTP request as [requests] is asked to send it. *)
Record request : Type := Request {
  req_verb : verb;
  req_url : string;
  req_headers : headers;
  req_timeout : option Z;
  req_params : option pydict
}.

(** A response: [headers], [text], and what [json()] gives, the message of
    the decode error or the decoded value. *)
Record response : Type := Response {
  resp_headers : headers;
  resp_text : string;
  resp_json : string + pyval
}.

Inductive net_result : Type :=
| NetRaise (e : exn)
| NetReturn (r : response).

Inductive level : Type := DEBUG | WARNING.

Record world : Type := World {
  clock : Z;                          (* what [get_timestamp] reads *)
  session_defaults : headers;         (* headers of a new [requests.Session] *)
  network : request -> net_result;    (* what sending a request gives *)
  log : list (level * string);        (* records of [log] *)
  wire : list request                 (* the requests dispatched so far *)
}.

Definition M (A : Type) : Type := world -> result A * world.

Definition ret {A} (a : A) : M A := fun w => (Ok a, w).

Definition raise {A} (e : exn) : M A := fun w => (Raise e, w).

Definition bind {A B} (m : M A) (k : A -> M B) : M B :=
  fun w =>
    match m w with
    | (Ok a, w') => k a w'
    | (Raise e, w') => (Raise e, w')
    end.

Definition lift {A} (r : result A) : M A := fun w => (r, w).

Declare Scope py_scope.
Delimit Scope py_scope with py.
Notation "x <- c ;; k" := (bind c (fun x => k))
  (at level 61, c at next level, right associativity) : py_scope.
Notation "c ;; k" := (bind c (fun _ => k))
  (at level 61, right associativity) : py_scope.
Local Open Scope py_scope.

Definition emit (l : level) (m : string) : M unit :=
  fun w => (Ok tt, World (clock w) (session_defaults w) (network w)
                         (log w ++ [(l, m)]) (wire w)).

Definition log_debug : string -> M unit := emit DEBUG.
Definition log_warning : string -> M unit := emit WARNING.

Definition get_timestamp : M Z := fun w => (Ok (clock w), w).

(** [try: body except c1: h1 except c2: h2 ...]: the first clause whose
    class the exception is an instance of handles it; with none the
    exception goes on. *)
Definition try_except {A} (body : M A)
    (clauses : list (exn_class * (exn -> M A))) : M A :=
  fun w =>
    match body w with
    | (Ok a, w') => (Ok a, w')
    | (Raise e, w') =>
        match find (fun c => isinstance e (fst c)) clauses with
        | Some (_, handler) => handler e w'
        | None => (Raise e, w')
        end
    end.

(** ** [dispatch_request] *)

Definition lower_char (c : ascii) : ascii :=
  let n := N_of_ascii c in
  if ((65 <=? n) && (n <=? 90))%N then ascii_of_N (n + 32) else c.

Fixpoint lower (s : string) : string :=
  match s with
  | EmptyString => ""
  | String c r => String (lower_char c) (lower r)
  end.

(** Header names do not tell upper from lower case. *)
Definition header_eqb (a b : string) : bool := String.eqb (lower a) (lower b).

Fixpoint header_get (h : headers) (k : string) : option string :=
  match h with
  | [] => None
  | (k', v) :: r => if header_eqb k k' then Some v else header_get r k
  end.

Fixpoint header_set (h : headers) (k v : string) : headers :=
  match h with
  | [] => [(k, v)]
  | (k', v') :: r =>
      if header_eqb k k' then (k, v) :: r else (k', v') :: header_set r k v
  end.

(** [headers.update(d)]. *)
Definition headers_update (h d : headers) : headers :=
  fold_left (fun acc kv => header_set acc (fst kv) (snd kv)) d h.

Record session : Type := Session { session_headers : headers }.

(** What [dispatch_request] returns: a method bound to the session, or the
    default of the lookup, which is a string. *)
Inductive dispatched : Type :=
| BoundMethod (v : verb) (s : session)
| StrObject (s : string).

(** The session of [dispatch_request] after [session.headers.update]. *)
Definition dispatch_session (defaults : headers) (key signature : string)
    (timestamp : Z) : session :=
  Session (headers_update defaults
    [ ("Content-Type", "application/json;charset=utf-8");
      ("X-MBX-APIKEY", key);
      ("X-BAPI-API-KEY", key);
      ("X-BAPI-SIGN", signature);
      ("X-BAPI-SIGN-TYPE", "2");
      ("X-BAPI-TIMESTAMP", str_of_int timestamp);
      ("X-BAPI-RECV-WINDOW", "5000") ]).

Definition dispatch_request (http_method key signature : string)
    (timestamp : Z) : M dispatched :=
  fun w =>
    let session :=
      dispatch_session (session_defaults w) key signature timestamp in
    let methods :=
      [ ("GET", BoundMethod GET session);
        ("DELETE", BoundMethod DELETE session);
        ("PUT", BoundMethod PUT session);
        ("POST", BoundMethod POST session) ] in
    (Ok (match dict_get methods http_method with
         | Some f => f
         | None => StrObject "GET"
         end), w).

(** Calling what [dispatch_request] returned. A bound method sends the
    request; a string is not callable. *)
Definition call (f : dispatched) (url : string) (timeout : option Z)
    (params : option pydict) : M response :=
  match f with
  | StrObject _ => raise (TypeError "'str' object is not callable")
  | BoundMethod v s =>
      fun w =>
        let req := Request v url (session_headers s) timeout params in
        let w' := World (clock w) (session_defaults w) (network w) (log w)
                        (wire w ++ [req]) in
        match network w req with
        | NetRaise e => (Raise e, w')
        | NetReturn r => (Ok r, w')
        end
  end.

(** [response.json()]. *)
Definition response_json (r : response) : M pyval :=
  match resp_json r with
  | inl m => raise (JSONDecodeError m)
  | inr v => ret v
  end.

(** ** Python operators on a decoded body *)

Definition type_name (v : pyval) : string :=
  match v with
  | VNone => "NoneType"
  | VBool _ => "bool"
  | VInt _ => "int"
  | VStr _ => "str"
  | VList _ => "list"
  | VDict _ => "dict"
  end.

Definition is_str (k : string) (v : pyval) : bool :=
  match v with
  | VStr s => String.eqb k s
  | _ => false
  end.

(** [k in v] for a string [k]: a key of a dictionary, an element of a list,
    a part of a string; other values are not iterable. *)
Definition py_in (k : string) (v : pyval) : M bool :=
  match v with
  | VDict d => ret (dict_mem d k)
  | VList l => ret (existsb (is_str k) l)
  | VStr s => ret (has_sub k s)
  | _ => raise (TypeError ("argument of type '" ++ type_name v
                           ++ "' is not iterable"))
  end.

(** [v[k]] for a string [k]. *)
Definition py_getitem (v : pyval) (k : string) : M pyval :=
  match v with
  | VDict d => lift (getitem d k)
  | VList _ =>
      raise (TypeError "list indices must be integers or slices, not str")
  | VStr _ => raise (TypeError "string indices must be integers, not 'str'")
  | _ => raise (TypeError ("'" ++ type_name v
                           ++ "' object is not subscriptable"))
  end.

(** [len(v)]. *)
Definition py_len (v : pyval) : M nat :=
  match v with
  | VStr s => ret (String.length s)
  | VList l => ret (List.length l)
  | VDict d => ret (List.length d)
  | _ => raise (TypeError ("object of type '" ++ type_name v
                           ++ "' has no len()"))
  end.

(** [v != 0]; [False] equals 0. *)
Definition py_ne_zero (v : pyval) : bool :=
  match v with
  | VInt z => negb (z =? 0)
  | VBool b => b
  | _ => true
  end.

(** ** The executors *)

(** What an executor hands back in either place of its pair: a header
    mapping or a value. *)
Inductive pyobj : Type :=
| OHeaders (h : headers)
| OVal (v : pyval).

(** [BlankResponse().content] *)
Definition empty_response : pyobj := OVal (VStr "").

(** The [retCode] test, the same lines in both executors. *)
Definition check_retCode (url : string) (json_response : pyval) : M unit :=
  has_ret <- py_in "retCode" json_response ;;
  if has_ret : bool then
    rc <- py_getitem json_response "retCode" ;;
    if py_ne_zero rc then
      code <- py_getitem json_response "retCode" ;;
      msg <- py_getitem json_response "retMsg" ;;
      raise (HTTPRequestError url code msg)
    else ret tt
  else ret tt.

(** Lines 112 to 121 of [send_public_request]. *)
Definition classify_public (url : string) (json_response : pyval) : M unit :=
  has_code <- py_in "code" json_response ;;
  has_both <- (if has_code : bool then py_in "msg" json_response
               else ret false) ;;
  (if has_both : bool then
     m <- py_getitem json_response "msg" ;;
     n <- py_len m ;;
     if (0 <? n)%nat then
       code <- py_getitem json_response "code" ;;
       msg <- py_getitem json_response "msg" ;;
       raise (HTTPRequestError url code msg)
     else ret tt
   else ret tt) ;;
  check_retCode url json_response.

(** Lines 178 to 186 of [send_signed_request]. *)
Definition classify_signed (url : string) (json_response : pyval) : M unit :=
  has_code <- py_in "code" json_response ;;
  (if has_code : bool then
     code <- py_getitem json_response "code" ;;
     msg <- py_getitem json_response "msg" ;;
     raise (HTTPRequestError url code msg)
   else ret tt) ;;
  check_retCode url json_response.

Definition warn_and_go_on (text : exn -> string)
  : exn -> M (option (pyobj * pyobj)) :=
  fun e => log_warning (text e) ;; ret None.

Definition public_clauses
  : list (exn_class * (exn -> M (option (pyobj * pyobj)))) :=
  [ (cls_ConnectionError, warn_and_go_on (fun _ => "Connection error"));
    (cls_Timeout, warn_and_go_on (fun _ => "Request timed out"));
    (cls_TooManyRedirects, warn_and_go_on (fun _ => "Too many redirects"));
    (cls_JSONDecodeError,
      warn_and_go_on (fun e => "JSON decode error: " ++ exn_str e));
    (cls_RequestException,
      warn_and_go_on (fun e => "Request exception: " ++ exn_str e));
    (cls_HTTPRequestError,
      warn_and_go_on (fun e => "HTTP Request error: " ++ exn_str e)) ].

Definition signed_clauses
  : list (exn_class * (exn -> M (option (pyobj * pyobj)))) :=
  [ (cls_ConnectionError, warn_and_go_on (fun _ => "Connection error"));
    (cls_Timeout, warn_and_go_on (fun _ => "Request timed out"));
    (cls_TooManyRedirects, warn_and_go_on (fun _ => "Too many redirects"));
    (cls_RequestException,
      warn_and_go_on (fun e => "Request exception: " ++ exn_str e));
    (cls_JSONDecodeError,
      warn_and_go_on (fun e => "JSON decode error: " ++ exn_str e));
    (cls_HTTPRequestError,
      warn_and_go_on (fun e => "HTTP Request error: " ++ exn_str e)) ].

(** The URL that [send_public_request] requests. *)
Definition public_url (url : string) (url_path : option string)
    (payload : option pydict) : string :=
  let url := match url_path with Some p => url ++ p | None => url end in
  let payload := match payload with Some p => p | None => [] end in
  let query_string := urlencode payload true in
  if String.eqb query_string "" then url else url ++ "?" ++ query_string.

(** The [try] block of [send_public_request]; [Some] is a [return] inside
    the block. *)
Definition public_try (url method : string) (json : bool)
  : M (option (pyobj * pyobj)) :=
  f <- dispatch_request method "" "" (-1) ;;
  response <- call f url (Some 5) None ;;
  let headers := resp_headers response in
  if negb json then ret (Some (OHeaders headers, OVal (VStr (resp_text response))))
  else
    json_response <- response_json response ;;
    classify_public url json_response ;;
    ret (Some (OHeaders headers, OVal json_response)).

Definition send_public_request (url method : string)
    (url_path : option string) (payload : option pydict) (json : bool)
  : M (pyobj * pyobj) :=
  let url := public_url url url_path payload in
  log_debug ("Requesting " ++ url) ;;
  r <- try_except (public_try url method json) public_clauses ;;
  match r with
  | Some x => ret x
  | None => ret (empty_response, empty_response)
  end.

(** The canonical query string of [send_signed_request], from the payload
    after the timestamp went in. *)
Definition signed_query_string (payload : pydict) : string :=
  str_replace "%27" "%22" (urlencode (sorted payload) false).

(** The payload of [send_signed_request] when the query is built. *)
Definition signed_payload (payload : option pydict) (exchange : string)
    (timestamp : Z) : pydict :=
  let payload := match payload with Some p => p | None => [] end in
  if String.eqb exchange "binance"
  then dict_set payload "timestamp" (VInt timestamp)
  else payload.

(** The [try] block of [send_signed_request]. *)
Definition signed_try (url http_method query_string exchange : string)
    (timestamp : Z) (keys : list (string * string))
  : M (option (pyobj * pyobj)) :=
  key <- lift (getitem keys "key") ;;
  signature <- lift (hashing query_string exchange timestamp (Some keys)) ;;
  f <- dispatch_request http_method key signature timestamp ;;
  response <- call f url None (Some []) ;;
  let headers := resp_headers response in
  json_response <- response_json response ;;
  classify_signed url json_response ;;
  ret (Some (OHeaders headers, OVal json_response)).

(** What [f"{base_url}"] prints. *)
Definition base_url_text (base_url : option string) : string :=
  match base_url with
  | Some b => b
  | None => "<class 'str'>"
  end.

(** [base_url] has the class [str] as its default, which an f-string
    prints as below; [None] stands for the argument left out. *)
Definition send_signed_request (http_method url_path : string)
    (payload : option pydict) (exchange : string) (base_url : option string)
    (keys : option (list (string * string))) : M (pyobj * pyobj) :=
  let keys := keys_or_default keys in
  let base_url := base_url_text base_url in
  timestamp <- get_timestamp ;;
  let payload := signed_payload payload exchange timestamp in
  let query_string := signed_query_string payload in
  let url := base_url ++ url_path ++ "?" ++ query_string in
  url <- (if String.eqb exchange "binance"
          then signature <- lift (hashing query_string exchange (-1)
                                          (Some keys)) ;;
               ret (url ++ "&signature=" ++ signature)
          else ret url) ;;
  log_debug ("Requesting " ++ url) ;;
  r <- try_except
         (signed_try url http_method query_string exchange timestamp keys)
         signed_clauses ;;
  match r with
  | Some x => ret x
  | None => ret (empty_response, empty_response)
  end.

(** The name under which [dispatch_request] knows a verb. *)
Definition verb_name (v : verb) : string :=
  match v with
  | GET => "GET"
  | DELETE => "DELETE"
  | PUT => "PUT"
  | POST => "POST"
  end.

(** The digest that [hashing] makes of a message under a secret. *)
Definition sign (secret message : string) : string :=
  hmac_sha256_hex (encode_utf8 secret) (encode_utf8 message).

(** [world] after one more log record, and after one more request. *)
Definition logged (w : world) (l : level) (m : string) : world :=
  World (clock w) (session_defaults w) (network w) (log w ++ [(l, m)]) (wire w).

Definition sent (w : world) (r : request) : world :=
  World (clock w) (session_defaults w) (network w) (log w) (wire w ++ [r]).

(** The first character of a string, if any. *)
Definition str_head (s : string) : option ascii :=
  match s with
  | EmptyString => None
  | String c _ => Some c
  end.

(** The step of [send_signed_request] that turns an encoded single quote
    into an encoded double quote. *)
Definition fix_quotes (s : string) : string := str_replace "%27" "%22" s.

(** [all(f(c) for c in s)]. *)
Fixpoint str_forall (f : ascii -> bool) (s : string) : bool :=
  match s with
  | EmptyString => true
  | String c r => f c && str_forall f r
  end.

(** What an executor makes of the outcome of its [try] block: a [return]
    inside the block stands, an exception that a clause names is logged and
    the pair of empty strings returned, any other exception goes on. *)
Definition finish (clauses : list (exn_class * (exn -> M (option (pyobj * pyobj)))))
    (outcome : result (option (pyobj * pyobj)) * world)
  : result (pyobj * pyobj) * world :=
  match outcome with
  | (Ok (Some x), w) => (Ok x, w)
  | (Ok None, w) => (Ok (empty_response, empty_response), w)
  | (Raise e, w) =>
      match find (fun c => isinstance e (fst c)) clauses with
      | Some (_, handler) =>
          match handler e w with
          | (Ok (Some x), w') => (Ok x, w')
          | (Ok None, w') => (Ok (empty_response, empty_response), w')
          | (Raise e', w') => (Raise e', w')
          end
      | None => (Raise e, w)
      end
  end.

(** A computation that neither reads nor changes the world, and its
    result. *)
Definition pure {A} (m : M A) : Prop :=
  exists r, forall w, m w = (r, w).

Definition blank_world : world :=
  World 0 [] (fun _ => NetRaise (ConnectionError "")) [] [].

Definition run_pure {A} (m : M A) : result A := fst (m blank_world).

(** The request of the public executor for a verb and a URL. *)
Definition public_request (v : verb) (url : string) (w : world) : request :=
  Request v url
    (session_headers (dispatch_session (session_defaults w) "" "" (-1)))
    (Some 5) None.

(** The failures that the executors are meant to absorb. *)
Definition transport_fault (e : exn) : bool :=
  match e with
  | ConnectionError _ | Timeout _ | TooManyRedirects _ => true
  | _ => false
  end.

(** The names that [dispatch_request] knows. *)
Definition known_verbs : list string := ["GET"; "DELETE"; "PUT"; "POST"].

(** The signature that the signed executor puts in [X-BAPI-SIGN]. *)
Definition header_signature (exchange key secret query_string : string)
    (timestamp : Z) : string :=
  sign secret
    (if String.eqb exchange "bybit"
     then str_of_int timestamp ++ key ++ "5000" ++ query_string
     else query_string).

(** The URL that the signed executor requests. *)
Definition signed_url (base_url : option string) (url_path : string)
    (payload : option pydict) (exchange secret : string) (timestamp : Z)
  : string :=
  let query_string :=
    signed_query_string (signed_payload payload exchange timestamp) in
  let url := base_url_text base_url ++ url_path ++ "?" ++ query_string in
  if String.eqb exchange "binance"
  then url ++ "&signature=" ++ sign secret query_string
  else url.

(** The request of the signed executor for a verb. *)
Definition signed_request (v : verb) (base_url : option string)
    (url_path : string) (payload : option pydict)
    (exchange key secret : string) (w : world) : request :=
  let query_string :=
    signed_query_string (signed_payload payload exchange (clock w)) in
  Request v
    (signed_url base_url url_path payload exchange secret (clock w))
    (session_headers
       (dispatch_session (session_defaults w) key
          (header_signature exchange key secret query_string (clock w))
          (clock w)))
    None (Some []).

(** The ways in which a call of the public executor fails: the request
    meets a transport fault, the body of the response does not decode when
    JSON was asked for, or the decoded body is classified as an error. *)
Inductive public_failure (w : world) (req : request) (url : string)
    (json : bool) : Prop :=
| public_transport (e : exn) :
    network w req = NetRaise e -> transport_fault e = true ->
    public_failure w req url json
| public_decode (r : response) (m : string) :
    network w req = NetReturn r -> json = true -> resp_json r = inl m ->
    public_failure w req url json
| public_application (r : response) (body code msg : pyval) :
    network w req = NetReturn r -> json = true -> resp_json r = inr body ->
    run_pure (classify_public url body) = Raise (HTTPRequestError url code msg) ->
    public_failure w req url json.

(** The same for the signed executor, which always decodes. *)
Inductive signed_failure (w : world) (req : request) (url : string) : Prop :=
| signed_transport (e : exn) :
    network w req = NetRaise e -> transport_fault e = true ->
    signed_failure w req url
| signed_decode (r : response) (m : string) :
    network w req = NetReturn r -> resp_json r = inl m ->
    signed_failure w req url
| signed_application (r : response) (body code msg : pyval) :
    network w req = NetReturn r -> resp_json r = inr body ->
    run_pure (classify_signed url body) = Raise (HTTPRequestError url code msg) ->
    signed_failure w req url.

(** A world for examples: the clock reads [1700000000000], a new session
    has no headers, every request gets the same answer, nothing was logged
    or sent. *)
Definition answering (a : net_result) : world :=
  World 1700000000000 [] (fun _ => a) [] [].

(** The pair that [urlencode] without [doseq] makes of an item. *)
Definition encode_pair (kv : string * pyval) : string :=
  quote_plus (fst kv) ++ "=" ++ quote_plus (py_str (snd kv)).

(** ** The text helpers: [find_in_string],
       [find_all_occurrences_in_string], [remove_non_alphanumeric]

    Indices count the bytes of the encoded text. An occurrence of an encoded
    text in another starts where a character starts, so that the slices cut
    below are the texts that Python cuts. *)

(** [s[n:]] and [s[:n]] for an index that is not negative. *)
Fixpoint str_drop (n : nat) (s : string) : string :=
  match n, s with
  | O, _ => s
  | S _, EmptyString => ""
  | S k, String _ r => str_drop k r
  end.

Fixpoint str_take (n : nat) (s : string) : string :=
  match n, s with
  | O, _ => ""
  | S _, EmptyString => ""
  | S k, String c r => String c (str_take k r)
  end.

(** [s[a:b]]; the helpers never pass a negative index. *)
Definition slice (a b : Z) (s : string) : string :=
  str_take (Z.to_nat (b - a)) (str_drop (Z.to_nat a) s).

(** The index of the first occurrence of [sub] in [s]. *)
Fixpoint find_first (sub s : string) : option nat :=
  if starts_with sub s then Some O
  else match s with
       | EmptyString => None
       | String _ r => option_map S (find_first sub r)
       end.

(** [s.find(sub, start)]: the lowest index from [start] on where [sub]
    occurs, [-1] when there is none. *)
Definition str_find (s sub : string) (start : Z) : Z :=
  if Z.of_nat (String.length s) <? start then -1
  else match find_first sub (str_drop (Z.to_nat start) s) with
       | Some i => start + Z.of_nat i
       | None => -1
       end.

Definition len (s : string) : Z := Z.of_nat (String.length s).

(** The text that [find_in_string] cuts out, before [return_json] is looked
    at (lines 237 to 245). *)
Definition find_text (s start_substring : string)
    (end_substring : option string) : string :=
  let text := "" in
  let start_index := str_find s start_substring 0 in
  if -1 <? start_index then
    match end_substring with
    | None =>
        slice (start_index + len start_substring) (len s) s
    | Some end_substring =>
        let end_index := str_find s end_substring start_index in
        if -1 <? end_index
        then slice (start_index + len start_substring) end_index s
        else text
    end
  else text.

(** What a call of [json.loads] comes to: the decoded value, a [ValueError]
    with its message (the decode error of [json] is one), or an exception of
    another class, such as [RecursionError] for a text nested too deep. *)
Inductive loads_outcome : Type :=
| Loaded (v : pyval)
| LoadsValueError (m : string)
| LoadsRaises (e : exn).

(** [find_in_string]; [loads] is [json.loads]. The [except] clause names
    [ValueError] alone. *)
Definition find_in_string (loads : string -> loads_outcome)
    (s start_substring : string) (end_substring : option string)
    (return_json : bool) : M pyval :=
  if -1 <? str_find s start_substring 0 then
    let text := find_text s start_substring end_substring in
    if (0 <? len text) && return_json
    then match loads text with
         | Loaded v => ret v
         | LoadsValueError m =>
             log_warning ("JSON decode error: " ++ m) ;; ret (VStr text)
         | LoadsRaises e => raise e
         end
    else ret (VStr text)
  else ret (VStr "").

(** A byte that goes on a character begun before it. *)
Definition is_continuation (c : ascii) : bool :=
  let n := Z.of_N (N_of_ascii c) in
  (128 <=? n) && (n <? 192).

Fixpoint skip_continuation (s : string) : nat :=
  match s with
  | EmptyString => O
  | String c r => if is_continuation c then S (skip_continuation r) else O
  end.

(** [start_index + 1], the index of the next character: among the bytes of
    the text that is the index behind the character that starts at
    [start_index]. *)
Definition next_index (s : string) (start_index : Z) : Z :=
  start_index + 1
  + Z.of_nat (skip_continuation (str_drop (Z.to_nat (start_index + 1)) s)).

(** [len(s)], the number of characters of the text. *)
Fixpoint char_count (s : string) : nat :=
  match s with
  | EmptyString => O
  | String c r => if is_continuation c then char_count r else S (char_count r)
  end.

(** The encoding of a text does not begin with a continuation byte. *)
Definition well_started (s : string) : bool :=
  match s with
  | EmptyString => true
  | String c _ => negb (is_continuation c)
  end.

(** The [while] loop of [find_all_occurrences_in_string], with a bound on
    the number of turns; [None] when the bound is used up. The search for the
    next start marker begins one character behind the last one. *)
Fixpoint occurrences_loop (fuel : nat) (s start_substring end_substring
    : string) (start_index : Z) (occurences : list string)
  : option (list string) :=
  match fuel with
  | O => None
  | S fuel =>
      if -1 <? start_index then
        let end_index :=
          str_find s end_substring (start_index + len start_substring) in
        if end_index =? -1 then Some occurences
        else
          let text :=
            slice (start_index + len start_substring) end_index s in
          occurrences_loop fuel s start_substring end_substring
            (str_find s start_substring (next_index s start_index))
            (occurences ++ [text])
      else Some occurences
  end.

Definition find_all_occurrences_in_string (fuel : nat)
    (s start_substring end_substring : string) : option (list string) :=
  occurrences_loop fuel s start_substring end_substring
    (str_find s start_substring 0) [].

(** The characters that [[^0-9a-zA-Z ]] does not match. *)
Definition kept_char (c : ascii) : bool := is_alnum c || Ascii.eqb c " ".

(** The length of the match of [[^0-9a-zA-Z ]+] at the start of [s]; [0]
    when it does not match there. *)
Fixpoint match_run (s : string) : nat :=
  match s with
  | EmptyString => O
  | String c r => if kept_char c then O else S (match_run r)
  end.

(** [re.sub(pattern, "", s)] for that pattern: a match is left out and the
    scan goes on behind it; [skip] counts the characters of the match still
    to pass. *)
Fixpoint sub_runs (skip : nat) (s : string) : string :=
  match s with
  | EmptyString => ""
  | String c r =>
      match skip with
      | S k => sub_runs k r
      | O =>
          match match_run s with
          | O => String c (sub_runs 0 r)
          | S k => "" ++ sub_runs k r
          end
      end
  end.

Definition remove_non_alphanumeric (s : string) : string := sub_runs 0 s.

(** The characters of a string that a test accepts. *)
Fixpoint str_filter (f : ascii -> bool) (s : string) : string :=
  match s with
  | EmptyString => ""
  | String c r => if f c then String c (str_filter f r) else str_filter f r
  end.

(** The values of which [urlencode] with [doseq] makes at least one pair:
    what is not iterated, and the lists and dictionaries that are not
    empty. *)
Definition gives_pair (v : pyval) : bool :=
  match v with
  | VNone | VBool _ | VInt _ | VStr _ => true
  | VList (_ :: _) => true
  | VDict (_ :: _) => true
  | _ => false
  end.

(** * Checks of the embedding on known values *)

(** The digests of FIPS 180-4 (the message abc) and of RFC 4231, test
    case 2. *)
Example sha256_abc :
  hex_of_bytes (SHA256.digest (encode_utf8 "abc"))
  = "ba7816bf8f01cfea414140de5dae2223b00361a396177a9cb410ff61f20015ad".
Proof. vm_compute. reflexivity. Qed.

Example hmac_sha256_rfc4231_2 :
  hmac_sha256_hex (encode_utf8 "Jefe")
                  (encode_utf8 "what do ya want for nothing?")
  = "5bdcc146bf60754e6a042426089575c75a003f089d2739839dec58b964ec3843".
Proof. vm_compute. reflexivity. Qed.

Example str_of_int_examples :
  str_of_int 0 = "0" /\ str_of_int (-1) = "-1"
  /\ str_of_int 1700000000000 = "1700000000000".
Proof. vm_compute. repeat split. Qed.

Example hmac_sha256_rfc4231_6 :
  hmac_sha256_hex (repeat 0xaa 131)
    (encode_utf8 "Test Using Larger Than Block-Size Key - Hash Key First")
  = "60e431591ee0b67f0d8a26aacbf5b77f8e0bc6213728c5140546040f0ee37f54".
Proof. vm_compute. reflexivity. Qed.

Example urlencode_examples :
  urlencode [("symbol", VStr "BTC USDT"); ("ids", VList [VInt 1; VInt 2])] true
  = "symbol=BTC+USDT&ids=1&ids=2"
  /\ urlencode [("symbol", VStr "a'b/c~"); ("ids", VList [VStr "x"; VInt 2])]
       false
     = "symbol=a%27b%2Fc~&ids=%5B%27x%27%2C+2%5D"
  /\ str_replace "%27" "%22" "a%27b%2%277%27" = "a%22b%2%227%22"
  /\ sorted [("b", VInt 1); ("a", VInt 2); ("c", VNone)]
     = [("a", VInt 2); ("b", VInt 1); ("c", VNone)].
Proof. vm_compute. repeat split. Qed.

Example repr_examples :
  py_str (VList [VStr "a"; VInt 2; VNone; VBool true]) = "['a', 2, None, True]"
  /\ py_repr (VDict [("k", VStr "it's")])
     = String "{" ("'k': " ++ String dquote ("it's" ++ String dquote "}")).
Proof. vm_compute. split; reflexivity. Qed.

(** * Strings *)

Lemma append_assoc (a b c : string) : (a ++ b) ++ c = a ++ b ++ c.
Proof. induction a as [|x a IH]; simpl; [reflexivity | now rewrite IH]. Qed.

Lemma append_nil_r (a : string) : a ++ "" = a.
Proof. induction a as [|x a IH]; simpl; [reflexivity | now rewrite IH]. Qed.

Lemma starts_with_cons (c : ascii) (p : string) (d : ascii) (s : string) :
  starts_with (String c p) (String d s) = true
  <-> c = d /\ starts_with p s = true.
Proof. simpl. now rewrite andb_true_iff, Ascii.eqb_eq. Qed.

Lemma starts_with_iff (p s : string) :
  starts_with p s = true <-> exists t, s = p ++ t.
Proof.
  revert s; induction p as [|c p IH]; intros s.
  - split; [intros _; now exists s | reflexivity].
  - destruct s as [|d s].
    + split; [discriminate | intros [t H]; discriminate].
    + rewrite starts_with_cons, IH. split.
      * intros [-> [t ->]]. now exists t.
      * intros [t H]. injection H as -> ->. split; [reflexivity | now exists t].
Qed.

Lemma has_sub_eq (sub s : string) :
  has_sub sub s
  = starts_with sub s
    || match s with EmptyString => false | String _ r => has_sub sub r end.
Proof. destruct s; reflexivity. Qed.

(** [has_sub] decides [contains]. *)
Lemma has_sub_iff (sub s : string) :
  has_sub sub s = true <-> contains s sub.
Proof.
  unfold contains. induction s as [|c s IH].
  - rewrite has_sub_eq, orb_false_r, starts_with_iff. split.
    + intros [t H]. now exists "", t.
    + intros [[|x a] [b H]]; [now exists b | discriminate].
  - rewrite has_sub_eq, orb_true_iff, starts_with_iff, IH. split.
    + intros [[t H] | [a [b H]]].
      * now exists "", t.
      * exists (String c a), b. simpl. now rewrite H.
    + intros [[|x a] [b H]].
      * left. now exists b.
      * right. injection H as _ H. now exists a, b.
Qed.

Lemma contains_refl (s : string) : contains s s.
Proof. exists "", "". simpl. now rewrite append_nil_r. Qed.

Lemma contains_trans (s y x : string) :
  contains s y -> contains y x -> contains s x.
Proof.
  intros [a [b ->]] [a' [b' ->]]. exists (a ++ a'), (b' ++ b).
  now rewrite !append_assoc.
Qed.

Lemma contains_app_l (a b x : string) : contains a x -> contains (a ++ b) x.
Proof.
  intros [p [q ->]]. exists p, (q ++ b). now rewrite !append_assoc.
Qed.

Lemma contains_app_r (a b x : string) : contains b x -> contains (a ++ b) x.
Proof.
  intros [p [q ->]]. exists (a ++ p), q. now rewrite !append_assoc.
Qed.

Lemma contains_join (sep x : string) (l : list string) :
  In x l -> contains (join sep l) x.
Proof.
  induction l as [|y l IH]; intros H; [contradiction|].
  destruct H as [-> | H].
  - destruct l; [apply contains_refl | apply contains_app_l, contains_refl].
  - destruct l as [|z l]; [contradiction|].
    change (contains (y ++ sep ++ join sep (z :: l)) x).
    now apply contains_app_r, contains_app_r, IH.
Qed.

Lemma contains_nonempty (s x : string) : contains s x -> x <> "" -> s <> "".
Proof.
  intros [a [b ->]] Hx H. destruct a; [destruct x; [now apply Hx | discriminate] | discriminate].
Qed.

(** * [str.replace] of [%27] by [%22] *)

Lemma fix_quotes_match (r : string) :
  fix_quotes ("%27" ++ r) = "%22" ++ fix_quotes r.
Proof. reflexivity. Qed.

Lemma fix_quotes_other (c : ascii) (r : string) :
  starts_with "%27" (String c r) = false ->
  fix_quotes (String c r) = String c (fix_quotes r).
Proof.
  intros H. unfold fix_quotes, str_replace. 
  change (replace_from 0 "%27" "%22" (String c r))
    with (if starts_with "%27" (String c r)
          then "%22" ++ replace_from (String.length "%27" - 1) "%27" "%22" r
          else String c (replace_from 0 "%27" "%22" r)).
  now rewrite H.
Qed.

(** Induction along the scan of [str.replace]. *)
Lemma fix_quotes_ind (P : string -> Prop) :
  P "" ->
  (forall r, P r -> P ("%27" ++ r)) ->
  (forall c r, starts_with "%27" (String c r) = false -> P r -> P (String c r)) ->
  forall s, P s.
Proof.
  intros Hnil Hmatch Hother s.
  assert (H : forall n s, (String.length s <= n)%nat -> P s).
  { clear s. induction n as [|n IH]; intros s Hlen.
    - destruct s; [exact Hnil | simpl in Hlen; lia].
    - destruct s as [|c r]; [exact Hnil|].
      destruct (starts_with "%27" (String c r)) eqn:E.
      + apply starts_with_iff in E as [t E]. rewrite E. apply Hmatch, IH.
        rewrite E in Hlen. simpl in Hlen. lia.
      + apply Hother; [exact E|]. apply IH. simpl in Hlen. lia. }
  apply (H (String.length s)). lia.
Qed.

Lemma fix_quotes_head (s : string) : str_head (fix_quotes s) = str_head s.
Proof.
  destruct s as [|c r]; [reflexivity|].
  destruct (starts_with "%27" (String c r)) eqn:E.
  - apply starts_with_iff in E as [t E]. rewrite E. reflexivity.
  - now rewrite fix_quotes_other.
Qed.

Lemma str_head_prefix (c : ascii) (p s : string) :
  starts_with (String c p) s = true -> str_head s = Some c.
Proof. destruct s as [|d s]; [discriminate|]. rewrite starts_with_cons. now intros [-> _]. Qed.

Lemma str_head_cons (s : string) (c : ascii) :
  str_head s = Some c -> exists r, s = String c r.
Proof. destruct s as [|d s]; [discriminate|]. intros [= ->]. now exists s. Qed.

(** The result of the replacement does not begin with [%27]. *)
Lemma fix_quotes_prefix (s : string) : starts_with "%27" (fix_quotes s) = false.
Proof.
  destruct s as [|c r]; [reflexivity|].
  destruct (starts_with "%27" (String c r)) eqn:E.
  - apply starts_with_iff in E as [t E]. rewrite E. reflexivity.
  - rewrite fix_quotes_other by exact E.
    apply not_true_iff_false. intros H. apply not_true_iff_false in E. apply E.
    apply starts_with_cons in H as [Hc H]. apply starts_with_cons. split; [exact Hc|].
    pose proof (str_head_prefix _ _ _ H) as Hh. rewrite fix_quotes_head in Hh.
    apply str_head_cons in Hh as [r1 ->].
    rewrite fix_quotes_other in H by reflexivity.
    apply starts_with_cons in H as [_ H]. apply starts_with_cons. split; [reflexivity|].
    pose proof (str_head_prefix _ _ _ H) as Hh. rewrite fix_quotes_head in Hh.
    apply str_head_cons in Hh as [r2 ->]. reflexivity.
Qed.

(** No [%27] is left after the replacement. *)
Lemma fix_quotes_clean (s : string) : has_sub "%27" (fix_quotes s) = false.
Proof.
  induction s as [| r IH | c r E IH] using fix_quotes_ind.
  - reflexivity.
  - rewrite fix_quotes_match.
    change (has_sub "%27" ("%22" ++ fix_quotes r))
      with (false || (false || (false || has_sub "%27" (fix_quotes r)))).
    exact IH.
  - rewrite fix_quotes_other by exact E.
    rewrite has_sub_eq, IH, orb_false_r.
    rewrite <- (fix_quotes_other c r E). apply fix_quotes_prefix.
Qed.

(** An occurrence of [%27] leaves a [%22]. *)
Lemma fix_quotes_hit (s : string) :
  contains s "%27" -> contains (fix_quotes s) "%22".
Proof.
  intros [a [b ->]]. induction a as [|c a IH].
  - exists "", (fix_quotes b). reflexivity.
  - change (String c a ++ "%27" ++ b) with (String c (a ++ "%27" ++ b)).
    destruct (starts_with "%27" (String c (a ++ "%27" ++ b))) eqn:E.
    + apply starts_with_iff in E as [t E]. rewrite E.
      exists "", (fix_quotes t). reflexivity.
    + rewrite fix_quotes_other by exact E.
      apply (contains_app_r (String c "")), IH.
Qed.

(** The replacement works on the two parts of a string apart when the
    second part begins with neither [2] nor [7]. *)
Lemma fix_quotes_app (a b : string) :
  str_head b <> Some "2"%char -> str_head b <> Some "7"%char ->
  fix_quotes (a ++ b) = fix_quotes a ++ fix_quotes b.
Proof.
  intros H2 H7. induction a as [| r IH | c r E IH] using fix_quotes_ind.
  - reflexivity.
  - change (("%27" ++ r) ++ b) with ("%27" ++ (r ++ b)).
    rewrite !fix_quotes_match, IH. reflexivity.
  - change (String c r ++ b) with (String c (r ++ b)).
    rewrite (fix_quotes_other c r E).
    rewrite fix_quotes_other; [now rewrite IH|].
    apply not_true_iff_false. intros H. apply not_true_iff_false in E. apply E.
    apply starts_with_cons in H as [Hc H]. apply starts_with_cons. split; [exact Hc|].
    destruct r as [|d r].
    + apply str_head_prefix in H. contradiction.
    + apply starts_with_cons in H as [Hd H]. apply starts_with_cons. split; [exact Hd|].
      destruct r as [|e r].
      * apply str_head_prefix in H. contradiction.
      * apply starts_with_cons in H as [He _]. apply starts_with_cons. split; [exact He|].
        reflexivity.
Qed.

(** A part without [%] is left as it is. *)
Lemma fix_quotes_plain (x b : string) :
  has_char "%" x = false -> fix_quotes (x ++ b) = x ++ fix_quotes b.
Proof.
  induction x as [|c x IH]; intros H; [reflexivity|].
  simpl in H. apply orb_false_iff in H as [Hc H].
  change (String c x ++ b) with (String c (x ++ b)).
  rewrite fix_quotes_other.
  - now rewrite IH.
  - apply not_true_iff_false. intros E. apply starts_with_cons in E as [<- _].
    discriminate.
Qed.

(** * [sorted] *)

Lemma insert_item_perm (x : string * pyval) (l : pydict) :
  Permutation (x :: l) (insert_item x l).
Proof.
  induction l as [|y l IH]; simpl; [apply Permutation_refl|].
  destruct (String.ltb (fst x) (fst y)); [apply Permutation_refl|].
  eapply perm_trans; [apply perm_swap | now apply perm_skip].
Qed.

Lemma ltb_false_leb (a b : string) :
  String.ltb a b = false -> String.leb b a = true.
Proof.
  unfold String.ltb, String.leb. rewrite (String.compare_antisym b a).
  destruct (String.compare a b); simpl; congruence.
Qed.

Lemma ltb_true_leb (a b : string) :
  String.ltb a b = true -> String.leb a b = true.
Proof.
  unfold String.ltb, String.leb. destruct (String.compare a b); congruence.
Qed.

Lemma insert_item_hd (x a : string * pyval) (l : pydict) :
  item_le a x -> HdRel item_le a l -> HdRel item_le a (insert_item x l).
Proof.
  intros Hax Hl. destruct l as [|y l]; simpl.
  - now constructor.
  - destruct (String.ltb (fst x) (fst y)); constructor;
      [exact Hax | now inversion Hl].
Qed.

Lemma insert_item_sorted (x : string * pyval) (l : pydict) :
  Sorted item_le l -> Sorted item_le (insert_item x l).
Proof.
  induction 1 as [|y l Hs IH Hhd]; simpl.
  - repeat constructor.
  - destruct (String.ltb (fst x) (fst y)) eqn:E.
    + constructor; [now constructor|]. constructor. now apply ltb_true_leb.
    + constructor; [exact IH|]. apply insert_item_hd; [|exact Hhd].
      now apply ltb_false_leb.
Qed.

Lemma sorted_from_perm (l acc : pydict) :
  Permutation (acc ++ l)
    (fold_left (fun acc x => insert_item x acc) l acc).
Proof.
  revert acc; induction l as [|x l IH]; intros acc; simpl.
  - rewrite app_nil_r. apply Permutation_refl.
  - eapply perm_trans; [|apply IH].
    eapply perm_trans; [apply Permutation_sym, Permutation_middle|].
    exact (Permutation_app_tail l (insert_item_perm x acc)).
Qed.

(** [sorted] gives the items of its argument. *)
Lemma sorted_perm (l : pydict) : Permutation l (sorted l).
Proof. exact (sorted_from_perm l []). Qed.

(** [sorted] gives them in the order of their keys. *)
Lemma sorted_Sorted (l : pydict) : Sorted item_le (sorted l).
Proof.
  unfold sorted. generalize (Sorted_nil item_le). generalize (@nil (string * pyval)).
  induction l as [|x l IH]; intros acc H; simpl; [exact H|].
  now apply IH, insert_item_sorted.
Qed.

Lemma sorted_In (l : pydict) (x : string * pyval) : In x l <-> In x (sorted l).
Proof.
  split; apply Permutation_in; [|apply Permutation_sym]; apply sorted_perm.
Qed.

Lemma sorted_nil_iff (l : pydict) : sorted l = [] <-> l = [].
Proof.
  split; [|now intros ->]. intros H. pose proof (sorted_perm l) as P.
  rewrite H in P. now apply Permutation_sym, Permutation_nil in P.
Qed.

(** * Dictionaries *)

Lemma dict_set_In {V} (d : list (string * V)) (k : string) (v : V) :
  In (k, v) (dict_set d k v).
Proof.
  induction d as [|[k' v'] d IH]; simpl; [now left|].
  destruct (String.eqb k k'); [now left | now right].
Qed.

Lemma dict_set_other {V} (d : list (string * V)) (k k0 : string) (v v0 : V) :
  k <> k0 -> In (k, v) d -> In (k, v) (dict_set d k0 v0).
Proof.
  intros Hk. induction d as [|[k' v'] d IH]; intros H; [contradiction|].
  simpl. destruct (String.eqb_spec k0 k') as [->|E].
  - destruct H as [H|H]; [injection H as H _; congruence | now right].
  - destruct H as [H|H]; [now left | right; now apply IH].
Qed.

(** * [quote], [quote_plus], [urlencode] *)

Lemma replace_char_app (a b : ascii) (x y : string) :
  replace_char a b (x ++ y) = replace_char a b x ++ replace_char a b y.
Proof. induction x as [|c x IH]; simpl; [reflexivity | now rewrite IH]. Qed.

Lemma quote_single_quote (safe s : string) :
  has_char squote safe = false -> has_char squote s = true ->
  contains (quote safe s) "%27".
Proof.
  intros Hsafe. induction s as [|c s IH]; intros H; [discriminate|].
  cbn [has_char] in H. apply orb_true_iff in H as [H|H].
  - apply Ascii.eqb_eq in H. subst c. cbn [quote].
    change (always_safe squote) with false. rewrite Hsafe.
    exists "", (quote safe s). reflexivity.
  - cbn [quote]. now apply contains_app_r, IH.
Qed.

(** [quote_plus] writes a single quote as [%27]. *)
Lemma quote_plus_single_quote (s : string) :
  has_char squote s = true -> contains (quote_plus s) "%27".
Proof.
  intros H. unfold quote_plus. destruct (has_char " " s).
  - destruct (quote_single_quote " " s eq_refl H) as [a [b E]].
    rewrite E, !replace_char_app.
    exists (replace_char " " "+" a), (replace_char " " "+" b). reflexivity.
  - now apply quote_single_quote.
Qed.

(** Without [doseq] every item makes one pair. *)
Lemma flat_map_encode_item (q : pydict) :
  flat_map (encode_item false) q
  = map (fun kv => quote_plus (fst kv) ++ "=" ++ quote_plus (py_str (snd kv))) q.
Proof.
  induction q as [|[k v] q IH]; simpl; [reflexivity | now rewrite IH].
Qed.

Lemma urlencode_contains (q : pydict) (k : string) (v : pyval) :
  In (k, v) q ->
  contains (urlencode q false) (quote_plus k ++ "=" ++ quote_plus (py_str v)).
Proof.
  intros H. unfold urlencode. apply contains_join.
  rewrite flat_map_encode_item.
  exact (in_map (fun kv => quote_plus (fst kv) ++ "=" ++ quote_plus (py_str (snd kv)))
           q (k, v) H).
Qed.

Lemma join_nil_iff (sep : string) (l : list string) :
  (forall x, In x l -> x <> "") -> join sep l = "" <-> l = [].
Proof.
  intros Hne. split; [|now intros ->]. destruct l as [|x l]; [reflexivity|].
  intros H. exfalso. apply (Hne x (or_introl eq_refl)).
  destruct l; simpl in H; [exact H|]. destruct x; [reflexivity | discriminate].
Qed.

(** * The integers in a query string *)

Lemma string_of_uint_safe (d : Decimal.uint) :
  str_forall always_safe (NilEmpty.string_of_uint d) = true.
Proof. induction d; simpl; [reflexivity | exact IHd ..]. Qed.

(** [str] of an integer has digits and a sign only. *)
Lemma str_of_int_safe (z : Z) : str_forall always_safe (str_of_int z) = true.
Proof.
  unfold str_of_int. destruct (Z.to_int z) as [d|d]; simpl;
    apply string_of_uint_safe.
Qed.

Lemma str_forall_has_char (f : ascii -> bool) (c : ascii) (s : string) :
  str_forall f s = true -> f c = false -> has_char c s = false.
Proof.
  intros H Hc. induction s as [|d s IH]; [reflexivity|].
  cbn [str_forall] in H. apply andb_true_iff in H as [Hd H].
  cbn [has_char]. rewrite (IH H), orb_false_r.
  apply Ascii.eqb_neq. intros ->. congruence.
Qed.

Lemma quote_safe (safe s : string) :
  str_forall always_safe s = true -> quote safe s = s.
Proof.
  induction s as [|c s IH]; intros H; [reflexivity|].
  cbn [str_forall] in H. apply andb_true_iff in H as [Hc H].
  cbn [quote]. rewrite Hc, (IH H). reflexivity.
Qed.

(** [quote_plus] leaves letters, digits and [_.-~] alone. *)
Lemma quote_plus_safe (s : string) :
  str_forall always_safe s = true -> quote_plus s = s.
Proof.
  intros H. unfold quote_plus.
  rewrite (str_forall_has_char always_safe " " s H eq_refl).
  now apply quote_safe.
Qed.

Lemma has_char_app (c : ascii) (a b : string) :
  has_char c (a ++ b) = has_char c a || has_char c b.
Proof.
  induction a as [|d a IH]; [reflexivity|].
  cbn [append has_char]. now rewrite IH, orb_assoc.
Qed.

(** * The monad *)

Lemma pure_ret {A} (a : A) : pure (ret a).
Proof. now exists (Ok a). Qed.

Lemma pure_raise {A} (e : exn) : pure (@raise A e).
Proof. now exists (Raise e). Qed.

Lemma pure_lift {A} (r : result A) : pure (lift r).
Proof. now exists r. Qed.

Lemma pure_bind {A B} (m : M A) (k : A -> M B) :
  pure m -> (forall a, pure (k a)) -> pure (bind m k).
Proof.
  intros [[a|e] Hm] Hk.
  - destruct (Hk a) as [r Hr]. exists r. intros w. unfold bind.
    now rewrite Hm, Hr.
  - exists (Raise e). intros w. unfold bind. now rewrite Hm.
Qed.

Lemma pure_if {A} (b : bool) (m1 m2 : M A) :
  pure m1 -> pure m2 -> pure (if b then m1 else m2).
Proof. now destruct b. Qed.

Lemma pure_py_in (k : string) (v : pyval) : pure (py_in k v).
Proof. destruct v; solve [eexists; intros w; reflexivity]. Qed.

Lemma pure_py_getitem (v : pyval) (k : string) : pure (py_getitem v k).
Proof. destruct v; solve [eexists; intros w; reflexivity]. Qed.

Lemma pure_py_len (v : pyval) : pure (py_len v).
Proof. destruct v; solve [eexists; intros w; reflexivity]. Qed.

Create HintDb pure_db.
#[local] Hint Resolve pure_ret pure_raise pure_lift pure_py_in pure_py_getitem
  pure_py_len : pure_db.

Ltac pure_steps :=
  repeat first
    [ apply pure_bind; [|intros ?]
    | apply pure_if
    | solve [auto with pure_db] ].

Lemma pure_check_retCode (url : string) (b : pyval) : pure (check_retCode url b).
Proof. unfold check_retCode. pure_steps. Qed.

Lemma pure_classify_public (url : string) (b : pyval) :
  pure (classify_public url b).
Proof. unfold classify_public. pure_steps. Qed.

Lemma pure_classify_signed (url : string) (b : pyval) :
  pure (classify_signed url b).
Proof. unfold classify_signed. pure_steps. Qed.

(** A pure computation gives its result and the world it started in. *)
Lemma pure_run {A} (m : M A) (w : world) : pure m -> m w = (run_pure m, w).
Proof. intros [r H]. unfold run_pure. now rewrite (H w), (H blank_world). Qed.

(** The executors are their [try] block followed by [finish]. *)
Lemma try_finish (body : M (option (pyobj * pyobj)))
    (clauses : list (exn_class * (exn -> M (option (pyobj * pyobj)))))
    (w : world) :
  bind (try_except body clauses)
       (fun r => match r with
                 | Some x => ret x
                 | None => ret (empty_response, empty_response)
                 end) w
  = finish clauses (body w).
Proof.
  unfold bind, try_except, finish.
  destruct (body w) as [[[x|]|e] w']; try reflexivity.
  destruct (find _ clauses) as [[c h]|]; [|reflexivity].
  destruct (h e w') as [[[x|]|e'] w'']; reflexivity.
Qed.

(** * Runs of the executors *)

Lemma bind_log_debug {A} (m : string) (k : unit -> M A) (w : world) :
  bind (log_debug m) k w = k tt (logged w DEBUG m).
Proof. reflexivity. Qed.

Lemma getitem_some {V} (d : list (string * V)) (k : string) (v : V) :
  dict_get d k = Some v -> getitem d k = Ok v.
Proof. intros H. unfold getitem. now rewrite H. Qed.

(** [hashing] with both entries of [keys] present. *)
Lemma hashing_run (query_string exchange : string) (timestamp : Z)
    (keys : option (list (string * string))) (key secret : string) :
  dict_get (keys_or_default keys) "key" = Some key ->
  dict_get (keys_or_default keys) "secret" = Some secret ->
  hashing query_string exchange timestamp keys
  = Ok (sign secret
          (if String.eqb exchange "bybit"
           then str_of_int timestamp ++ key ++ "5000" ++ query_string
           else query_string)).
Proof.
  intros Hk Hs. unfold hashing.
  rewrite (getitem_some _ _ _ Hk), (getitem_some _ _ _ Hs).
  destruct (String.eqb exchange "bybit"); reflexivity.
Qed.

Lemma dispatch_known (v : verb) (key signature : string) (timestamp : Z)
    (w : world) :
  dispatch_request (verb_name v) key signature timestamp w
  = (Ok (BoundMethod v (dispatch_session (session_defaults w) key signature
                          timestamp)), w).
Proof. destruct v; reflexivity. Qed.

Lemma dispatch_unknown (http_method key signature : string) (timestamp : Z)
    (w : world) :
  ~ In http_method known_verbs ->
  dispatch_request http_method key signature timestamp w
  = (Ok (StrObject "GET"), w).
Proof.
  intros H. unfold dispatch_request. cbn [dict_get].
  repeat match goal with
  | |- context [String.eqb http_method ?s] =>
      destruct (String.eqb_spec http_method s) as [E|_];
      [exfalso; apply H; rewrite E; unfold known_verbs; simpl; tauto|]
  end.
  reflexivity.
Qed.

Lemma public_unfold (url method : string) (url_path : option string)
    (payload : option pydict) (json : bool) (w : world) :
  send_public_request url method url_path payload json w
  = finish public_clauses
      (public_try (public_url url url_path payload) method json
         (logged w DEBUG ("Requesting " ++ public_url url url_path payload))).
Proof.
  unfold send_public_request. rewrite bind_log_debug. apply try_finish.
Qed.

Lemma public_try_run (v : verb) (url : string) (json : bool) (w : world) :
  public_try url (verb_name v) json w
  = match network w (public_request v url w) with
    | NetRaise e => (Raise e, sent w (public_request v url w))
    | NetReturn r =>
        if json then
          match resp_json r with
          | inl m => (Raise (JSONDecodeError m), sent w (public_request v url w))
          | inr body =>
              match run_pure (classify_public url body) with
              | Ok _ => (Ok (Some (OHeaders (resp_headers r), OVal body)),
                         sent w (public_request v url w))
              | Raise e => (Raise e, sent w (public_request v url w))
              end
          end
        else (Ok (Some (OHeaders (resp_headers r), OVal (VStr (resp_text r)))),
              sent w (public_request v url w))
    end.
Proof.
  unfold public_try. unfold bind at 1. rewrite dispatch_known.
  unfold bind at 1. unfold call. fold (public_request v url w).
  fold (sent w (public_request v url w)).
  destruct (network w (public_request v url w)) as [e|r]; [reflexivity|].
  destruct json; [|reflexivity]. cbn [negb].
  unfold response_json. destruct (resp_json r) as [m|body]; [reflexivity|].
  unfold bind at 1. unfold ret at 1. unfold bind.
  rewrite (pure_run _ (sent w (public_request v url w))
             (pure_classify_public url body)).
  destruct (run_pure (classify_public url body)); reflexivity.
Qed.

Lemma signed_unfold (http_method url_path : string) (payload : option pydict)
    (exchange : string) (base_url : option string)
    (keys : option (list (string * string))) (key secret : string)
    (w : world) :
  dict_get (keys_or_default keys) "key" = Some key ->
  dict_get (keys_or_default keys) "secret" = Some secret ->
  send_signed_request http_method url_path payload exchange base_url keys w
  = finish signed_clauses
      (signed_try
         (signed_url base_url url_path payload exchange secret (clock w))
         http_method
         (signed_query_string (signed_payload payload exchange (clock w)))
         exchange (clock w) (keys_or_default keys)
         (logged w DEBUG
            ("Requesting "
             ++ signed_url base_url url_path payload exchange secret
                  (clock w)))).
Proof.
  intros Hk Hs. unfold send_signed_request.
  unfold bind at 1. unfold get_timestamp at 1.
  unfold bind at 1.
  assert (E : (if String.eqb exchange "binance"
               then bind (lift (hashing
                           (signed_query_string
                              (signed_payload payload exchange (clock w)))
                           exchange (-1) (Some (keys_or_default keys))))
                      (fun signature =>
                         ret ((base_url_text base_url ++ url_path ++ "?"
                               ++ signed_query_string
                                    (signed_payload payload exchange (clock w)))
                              ++ "&signature=" ++ signature))
               else ret (base_url_text base_url ++ url_path ++ "?"
                         ++ signed_query_string
                              (signed_payload payload exchange (clock w)))) w
              = (Ok (signed_url base_url url_path payload exchange secret
                       (clock w)), w)).
  { unfold signed_url. destruct (String.eqb exchange "binance") eqn:Eb;
      [|reflexivity].
    apply String.eqb_eq in Eb. subst exchange.
    unfold bind, lift.
    rewrite (hashing_run _ _ _ (Some (keys_or_default keys)) key secret Hk Hs).
    reflexivity. }
  rewrite E. rewrite bind_log_debug. apply try_finish.
Qed.

Lemma signed_try_run (v : verb) (base_url : option string)
    (url_path : string) (payload : option pydict) (exchange : string)
    (keys : option (list (string * string))) (key secret : string)
    (l : list (level * string)) (w : world) :
  dict_get (keys_or_default keys) "key" = Some key ->
  dict_get (keys_or_default keys) "secret" = Some secret ->
  let url := signed_url base_url url_path payload exchange secret (clock w) in
  let req := signed_request v base_url url_path payload exchange key secret w in
  let w1 := World (clock w) (session_defaults w) (network w) l (wire w) in
  signed_try url (verb_name v)
    (signed_query_string (signed_payload payload exchange (clock w)))
    exchange (clock w) (keys_or_default keys) w1
  = match network w req with
    | NetRaise e => (Raise e, sent w1 req)
    | NetReturn r =>
        match resp_json r with
        | inl m => (Raise (JSONDecodeError m), sent w1 req)
        | inr body =>
            match run_pure (classify_signed url body) with
            | Ok _ => (Ok (Some (OHeaders (resp_headers r), OVal body)),
                       sent w1 req)
            | Raise e => (Raise e, sent w1 req)
            end
        end
    end.
Proof.
  intros Hk Hs url req w1. unfold signed_try.
  unfold bind at 1. unfold lift at 1. rewrite (getitem_some _ _ _ Hk).
  unfold bind at 1. unfold lift at 1.
  rewrite (hashing_run _ _ _ (Some (keys_or_default keys)) key secret Hk Hs).
  unfold bind at 1. rewrite dispatch_known.
  unfold bind at 1. unfold call.
  change (network w1) with (network w).
  change (Request v url _ None (Some [])) with req.
  change (World (clock w1) (session_defaults w1) (network w) (log w1)
            (wire w1 ++ [req])) with (sent w1 req).
  destruct (network w req) as [e|r]; [reflexivity|].
  unfold response_json. destruct (resp_json r) as [m|body]; [reflexivity|].
  unfold bind at 1. unfold ret at 1. unfold bind.
  rewrite (pure_run _ (sent w1 req) (pure_classify_signed url body)).
  destruct (run_pure (classify_signed url body)); reflexivity.
Qed.

(** The clauses of both executors log and nothing else. *)
Lemma finish_public_wire (o : result (option (pyobj * pyobj)) * world) :
  wire (snd (finish public_clauses o)) = wire (snd o).
Proof. destruct o as [[[x|]|e] w]; try reflexivity. destruct e; reflexivity. Qed.

Lemma finish_signed_wire (o : result (option (pyobj * pyobj)) * world) :
  wire (snd (finish signed_clauses o)) = wire (snd o).
Proof. destruct o as [[[x|]|e] w]; try reflexivity. destruct e; reflexivity. Qed.

(** * Headers *)

Lemma header_eqb_eq (a b : string) :
  header_eqb a b = true <-> lower a = lower b.
Proof. apply String.eqb_eq. Qed.

Lemma header_get_app (a b : headers) (k : string) :
  header_get (a ++ b)%list k
  = match header_get a k with Some v => Some v | None => header_get b k end.
Proof.
  induction a as [|[k' v'] a IH]; [reflexivity|].
  cbn [List.app header_get]. now destruct (header_eqb k k').
Qed.

Lemma header_get_set (h : headers) (k v k' : string) :
  header_get (header_set h k v) k'
  = if header_eqb k' k then Some v else header_get h k'.
Proof.
  induction h as [|[k1 v1] h IH]; [reflexivity|].
  cbn [header_set]. destruct (header_eqb k k1) eqn:E1; cbn [header_get].
  - destruct (header_eqb k' k) eqn:E2; [reflexivity|].
    destruct (header_eqb k' k1) eqn:E3; [|reflexivity].
    apply header_eqb_eq in E1, E3. 
    assert (header_eqb k' k = true) by (apply header_eqb_eq; congruence).
    congruence.
  - rewrite IH. destruct (header_eqb k' k1) eqn:E3; [|reflexivity].
    destruct (header_eqb k' k) eqn:E2; [|reflexivity].
    apply header_eqb_eq in E2, E3.
    assert (header_eqb k k1 = true) by (apply header_eqb_eq; congruence).
    congruence.
Qed.

(** After [update] the last entry for a name wins, and names that the update
    does not mention keep their value. *)
Lemma headers_update_get (h d : headers) (k : string) :
  header_get (headers_update h d) k
  = match header_get (rev d) k with
    | Some v => Some v
    | None => header_get h k
    end.
Proof.
  unfold headers_update. revert h.
  induction d as [|[k1 v1] d IH]; intros h; [reflexivity|].
  cbn [fold_left fst snd rev]. rewrite IH, header_get_app, header_get_set.
  destruct (header_get (rev d) k); [reflexivity|].
  cbn [header_get]. now destruct (header_eqb k k1).
Qed.

(** * The signature generator *)

(** C1. For every query string, secret, key and timestamp, [hashing]
    returns the hexadecimal digest HMAC-SHA256(secret, query string) when the
    exchange is not ["bybit"], and the digest HMAC-SHA256(secret, timestamp
    in decimal, then key, then ["5000"], then query string) when it is
    ["bybit"]. *)
Theorem hashing_schemes (query_string exchange key secret : string)
    (timestamp : Z) (keys : list (string * string)) :
  dict_get keys "secret" = Some secret ->
  (exchange <> "bybit" ->
   hashing query_string exchange timestamp (Some keys)
   = Ok (hmac_sha256_hex (encode_utf8 secret) (encode_utf8 query_string)))
  /\ (exchange = "bybit" ->
      dict_get keys "key" = Some key ->
      hashing query_string exchange timestamp (Some keys)
      = Ok (hmac_sha256_hex (encode_utf8 secret)
              (encode_utf8 (str_of_int timestamp ++ key ++ "5000"
                            ++ query_string)))).
Proof.
  intros Hs. unfold hashing. cbn [keys_or_default]. split.
  - intros Hx. apply String.eqb_neq in Hx. rewrite Hx.
    now rewrite (getitem_some _ _ _ Hs).
  - intros -> Hk. cbn [String.eqb Ascii.eqb Bool.eqb].
    now rewrite (getitem_some _ _ _ Hk), (getitem_some _ _ _ Hs).
Qed.

Lemma hashing_schemes_witness :
  hashing "symbol=BTCUSDT" "binance" 1700000000000
    (Some [("key", "K"); ("secret", "S")])
  = Ok (hmac_sha256_hex (encode_utf8 "S") (encode_utf8 "symbol=BTCUSDT"))
  /\ hashing "symbol=BTCUSDT" "bybit" 1700000000000
       (Some [("key", "K"); ("secret", "S")])
     = Ok (hmac_sha256_hex (encode_utf8 "S")
             (encode_utf8 "1700000000000K5000symbol=BTCUSDT")).
Proof.
  split.
  - refine (proj1 (hashing_schemes "symbol=BTCUSDT" "binance" "K" "S"
                     1700000000000 [("key", "K"); ("secret", "S")] eq_refl) _).
    discriminate.
  - exact (proj2 (hashing_schemes "symbol=BTCUSDT" "bybit" "K" "S"
                    1700000000000 [("key", "K"); ("secret", "S")] eq_refl)
                 eq_refl eq_refl).
Defined.

(** * What goes on the wire *)

(** A public call with a known verb sends one request. *)
Lemma public_wire (v : verb) (url : string) (url_path : option string)
    (payload : option pydict) (json : bool) (w : world) :
  wire (snd (send_public_request url (verb_name v) url_path payload json w))
  = (wire w ++ [public_request v (public_url url url_path payload) w])%list.
Proof.
  rewrite public_unfold, finish_public_wire, public_try_run.
  change (network _) with (network w).
  change (public_request v ?u (logged w ?l ?m)) with (public_request v u w).
  destruct (network w _) as [e|r]; [reflexivity|].
  destruct json; [|reflexivity].
  destruct (resp_json r); [reflexivity|].
  destruct (run_pure _); reflexivity.
Qed.

(** A signed call with a known verb and both keys sends one request. *)
Lemma signed_wire (v : verb) (url_path : string) (payload : option pydict)
    (exchange : string) (base_url : option string)
    (keys : option (list (string * string))) (key secret : string)
    (w : world) :
  dict_get (keys_or_default keys) "key" = Some key ->
  dict_get (keys_or_default keys) "secret" = Some secret ->
  wire (snd (send_signed_request (verb_name v) url_path payload exchange
               base_url keys w))
  = (wire w
     ++ [signed_request v base_url url_path payload exchange key secret w])%list.
Proof.
  intros Hk Hs.
  rewrite (signed_unfold _ _ _ _ _ _ key secret w Hk Hs), finish_signed_wire.
  unfold logged.
  rewrite (signed_try_run v base_url url_path payload exchange keys key secret
             _ w Hk Hs).
  destruct (network w _) as [e|r]; [reflexivity|].
  destruct (resp_json r); [reflexivity|].
  destruct (run_pure _); reflexivity.
Qed.

(** With a verb that [dispatch_request] does not know nothing is sent. *)
Lemma public_unknown (url http_method : string) (url_path : option string)
    (payload : option pydict) (json : bool) (w : world) :
  ~ In http_method known_verbs ->
  send_public_request url http_method url_path payload json w
  = (Raise (TypeError "'str' object is not callable"),
     logged w DEBUG ("Requesting " ++ public_url url url_path payload)).
Proof.
  intros H. rewrite public_unfold. unfold public_try. unfold bind at 1.
  now rewrite (dispatch_unknown _ _ _ _ _ H).
Qed.

Lemma signed_unknown (http_method url_path : string)
    (payload : option pydict) (exchange : string) (base_url : option string)
    (keys : option (list (string * string))) (w : world) :
  ~ In http_method known_verbs ->
  wire (snd (send_signed_request http_method url_path payload exchange
               base_url keys w)) = wire w.
Proof.
  intros H. unfold send_signed_request.
  unfold bind at 1. unfold get_timestamp at 1. unfold bind at 1.
  match goal with
  | |- context [(if String.eqb exchange "binance" then ?a else ?b) w] =>
      assert (E : exists r, (if String.eqb exchange "binance" then a else b) w
                            = (r, w))
  end.
  { destruct (String.eqb exchange "binance"); [|eexists; reflexivity].
    unfold bind, lift. destruct (hashing _ _ _ _); eexists; reflexivity. }
  destruct E as [[url|e] E]; rewrite E; clear E; [|reflexivity].
  rewrite bind_log_debug, try_finish, finish_signed_wire.
  unfold signed_try. unfold bind at 1. unfold lift at 1.
  destruct (getitem _ "key") as [key|e]; [|reflexivity].
  unfold bind at 1. unfold lift at 1.
  destruct (hashing _ _ _ _) as [signature|e]; [|reflexivity].
  unfold bind at 1. now rewrite (dispatch_unknown _ _ _ _ _ H).
Qed.

(** * The dispatcher *)

(** C9. Every call of [dispatch_request] puts the seven headers on the new
    session, whatever the session had before; a public call, which passes no
    credentials, sends its request with the API key and signature headers set
    to the empty string and the timestamp header set to ["-1"]. *)
Theorem dispatch_request_headers (w : world) (key signature : string)
    (timestamp : Z) :
  let h := session_headers
             (dispatch_session (session_defaults w) key signature timestamp) in
  (forall v : verb,
     dispatch_request (verb_name v) key signature timestamp w
     = (Ok (BoundMethod v (Session h)), w))
  /\ header_get h "Content-Type" = Some "application/json;charset=utf-8"
  /\ header_get h "X-MBX-APIKEY" = Some key
  /\ header_get h "X-BAPI-API-KEY" = Some key
  /\ header_get h "X-BAPI-SIGN" = Some signature
  /\ header_get h "X-BAPI-SIGN-TYPE" = Some "2"
  /\ header_get h "X-BAPI-TIMESTAMP" = Some (str_of_int timestamp)
  /\ header_get h "X-BAPI-RECV-WINDOW" = Some "5000"
  /\ (forall (v : verb) (url : string) (url_path : option string)
        (payload : option pydict) (json : bool),
        exists req,
          wire (snd (send_public_request url (verb_name v) url_path payload
                       json w)) = (wire w ++ [req])%list
          /\ header_get (req_headers req) "Content-Type"
             = Some "application/json;charset=utf-8"
          /\ header_get (req_headers req) "X-MBX-APIKEY" = Some ""
          /\ header_get (req_headers req) "X-BAPI-API-KEY" = Some ""
          /\ header_get (req_headers req) "X-BAPI-SIGN" = Some ""
          /\ header_get (req_headers req) "X-BAPI-SIGN-TYPE" = Some "2"
          /\ header_get (req_headers req) "X-BAPI-TIMESTAMP" = Some "-1"
          /\ header_get (req_headers req) "X-BAPI-RECV-WINDOW" = Some "5000").
Proof.
  cbn zeta. split.
  { intros v. apply dispatch_known. }
  unfold dispatch_session. cbn [session_headers].
  repeat (split; [rewrite headers_update_get; reflexivity|]).
  intros v url url_path payload json.
  exists (public_request v (public_url url url_path payload) w). split.
  - apply public_wire.
  - unfold public_request, dispatch_session. cbn [req_headers session_headers].
    repeat split; rewrite headers_update_get; reflexivity.
Qed.

(** C7. For every verb name other than GET, PUT, POST and DELETE no request
    is dispatched: [dispatch_request] hands back a string, calling it raises
    [TypeError], and neither executor puts a request on the wire. *)
Theorem unknown_verb_sends_nothing (http_method : string) :
  ~ In http_method ["GET"; "PUT"; "POST"; "DELETE"] ->
  (forall (key signature : string) (timestamp : Z) (w : world),
     dispatch_request http_method key signature timestamp w
     = (Ok (StrObject "GET"), w))
  /\ (forall (url : string) (url_path : option string)
        (payload : option pydict) (json : bool) (w : world),
        fst (send_public_request url http_method url_path payload json w)
        = Raise (TypeError "'str' object is not callable")
        /\ wire (snd (send_public_request url http_method url_path payload
                        json w)) = wire w)
  /\ (forall (url_path : string) (payload : option pydict)
        (exchange : string) (base_url : option string)
        (keys : option (list (string * string))) (w : world),
        wire (snd (send_signed_request http_method url_path payload exchange
                     base_url keys w)) = wire w).
Proof.
  intros H.
  assert (H' : ~ In http_method known_verbs).
  { intros Hin. apply H. unfold known_verbs in Hin. simpl in *. tauto. }
  split; [|split].
  - intros. now apply dispatch_unknown.
  - intros. now rewrite public_unknown.
  - intros. now apply signed_unknown.
Qed.

Lemma unknown_verb_sends_nothing_witness :
  wire (snd (send_signed_request "get" "/fapi/v2/account" None "binance"
               (Some "https://fapi.binance.com") None
               (answering (NetRaise (Timeout ""))))) = [].
Proof.
  refine (proj2 (proj2 (unknown_verb_sends_nothing "get" _)) _ _ _ _ _ _).
  intros H. simpl in H.
  repeat (destruct H as [H|H]; [discriminate|]). exact H.
Defined.

(** * The signed executor *)

Lemma signed_request_headers (v : verb) (base_url : option string)
    (url_path : string) (payload : option pydict)
    (exchange key secret : string) (w : world) :
  let req := signed_request v base_url url_path payload exchange key secret w in
  header_get (req_headers req) "X-BAPI-TIMESTAMP" = Some (str_of_int (clock w))
  /\ header_get (req_headers req) "X-BAPI-SIGN"
     = Some (header_signature exchange key secret
               (signed_query_string (signed_payload payload exchange (clock w)))
               (clock w))
  /\ header_get (req_headers req) "X-MBX-APIKEY" = Some key
  /\ header_get (req_headers req) "X-BAPI-API-KEY" = Some key.
Proof.
  unfold signed_request, dispatch_session. cbn [req_headers session_headers].
  repeat split; rewrite headers_update_get; reflexivity.
Qed.

(** C3. A signed call puts the reading of the clock into the parameters only
    when the exchange is ["binance"], builds the query string from the
    parameters sorted by key, and appends [&signature=] and the digest to
    the URL only for ["binance"]; for ["bybit"] the URL is made of the
    caller's parameters alone, and the timestamp and the signature are in
    the headers. *)
Theorem signed_request_shape (v : verb) (url_path : string)
    (payload : option pydict) (exchange : string) (base_url : option string)
    (keys : option (list (string * string))) (key secret : string)
    (w : world) :
  dict_get (keys_or_default keys) "key" = Some key ->
  dict_get (keys_or_default keys) "secret" = Some secret ->
  let given := match payload with Some p => p | None => [] end in
  let params :=
    if String.eqb exchange "binance"
    then dict_set given "timestamp" (VInt (clock w)) else given in
  let query_string := str_replace "%27" "%22" (urlencode (sorted params) false) in
  let url := base_url_text base_url ++ url_path ++ "?" ++ query_string in
  Sorted item_le (sorted params)
  /\ Permutation params (sorted params)
  /\ (exchange = "binance" -> In ("timestamp", VInt (clock w)) params)
  /\ exists hdrs,
       wire (snd (send_signed_request (verb_name v) url_path payload exchange
                    base_url keys w))
       = (wire w
          ++ [Request v
                (if String.eqb exchange "binance"
                 then url ++ "&signature="
                          ++ hmac_sha256_hex (encode_utf8 secret)
                               (encode_utf8 query_string)
                 else url)
                hdrs None (Some [])])%list
       /\ header_get hdrs "X-BAPI-TIMESTAMP" = Some (str_of_int (clock w))
       /\ header_get hdrs "X-BAPI-SIGN"
          = Some (hmac_sha256_hex (encode_utf8 secret)
                    (encode_utf8
                       (if String.eqb exchange "bybit"
                        then str_of_int (clock w) ++ key ++ "5000"
                             ++ query_string
                        else query_string))).
Proof.
  intros Hk Hs given params query_string url.
  split; [apply sorted_Sorted|]. split; [apply sorted_perm|]. split.
  - intros ->. apply dict_set_In.
  - exists (req_headers (signed_request v base_url url_path payload exchange
                           key secret w)).
    split; [|split].
    + rewrite (signed_wire _ _ _ _ _ _ key secret w Hk Hs). reflexivity.
    + apply signed_request_headers.
    + apply signed_request_headers.
Qed.

Lemma signed_request_shape_witness :
  exists hdrs,
    wire (snd (send_signed_request "GET" "/v5/position/list"
                 (Some [("symbol", VStr "BTCUSDT"); ("category", VStr "linear")])
                 "bybit" (Some "https://api.bybit.com")
                 (Some [("key", "K"); ("secret", "S")])
                 (answering (NetRaise (Timeout "")))))
    = [Request GET
         "https://api.bybit.com/v5/position/list?category=linear&symbol=BTCUSDT"
         hdrs None (Some [])]
    /\ header_get hdrs "X-BAPI-TIMESTAMP" = Some "1700000000000"
    /\ header_get hdrs "X-BAPI-SIGN"
       = Some (hmac_sha256_hex (encode_utf8 "S")
                 (encode_utf8
                    "1700000000000K5000category=linear&symbol=BTCUSDT")).
Proof.
  exact (proj2 (proj2 (proj2
    (signed_request_shape GET "/v5/position/list"
       (Some [("symbol", VStr "BTCUSDT"); ("category", VStr "linear")])
       "bybit" (Some "https://api.bybit.com")
       (Some [("key", "K"); ("secret", "S")]) "K" "S"
       (answering (NetRaise (Timeout ""))) eq_refl eq_refl)))).
Defined.

(** C10. With an exchange that is neither ["binance"] nor ["bybit"] a signed
    call is carried out all the same: the request goes on the wire, its URL
    has the caller's parameters alone, without timestamp and without
    [&signature=], and [X-BAPI-SIGN] is HMAC-SHA256 of the query string
    alone. *)
Theorem other_exchange_request (v : verb) (url_path : string)
    (payload : option pydict) (exchange : string) (base_url : option string)
    (keys : option (list (string * string))) (key secret : string)
    (w : world) :
  exchange <> "binance" -> exchange <> "bybit" ->
  dict_get (keys_or_default keys) "key" = Some key ->
  dict_get (keys_or_default keys) "secret" = Some secret ->
  let given := match payload with Some p => p | None => [] end in
  let query_string := str_replace "%27" "%22" (urlencode (sorted given) false) in
  exists hdrs,
    wire (snd (send_signed_request (verb_name v) url_path payload exchange
                 base_url keys w))
    = (wire w
       ++ [Request v (base_url_text base_url ++ url_path ++ "?" ++ query_string)
             hdrs None (Some [])])%list
    /\ header_get hdrs "X-BAPI-SIGN"
       = Some (hmac_sha256_hex (encode_utf8 secret) (encode_utf8 query_string))
    /\ header_get hdrs "X-BAPI-TIMESTAMP" = Some (str_of_int (clock w)).
Proof.
  intros Hb Hy Hk Hs given query_string.
  apply String.eqb_neq in Hb, Hy.
  exists (req_headers (signed_request v base_url url_path payload exchange
                        key secret w)).
  pose proof (signed_request_headers v base_url url_path payload exchange key
                secret w) as (Ht & Hsig & _).
  split; [|split].
  - rewrite (signed_wire _ _ _ _ _ _ key secret w Hk Hs).
    unfold signed_request, signed_url, signed_payload. rewrite Hb. reflexivity.
  - rewrite Hsig. unfold header_signature, signed_payload. rewrite Hb, Hy.
    reflexivity.
  - exact Ht.
Qed.

Lemma other_exchange_request_witness :
  exists hdrs,
    wire (snd (send_signed_request "POST" "/api/v5/trade/order"
                 (Some [("b", VInt 2); ("a", VInt 1)]) "okx"
                 (Some "https://www.okx.com") None
                 (answering (NetRaise (Timeout "")))))
    = [Request POST "https://www.okx.com/api/v5/trade/order?a=1&b=2" hdrs None
         (Some [])]
    /\ header_get hdrs "X-BAPI-SIGN"
       = Some (hmac_sha256_hex (encode_utf8 "") (encode_utf8 "a=1&b=2"))
    /\ header_get hdrs "X-BAPI-TIMESTAMP" = Some "1700000000000".
Proof.
  refine (other_exchange_request POST "/api/v5/trade/order"
            (Some [("b", VInt 2); ("a", VInt 1)]) "okx"
            (Some "https://www.okx.com") None "" ""
            (answering (NetRaise (Timeout ""))) _ _ eq_refl eq_refl);
    discriminate.
Defined.

(** * The canonical query string *)

(** A part that has no [%] and begins with neither [2] nor [7] comes through
    the replacement of the quotes. *)
Lemma fix_quotes_keeps (s x : string) (c : ascii) :
  str_head x = Some c -> c <> "2"%char -> c <> "7"%char ->
  has_char "%" x = false ->
  contains s x -> contains (fix_quotes s) x.
Proof.
  intros Hc H2 H7 Hx [a [b ->]].
  assert (Hh : str_head (x ++ b) = Some c).
  { destruct x; [discriminate | exact Hc]. }
  rewrite fix_quotes_app, fix_quotes_plain by (rewrite ?Hh; congruence).
  now exists (fix_quotes a), (fix_quotes b).
Qed.

Lemma signed_query_contains (params : pydict) (k : string) (v : pyval) :
  In (k, v) params ->
  contains (urlencode (sorted params) false)
    (quote_plus k ++ "=" ++ quote_plus (py_str v)).
Proof.
  intros H. apply urlencode_contains. now apply (proj1 (sorted_In params (k, v))).
Qed.

(** C6, as the code has it. For every signed call with the exchange
    ["binance"], whatever the parameters, the query string that is signed and
    put in the URL has the parameter [timestamp] with the reading of the
    clock, and is not empty. *)
Theorem binance_query_has_timestamp (v : verb) (url_path : string)
    (payload : option pydict) (base_url : option string)
    (keys : option (list (string * string))) (key secret : string)
    (w : world) :
  dict_get (keys_or_default keys) "key" = Some key ->
  dict_get (keys_or_default keys) "secret" = Some secret ->
  exists query_string hdrs,
    contains query_string ("timestamp=" ++ str_of_int (clock w))
    /\ query_string <> ""
    /\ wire (snd (send_signed_request (verb_name v) url_path payload "binance"
                    base_url keys w))
       = (wire w
          ++ [Request v
                ((base_url_text base_url ++ url_path ++ "?" ++ query_string)
                 ++ "&signature="
                 ++ hmac_sha256_hex (encode_utf8 secret)
                      (encode_utf8 query_string))
                hdrs None (Some [])])%list
    /\ header_get hdrs "X-BAPI-SIGN"
       = Some (hmac_sha256_hex (encode_utf8 secret) (encode_utf8 query_string)).
Proof.
  intros Hk Hs.
  exists (signed_query_string (signed_payload payload "binance" (clock w))).
  exists (req_headers (signed_request v base_url url_path payload "binance"
                         key secret w)).
  assert (Hc : contains
                 (signed_query_string (signed_payload payload "binance" (clock w)))
                 ("timestamp=" ++ str_of_int (clock w))).
  { unfold signed_query_string. fold (fix_quotes
      (urlencode (sorted (signed_payload payload "binance" (clock w))) false)).
    apply (fix_quotes_keeps _ _ "t"%char); try reflexivity; try discriminate.
    - rewrite has_char_app.
      now rewrite (str_forall_has_char always_safe "%" _
                     (str_of_int_safe (clock w)) eq_refl).
    - pose proof (signed_query_contains
                    (signed_payload payload "binance" (clock w))
                    "timestamp" (VInt (clock w))) as H.
      cbn [py_str py_repr] in H.
      rewrite (quote_plus_safe (str_of_int (clock w))) in H
        by apply str_of_int_safe.
      apply H. unfold signed_payload. cbn [String.eqb Ascii.eqb Bool.eqb].
      apply dict_set_In. }
  split; [exact Hc|]. split; [|split].
  - apply (contains_nonempty _ _ Hc). discriminate.
  - now rewrite (signed_wire _ _ _ _ _ _ key secret w Hk Hs).
  - apply signed_request_headers.
Qed.

Lemma binance_query_has_timestamp_witness :
  exists query_string hdrs,
    contains query_string "timestamp=1700000000000"
    /\ query_string <> ""
    /\ wire (snd (send_signed_request "GET" "/fapi/v2/account" None "binance"
                    (Some "https://fapi.binance.com") None
                    (answering (NetRaise (Timeout "")))))
       = [Request GET
            (("https://fapi.binance.com" ++ "/fapi/v2/account" ++ "?"
              ++ query_string)
             ++ "&signature="
             ++ hmac_sha256_hex (encode_utf8 "") (encode_utf8 query_string))
            hdrs None (Some [])]
    /\ header_get hdrs "X-BAPI-SIGN"
       = Some (hmac_sha256_hex (encode_utf8 "") (encode_utf8 query_string)).
Proof.
  exact (binance_query_has_timestamp GET "/fapi/v2/account" None
           (Some "https://fapi.binance.com") None "" ""
           (answering (NetRaise (Timeout ""))) eq_refl eq_refl).
Defined.

(** C6 as stated fails: with the exchange ["bybit"] and no parameters the
    query string of a signed call is empty, and the URL ends with [?]. *)
Lemma bybit_query_can_be_empty :
  signed_query_string (signed_payload None "bybit" 1700000000000) = ""
  /\ has_sub "timestamp"
       (signed_query_string (signed_payload None "bybit" 1700000000000))
     = false
  /\ map req_url
       (wire (snd (send_signed_request "GET" "/v5/account/info" None "bybit"
                     (Some "https://api.bybit.com") None
                     (answering (NetRaise (Timeout ""))))))
     = ["https://api.bybit.com/v5/account/info?"].
Proof. repeat split. Qed.

(** C5, as the code has it. In the query string of the signed executor no
    [%27] is left, and a parameter whose text has a single quote (and which
    the timestamp of ["binance"] does not overwrite) leaves a [%22] there.
    The public executor does not replace anything: a string value with a
    single quote leaves a [%27] in its URL. *)
Theorem single_quote_encoding (payload : pydict) (exchange : string)
    (timestamp : Z) (k : string) (v : pyval) :
  In (k, v) payload ->
  has_char squote (py_str v) = true ->
  exchange <> "binance" \/ k <> "timestamp" ->
  let query_string :=
    signed_query_string (signed_payload (Some payload) exchange timestamp) in
  ~ contains query_string "%27"
  /\ contains query_string "%22"
  /\ (forall (url : string) (url_path : option string) (s : string),
        v = VStr s ->
        contains (public_url url url_path (Some payload)) "%27").
Proof.
  intros Hin Hq Hk query_string. split; [|split].
  - intros H. apply has_sub_iff in H. unfold query_string in H.
    unfold signed_query_string in H.
    change (str_replace "%27" "%22" ?x) with (fix_quotes x) in H.
    now rewrite fix_quotes_clean in H.
  - apply fix_quotes_hit.
    apply contains_trans with (y := quote_plus k ++ "=" ++ quote_plus (py_str v)).
    + apply signed_query_contains. unfold signed_payload.
      destruct (String.eqb_spec exchange "binance") as [E|E]; [|exact Hin].
      destruct Hk as [Hk|Hk]; [contradiction|].
      now apply dict_set_other.
    + apply contains_app_r, contains_app_r. now apply quote_plus_single_quote.
  - intros url url_path s ->. unfold public_url.
    assert (H : contains (urlencode payload true) "%27").
    { apply contains_trans with (y := quote_plus k ++ "=" ++ quote_plus s).
      - unfold urlencode. apply contains_join. apply in_flat_map.
        exists (k, VStr s). split; [exact Hin | now left].
      - apply contains_app_r, contains_app_r.
        now apply quote_plus_single_quote. }
    destruct (String.eqb_spec (urlencode payload true) "") as [E|E].
    + rewrite E in H. apply has_sub_iff in H. discriminate.
    + now apply contains_app_r, contains_app_r.
Qed.

Lemma single_quote_encoding_witness :
  ~ contains
      (signed_query_string
         (signed_payload (Some [("note", VStr "it's")]) "binance" 1700000000000))
      "%27"
  /\ contains
       (signed_query_string
          (signed_payload (Some [("note", VStr "it's")]) "binance"
             1700000000000)) "%22"
  /\ contains
       (public_url "https://api.bybit.com" (Some "/v5/market/time")
          (Some [("note", VStr "it's")])) "%27".
Proof.
  assert (D : "note" <> "timestamp") by discriminate.
  pose proof (single_quote_encoding [("note", VStr "it's")] "binance"
                1700000000000 "note" (VStr "it's") (or_introl eq_refl) eq_refl
                (or_intror D)) as (H1 & H2 & H3).
  exact (conj H1 (conj H2 (H3 _ _ "it's" eq_refl))).
Defined.

(** C5 as stated fails: the public executor writes the single quote of a
    value as [%27], and its query string has no [%22]. *)
Lemma public_query_keeps_single_quote :
  public_url "https://api.bybit.com" (Some "/v5/market/time")
    (Some [("note", VStr "it's")])
  = "https://api.bybit.com/v5/market/time?note=it%27s"
  /\ has_sub "%22" (urlencode [("note", VStr "it's")] true) = false
  /\ map req_url
       (wire (snd (send_public_request "https://api.bybit.com" "GET"
                     (Some "/v5/market/time") (Some [("note", VStr "it's")])
                     true (answering (NetRaise (Timeout ""))))))
     = ["https://api.bybit.com/v5/market/time?note=it%27s"].
Proof. repeat split. Qed.

(** C8, as the code has it. The public executor writes a parameter whose
    value is a list as one [key=value] pair for each element, in the place
    of the parameter. The signed executor writes every parameter as one
    pair; for a list the value is the text of the list, brackets, commas and
    quoted elements, percent-encoded. *)
Theorem list_valued_parameter (k : string) (l : list pyval) :
  (forall (url : string) (url_path : option string) (pre post : pydict),
     let query_string :=
       join "&"
         (List.app (flat_map (encode_item true) pre)
            (List.app
               (map (fun elt => quote_plus k ++ "=" ++ quote_plus (py_str elt))
                    l)
               (flat_map (encode_item true) post))) in
     public_url url url_path (Some (pre ++ (k, VList l) :: post)%list)
     = if String.eqb query_string ""
       then match url_path with Some p => url ++ p | None => url end
       else match url_path with Some p => url ++ p | None => url end
            ++ "?" ++ query_string)
  /\ (forall (payload : option pydict) (exchange : string) (timestamp : Z),
        In (k, VList l) (signed_payload payload exchange timestamp) ->
        exists pre post,
          sorted (signed_payload payload exchange timestamp)
          = (pre ++ (k, VList l) :: post)%list
          /\ signed_query_string (signed_payload payload exchange timestamp)
             = str_replace "%27" "%22"
                 (join "&"
                    (List.app (map encode_pair pre)
                       ((quote_plus k ++ "="
                         ++ quote_plus ("[" ++ join ", " (map py_repr l) ++ "]"))
                        :: map encode_pair post)))).
Proof.
  split.
  - intros url url_path pre post query_string. unfold public_url, urlencode.
    rewrite flat_map_app. reflexivity.
  - intros payload exchange timestamp H.
    apply (proj1 (sorted_In _ _)) in H. apply in_split in H as [pre [post E]].
    exists pre, post. split; [exact E|].
    unfold signed_query_string, urlencode.
    rewrite flat_map_encode_item, E, map_app. reflexivity.
Qed.

Lemma list_valued_parameter_witness :
  exists pre post,
    sorted (signed_payload (Some [("z", VInt 1); ("ids", VList [VStr "a"; VStr "b"])])
              "bybit" 0)
    = (pre ++ ("ids", VList [VStr "a"; VStr "b"]) :: post)%list
    /\ signed_query_string
         (signed_payload (Some [("z", VInt 1); ("ids", VList [VStr "a"; VStr "b"])])
            "bybit" 0)
       = str_replace "%27" "%22"
           (join "&"
              (List.app (map encode_pair pre)
                 ((quote_plus "ids" ++ "="
                   ++ quote_plus ("[" ++ join ", "
                                    (map py_repr [VStr "a"; VStr "b"]) ++ "]"))
                  :: map encode_pair post))).
Proof.
  exact (proj2 (list_valued_parameter "ids" [VStr "a"; VStr "b"])
           (Some [("z", VInt 1); ("ids", VList [VStr "a"; VStr "b"])])
           "bybit" 0 (or_intror (or_introl eq_refl))).
Defined.

(** C8 as stated fails: the signed executor writes a list as one value. *)
Lemma signed_query_stringifies_list :
  signed_query_string
    (signed_payload (Some [("ids", VList [VStr "a"; VStr "b"])]) "bybit" 0)
  = "ids=%5B%22a%22%2C+%22b%22%5D"
  /\ has_sub "ids=a&ids=b"
       (signed_query_string
          (signed_payload (Some [("ids", VList [VStr "a"; VStr "b"])]) "bybit" 0))
     = false
  /\ urlencode [("ids", VList [VStr "a"; VStr "b"])] true = "ids=a&ids=b".
Proof. repeat split. Qed.

(** * Failures *)

(** The [except] clauses at work. Whenever a call of an executor meets a
    transport fault (connection error, timeout, too many redirects), a body
    that does not decode when JSON was asked for, or a body for which the
    classification raises [HTTPRequestError], the executor returns the pair
    of two empty strings; the fault is logged as a warning and no exception
    reaches the caller. The three kinds give the same returned value. *)
Theorem failures_give_empty_pair (v : verb) (w : world) :
  (forall (url : string) (url_path : option string) (payload : option pydict)
     (json : bool),
     let target := public_url url url_path payload in
     let req := public_request v target w in
     public_failure w req target json ->
     exists text,
       send_public_request url (verb_name v) url_path payload json w
       = (Ok (OVal (VStr ""), OVal (VStr "")),
          logged (sent (logged w DEBUG ("Requesting " ++ target)) req)
            WARNING text))
  /\ (forall (url_path : string) (payload : option pydict)
        (exchange : string) (base_url : option string)
        (keys : option (list (string * string))) (key secret : string),
        dict_get (keys_or_default keys) "key" = Some key ->
        dict_get (keys_or_default keys) "secret" = Some secret ->
        let target :=
          signed_url base_url url_path payload exchange secret (clock w) in
        let req :=
          signed_request v base_url url_path payload exchange key secret w in
        signed_failure w req target ->
        exists text,
          send_signed_request (verb_name v) url_path payload exchange base_url
            keys w
          = (Ok (OVal (VStr ""), OVal (VStr "")),
             logged (sent (logged w DEBUG ("Requesting " ++ target)) req)
               WARNING text)).
Proof.
  split.
  - intros url url_path payload json target req Hf.
    rewrite public_unfold, public_try_run. fold target.
    change (network _) with (network w).
    change (public_request v target _) with req.
    destruct Hf as [e Hn He | r m Hn Hj Hd | r body code msg Hn Hj Hd Hc];
      rewrite Hn.
    + destruct e; try discriminate; eexists; reflexivity.
    + rewrite Hj, Hd. eexists; reflexivity.
    + rewrite Hj, Hd, Hc. eexists; reflexivity.
  - intros url_path payload exchange base_url keys key secret Hk Hs target req
      Hf.
    rewrite (signed_unfold _ _ _ _ _ _ key secret w Hk Hs). fold target.
    unfold logged at 1.
    rewrite (signed_try_run v base_url url_path payload exchange keys key
               secret _ w Hk Hs).
    fold target. fold req.
    destruct Hf as [e Hn He | r m Hn Hd | r body code msg Hn Hd Hc];
      rewrite Hn.
    + destruct e; try discriminate; eexists; reflexivity.
    + rewrite Hd. eexists; reflexivity.
    + rewrite Hd, Hc. eexists; reflexivity.
Qed.

Lemma failures_give_empty_pair_witness :
  fst (send_public_request "https://api.bybit.com" "GET"
         (Some "/v5/market/time") None true
         (answering (NetReturn (Response [] "{}"
                                  (inr (VDict [("retCode", VInt 10001);
                                               ("retMsg", VStr "oops")]))))))
  = Ok (OVal (VStr ""), OVal (VStr ""))
  /\ fst (send_signed_request "GET" "/v5/account/info" None "bybit"
            (Some "https://api.bybit.com") None
            (answering (NetRaise (Timeout "read timed out"))))
     = Ok (OVal (VStr ""), OVal (VStr "")).
Proof.
  split.
  - pose (body := VDict [("retCode", VInt 10001); ("retMsg", VStr "oops")]).
    pose (w := answering (NetReturn (Response [] "{}" (inr body)))).
    assert (F : public_failure w
                  (public_request GET
                     (public_url "https://api.bybit.com"
                        (Some "/v5/market/time") None) w)
                  (public_url "https://api.bybit.com" (Some "/v5/market/time")
                     None) true).
    { apply (public_application _ _ _ _ (Response [] "{}" (inr body)) body
               (VInt 10001) (VStr "oops")); reflexivity. }
    destruct (proj1 (failures_give_empty_pair GET w) "https://api.bybit.com"
                (Some "/v5/market/time") None true F) as [text H].
    exact (f_equal fst H).
  - pose (w := answering (NetRaise (Timeout "read timed out"))).
    assert (F : signed_failure w
                  (signed_request GET (Some "https://api.bybit.com")
                     "/v5/account/info" None "bybit" "" "" w)
                  (signed_url (Some "https://api.bybit.com")
                     "/v5/account/info" None "bybit" "" (clock w))).
    { apply (signed_transport _ _ _ (Timeout "read timed out")); reflexivity. }
    destruct (proj2 (failures_give_empty_pair GET w) "/v5/account/info" None
                "bybit" (Some "https://api.bybit.com") None "" "" eq_refl
                eq_refl F) as [text H].
    exact (f_equal fst H).
Defined.

(** * The classification of a decoded body *)

(** On a dictionary the public executor classifies as follows: [code] with
    a [msg] that is a string and not empty is an error with both taken as
    they are; failing that, a [retCode] that is not zero is an error with
    [retCode] and [retMsg]; failing that, the body is accepted. *)
Lemma classify_public_rules (url : string) (d : pydict) :
  (forall code s,
     dict_get d "code" = Some code -> dict_get d "msg" = Some (VStr s) ->
     s <> "" ->
     run_pure (classify_public url (VDict d))
     = Raise (HTTPRequestError url code (VStr s)))
  /\ (dict_get d "code" = None \/ dict_get d "msg" = None
      \/ dict_get d "msg" = Some (VStr "") ->
      (forall rc rm,
         dict_get d "retCode" = Some rc -> py_ne_zero rc = true ->
         dict_get d "retMsg" = Some rm ->
         run_pure (classify_public url (VDict d))
         = Raise (HTTPRequestError url rc rm))
      /\ (dict_get d "retCode" = None
          \/ (exists rc, dict_get d "retCode" = Some rc
                         /\ py_ne_zero rc = false) ->
          run_pure (classify_public url (VDict d)) = Ok tt)).
Proof.
  unfold run_pure, classify_public, check_retCode, bind, py_in, py_getitem,
    py_len, lift, ret, raise, getitem, dict_mem.
  split.
  - intros code s Hc Hm Hs. rewrite Hc, Hm. cbn.
    destruct s; [contradiction | reflexivity].
  - intros Ha. split.
    + intros rc rm Hrc Hne Hrm.
      assert (E : match dict_get d "code" with
                  | Some _ =>
                      match dict_get d "msg" with
                      | Some m => m = VStr ""
                      | None => True
                      end
                  | None => True
                  end).
      { destruct Ha as [H|[H|H]]; rewrite ?H; auto;
          destruct (dict_get d "code"); auto. }
      rewrite Hrc, Hrm, Hne.
      destruct (dict_get d "code"); [|reflexivity].
      destruct (dict_get d "msg"); [|reflexivity]. subst. reflexivity.
    + intros Hr.
      assert (E : match dict_get d "code" with
                  | Some _ =>
                      match dict_get d "msg" with
                      | Some m => m = VStr ""
                      | None => True
                      end
                  | None => True
                  end).
      { destruct Ha as [H|[H|H]]; rewrite ?H; auto;
          destruct (dict_get d "code"); auto. }
      destruct (dict_get d "code").
      * destruct (dict_get d "msg"); [subst|];
          (destruct Hr as [H|[rc [H Hz]]]; rewrite H; [|rewrite Hz]; reflexivity).
      * destruct Hr as [H|[rc [H Hz]]]; rewrite H; [|rewrite Hz]; reflexivity.
Qed.

(** C2, where the code departs from it. A body with [code] and an empty
    [msg], and no [retCode], is accepted by the public executor, which
    returns the headers and the body; the signed executor, which tests
    [code] alone, takes the same body for an error and returns the pair of
    empty strings. On a body with [code] and no [msg] the signed executor
    lets a [KeyError] reach the caller. *)
Theorem signed_classification_differs :
  let body := VDict [("code", VInt 0); ("msg", VStr "")] in
  let reply := NetReturn (Response [("Content-Type", "application/json")]
                            "" (inr body)) in
  let bare := NetReturn (Response [] "" (inr (VDict [("code", VInt 0)]))) in
  fst (send_public_request "https://fapi.binance.com" "GET"
         (Some "/fapi/v1/ping") None true (answering reply))
  = Ok (OHeaders [("Content-Type", "application/json")], OVal body)
  /\ fst (send_signed_request "GET" "/v5/account/info" None "bybit"
            (Some "https://api.bybit.com") None (answering reply))
     = Ok (OVal (VStr ""), OVal (VStr ""))
  /\ log (snd (send_signed_request "GET" "/v5/account/info" None "bybit"
                 (Some "https://api.bybit.com") None (answering reply)))
     = [(DEBUG, "Requesting https://api.bybit.com/v5/account/info?");
        (WARNING,
         "HTTP Request error: Request to "
         ++ "'https://api.bybit.com/v5/account/info?'"
         ++ " failed. Code: 0; Message: ")]
  /\ fst (send_signed_request "GET" "/v5/account/info" None "bybit"
            (Some "https://api.bybit.com") None (answering bare))
     = Raise (KeyError "msg").
Proof. vm_compute. repeat split. Qed.

(** * Slices and [find] *)

Lemma str_take_drop (n : nat) (s : string) : str_take n s ++ str_drop n s = s.
Proof.
  revert s; induction n as [|n IH]; intros [|c s]; simpl; try reflexivity.
  now rewrite IH.
Qed.

Lemma str_drop_drop (a b : nat) (s : string) :
  str_drop a (str_drop b s) = str_drop (b + a) s.
Proof.
  revert s; induction b as [|b IH]; intros s; [reflexivity|].
  destruct s as [|c s]; simpl; [now destruct a | apply IH].
Qed.

Lemma str_drop_length (n : nat) (s : string) :
  String.length (str_drop n s) = (String.length s - n)%nat.
Proof.
  revert s; induction n as [|n IH]; intros [|c s]; simpl; try lia. apply IH.
Qed.

Lemma str_drop_app (a b : string) : str_drop (String.length a) (a ++ b) = b.
Proof. induction a as [|c a IH]; [reflexivity | exact IH]. Qed.

Lemma length_append (a b : string) :
  String.length (a ++ b) = (String.length a + String.length b)%nat.
Proof. induction a as [|c a IH]; simpl; [reflexivity | now rewrite IH]. Qed.

Lemma starts_with_drop (p s : string) :
  starts_with p s = true -> s = p ++ str_drop (String.length p) s.
Proof.
  intros H. apply starts_with_iff in H as [t ->]. now rewrite str_drop_app.
Qed.

Lemma starts_with_length (p s : string) :
  starts_with p s = true -> (String.length p <= String.length s)%nat.
Proof.
  intros H. apply starts_with_iff in H as [t ->]. rewrite length_append. lia.
Qed.

(** [find_first] gives an occurrence, and the first one. *)
Lemma find_first_some (sub s : string) (i : nat) :
  find_first sub s = Some i ->
  starts_with sub (str_drop i s) = true
  /\ (i + String.length sub <= String.length s)%nat
  /\ forall k, (k < i)%nat -> starts_with sub (str_drop k s) = false.
Proof.
  revert i; induction s as [|c s IH]; intros i H.
  - cbn [find_first] in H. destruct (starts_with sub "") eqn:E; [|discriminate].
    injection H as <-. repeat split; [exact E | | lia].
    apply starts_with_length in E. simpl in *. lia.
  - cbn [find_first] in H. destruct (starts_with sub (String c s)) eqn:E.
    + injection H as <-. repeat split; [exact E | | lia].
      apply starts_with_length in E. simpl in *. lia.
    + destruct (find_first sub s) as [j|] eqn:F; [|discriminate].
      injection H as <-. destruct (IH j eq_refl) as (H1 & H2 & H3).
      repeat split; [exact H1 | simpl; lia |].
      intros [|k] Hk; [exact E | apply H3; lia].
Qed.

Lemma find_first_none (sub s : string) :
  find_first sub s = None <-> has_sub sub s = false.
Proof.
  induction s as [|c s IH].
  - cbn [find_first has_sub]. destruct (starts_with sub ""); simpl; split;
      congruence.
  - cbn [find_first has_sub]. destruct (starts_with sub (String c s)); simpl.
    + split; congruence.
    + rewrite <- IH. destruct (find_first sub s); simpl; split; congruence.
Qed.

Lemma find_first_occurrence (sub s : string) (k : nat) :
  starts_with sub (str_drop k s) = true ->
  exists i, find_first sub s = Some i /\ (i <= k)%nat.
Proof.
  revert k; induction s as [|c s IH]; intros k H.
  - assert (E : str_drop k "" = "") by now destruct k.
    rewrite E in H. cbn [find_first]. rewrite H. exists O. split; [reflexivity | lia].
  - cbn [find_first]. destruct (starts_with sub (String c s)) eqn:E.
    + exists O. split; [reflexivity | lia].
    + destruct k as [|k]; [simpl in H; congruence|].
      destruct (IH k H) as [i [Hi Hk]]. rewrite Hi. exists (S i).
      split; [reflexivity | lia].
Qed.

(** What [find] returns: [-1], or an index from [start] on where [sub]
    occurs, with no occurrence between [start] and that index. *)
Lemma str_find_spec (s sub : string) (start : nat) :
  let r := str_find s sub (Z.of_nat start) in
  (r = -1
   /\ forall k, (start <= k)%nat -> (k <= String.length s)%nat ->
                starts_with sub (str_drop k s) = false)
  \/ (exists i, r = Z.of_nat i /\ (start <= i)%nat
                /\ (i + String.length sub <= String.length s)%nat
                /\ starts_with sub (str_drop i s) = true
                /\ forall k, (start <= k)%nat -> (k < i)%nat ->
                             starts_with sub (str_drop k s) = false).
Proof.
  cbn zeta. unfold str_find. rewrite Nat2Z.id.
  destruct (Z.ltb_spec (Z.of_nat (String.length s)) (Z.of_nat start)) as [L|L].
  - left. split; [reflexivity|]. intros k H1 H2. lia.
  - destruct (find_first sub (str_drop start s)) as [j|] eqn:F.
    + right. apply find_first_some in F as (H1 & H2 & H3).
      rewrite str_drop_drop in H1. rewrite str_drop_length in H2.
      exists (start + j)%nat. repeat split; try lia; [exact H1|].
      intros k Hk1 Hk2. specialize (H3 (k - start)%nat).
      rewrite str_drop_drop in H3. replace (start + (k - start))%nat with k in H3 by lia.
      apply H3. lia.
    + left. split; [reflexivity|]. intros k Hk1 Hk2.
      destruct (starts_with sub (str_drop k s)) eqn:E; [|reflexivity].
      replace k with (start + (k - start))%nat in E by lia.
      rewrite <- str_drop_drop in E.
      apply find_first_occurrence in E as [i [Hi _]]. congruence.
Qed.

Lemma str_take_all (n : nat) (s : string) :
  (String.length s <= n)%nat -> str_take n s = s.
Proof.
  revert s; induction n as [|n IH]; intros [|c s] H; simpl in *;
    try reflexivity; try lia.
  rewrite IH by lia. reflexivity.
Qed.

Lemma str_take_length (n : nat) (s : string) :
  (n <= String.length s)%nat -> String.length (str_take n s) = n.
Proof.
  revert s; induction n as [|n IH]; intros [|c s] H; simpl in *;
    try reflexivity; try lia.
  rewrite IH by lia. reflexivity.
Qed.

(** An occurrence at index [i] splits the string around it. *)
Lemma occurrence_split (sub s : string) (i : nat) :
  starts_with sub (str_drop i s) = true ->
  s = str_take i s ++ sub ++ str_drop (i + String.length sub) s.
Proof.
  intros H. rewrite <- str_drop_drop, <- (starts_with_drop _ _ H).
  now rewrite str_take_drop.
Qed.

Lemma split_occurrence (sub pre post : string) :
  starts_with sub (str_drop (String.length pre) (pre ++ sub ++ post)) = true.
Proof. rewrite str_drop_app. apply starts_with_iff. now exists post. Qed.

Lemma str_find_absent (s sub : string) :
  has_sub sub s = false -> str_find s sub 0 = -1.
Proof.
  intros H. unfold str_find. apply find_first_none in H.
  destruct (Z.ltb_spec (Z.of_nat (String.length s)) 0); [reflexivity|].
  cbn [Z.to_nat str_drop]. now rewrite H.
Qed.

Lemma str_find_present (s sub : string) :
  has_sub sub s = true ->
  exists i, str_find s sub 0 = Z.of_nat i
            /\ (i + String.length sub <= String.length s)%nat
            /\ starts_with sub (str_drop i s) = true
            /\ forall k, (k < i)%nat -> starts_with sub (str_drop k s) = false.
Proof.
  intros H. destruct (str_find_spec s sub 0) as [[E _]|[i (E & _ & H1 & H2 & H3)]].
  - unfold str_find in E.
    destruct (Z.ltb_spec (Z.of_nat (String.length s)) (Z.of_nat 0)); [lia|].
    cbn [Z.of_nat Z.to_nat str_drop] in E.
    destruct (find_first sub s) eqn:F; [lia|].
    apply find_first_none in F. congruence.
  - exists i. repeat split; try assumption. intros k Hk. apply H3; lia.
Qed.

(** * [find_in_string] *)

(** X1. When the start marker does not occur in the string, [find_in_string]
    returns the empty string, whatever the end marker and whether JSON is
    asked for or not; [json.loads] is not called and nothing is logged. *)
Theorem find_in_string_absent (loads : string -> loads_outcome)
    (s start_substring : string) (end_substring : option string)
    (return_json : bool) (w : world) :
  has_sub start_substring s = false ->
  find_in_string loads s start_substring end_substring return_json w
  = (Ok (VStr ""), w).
Proof.
  intros H. unfold find_in_string. now rewrite (str_find_absent _ _ H).
Qed.

(** Without an end marker the text is what follows the first occurrence
    of the start marker. *)
Lemma find_text_to_the_end (s start_substring : string) :
  has_sub start_substring s = true ->
  exists pre,
    s = pre ++ start_substring ++ find_text s start_substring None
    /\ forall pre' post',
         s = pre' ++ start_substring ++ post' ->
         (String.length pre <= String.length pre')%nat.
Proof.
  intros H. destruct (str_find_present _ _ H) as [i (E & H1 & H2 & H3)].
  exists (str_take i s). split.
  - unfold find_text, slice, len. rewrite E.
    destruct (Z.ltb_spec (-1) (Z.of_nat i)); [|lia].
    replace (Z.to_nat (Z.of_nat i + Z.of_nat (String.length start_substring)))
      with (i + String.length start_substring)%nat by lia.
    rewrite (str_take_all _ (str_drop _ s)) by (rewrite str_drop_length; lia).
    now apply occurrence_split.
  - intros pre' post' E'. rewrite str_take_length by lia.
    destruct (Nat.le_gt_cases i (String.length pre')) as [L|L]; [exact L|].
    specialize (H3 _ L). rewrite E' in H3 at 1.
    now rewrite split_occurrence in H3.
Qed.

(** The two searches of [find_in_string] with an end marker, when they
    succeed. *)
Lemma find_text_cases (s start_substring end_substring : string) :
  find_text s start_substring (Some end_substring) = ""
  \/ exists i j,
       (i + String.length start_substring <= String.length s)%nat
       /\ starts_with start_substring (str_drop i s) = true
       /\ (i <= j)%nat
       /\ (j + String.length end_substring <= String.length s)%nat
       /\ starts_with end_substring (str_drop j s) = true
       /\ (forall k, (i <= k)%nat -> (k < j)%nat ->
                     starts_with end_substring (str_drop k s) = false)
       /\ find_text s start_substring (Some end_substring)
          = str_take (j - (i + String.length start_substring))
              (str_drop (i + String.length start_substring) s).
Proof.
  unfold find_text.
  destruct (str_find_spec s start_substring 0) as [[E _]|[i (E & _ & H1 & H2 & _)]];
    cbn [Z.of_nat] in E; rewrite E.
  - now left.
  - destruct (Z.ltb_spec (-1) (Z.of_nat i)); [|lia].
    destruct (str_find_spec s end_substring i)
      as [[F _]|[j (F & G1 & G2 & G3 & G4)]]; rewrite F.
    + now left.
    + right. exists i, j. destruct (Z.ltb_spec (-1) (Z.of_nat j)); [|lia].
      repeat split; try assumption.
      unfold slice, len. f_equal; [|f_equal]; lia.
Qed.

(** A text that is not empty stands between the two markers and does not
    contain the end marker. *)
Lemma find_text_enclosed (s start_substring end_substring : string) :
  find_text s start_substring (Some end_substring) <> "" ->
  (exists pre post,
     s = pre ++ start_substring
         ++ find_text s start_substring (Some end_substring)
         ++ end_substring ++ post)
  /\ has_sub end_substring (find_text s start_substring (Some end_substring))
     = false.
Proof.
  intros Hne.
  destruct (find_text_cases s start_substring end_substring)
    as [E|[i [j (H1 & H2 & Hij & G1 & G2 & G3 & E)]]]; [contradiction|].
  rewrite E in *. set (a := (i + String.length start_substring)%nat) in *.
  assert (Haj : (a < j)%nat).
  { destruct (Nat.le_gt_cases j a) as [L|L]; [|exact L].
    exfalso. apply Hne. replace (j - a)%nat with O by lia. reflexivity. }
  assert (Ej : str_drop a s = str_take (j - a) (str_drop a s) ++ str_drop j s).
  { rewrite <- (str_take_drop (j - a) (str_drop a s)) at 1.
    rewrite str_drop_drop. do 2 f_equal. lia. }
  split.
  - exists (str_take i s), (str_drop (j + String.length end_substring) s).
    assert (Ee : str_drop j s
                 = end_substring
                   ++ str_drop (j + String.length end_substring) s).
    { rewrite <- str_drop_drop. now apply starts_with_drop. }
    rewrite <- Ee, <- Ej. now apply occurrence_split.
  - destruct (has_sub end_substring (str_take (j - a) (str_drop a s))) eqn:Hs;
      [|reflexivity].
    exfalso. apply has_sub_iff in Hs as [x [y Hs]].
    assert (Lt : String.length (str_take (j - a) (str_drop a s)) = (j - a)%nat).
    { apply str_take_length. rewrite str_drop_length. lia. }
    rewrite Hs, !length_append in Lt.
    assert (Hocc : starts_with end_substring (str_drop (a + String.length x) s)
                   = true).
    { rewrite <- str_drop_drop, Ej, Hs, !append_assoc.
      apply split_occurrence. }
    destruct end_substring as [|c e].
    + assert (Lij : (i < j)%nat) by (unfold a in Haj; lia).
      pose proof (G3 i (le_n i) Lij) as F. discriminate F.
    + rewrite G3 in Hocc; [discriminate | lia | simpl in Lt; lia].
Qed.

(** The search for the end marker starts at the start marker, not behind
    it: an end marker that occurs in the start marker is found there, and the
    text is empty. *)
Lemma find_text_end_inside_start (s start_substring end_substring : string) :
  has_sub end_substring start_substring = true ->
  find_text s start_substring (Some end_substring) = "".
Proof.
  intros H.
  destruct (find_text_cases s start_substring end_substring)
    as [E|[i [j (H1 & H2 & Hij & G1 & G2 & G3 & E)]]]; [exact E|].
  rewrite E. apply has_sub_iff in H as [x [y H]].
  assert (Hocc : starts_with end_substring (str_drop (i + String.length x) s)
                 = true).
  { rewrite <- str_drop_drop, (starts_with_drop _ _ H2), H, !append_assoc.
    apply split_occurrence. }
  assert (L : (j <= i + String.length x)%nat).
  { destruct (Nat.le_gt_cases j (i + String.length x)) as [L|L]; [exact L|].
    rewrite G3 in Hocc; [discriminate | lia | exact L]. }
  rewrite H, !length_append.
  replace (j - _)%nat with O by lia. reflexivity.
Qed.

(** * [find_all_occurrences_in_string] *)

Lemma occurrence_has_sub (sub s : string) (k : nat) :
  starts_with sub (str_drop k s) = true -> has_sub sub s = true.
Proof.
  intros H. apply find_first_occurrence in H as [i [H _]].
  destruct (has_sub sub s) eqn:E; [reflexivity|].
  apply find_first_none in E. congruence.
Qed.

(** The text between a start marker at [i] and the first end marker behind
    it, at [j]. *)
Lemma between_markers (s st e : string) (i j : nat) :
  starts_with st (str_drop i s) = true ->
  (i + String.length st <= j)%nat ->
  (j + String.length e <= String.length s)%nat ->
  starts_with e (str_drop j s) = true ->
  (forall k, (i + String.length st <= k)%nat -> (k < j)%nat ->
             starts_with e (str_drop k s) = false) ->
  let t := str_take (j - (i + String.length st))
             (str_drop (i + String.length st) s) in
  (exists pre post, s = pre ++ st ++ t ++ e ++ post)
  /\ (e <> "" -> has_sub e t = false).
Proof.
  intros H2 Haj G1 G2 G3 t. set (a := (i + String.length st)%nat) in *.
  assert (Ej : str_drop a s = t ++ str_drop j s).
  { unfold t. rewrite <- (str_take_drop (j - a) (str_drop a s)) at 1.
    rewrite str_drop_drop. do 2 f_equal. lia. }
  split.
  - exists (str_take i s), (str_drop (j + String.length e) s).
    assert (Ee : str_drop j s = e ++ str_drop (j + String.length e) s).
    { rewrite <- str_drop_drop. now apply starts_with_drop. }
    rewrite <- Ee, <- Ej. now apply occurrence_split.
  - intros He. destruct (has_sub e t) eqn:Hs; [|reflexivity].
    exfalso. apply has_sub_iff in Hs as [x [y Hs]].
    assert (Lt : String.length t = (j - a)%nat).
    { apply str_take_length. rewrite str_drop_length. lia. }
    rewrite Hs, !length_append in Lt.
    assert (Hocc : starts_with e (str_drop (a + String.length x) s) = true).
    { rewrite <- str_drop_drop, Ej, Hs, !append_assoc.
      apply split_occurrence. }
    destruct e as [|c e]; [now apply He|].
    rewrite G3 in Hocc; [discriminate | lia | simpl in Lt; lia].
Qed.

Lemma occurrences_loop_more (fuel : nat) (s st e : string) (si : Z)
    (acc l : list string) :
  occurrences_loop fuel s st e si acc = Some l ->
  occurrences_loop (S fuel) s st e si acc = Some l.
Proof.
  revert si acc; induction fuel as [|fuel IH]; intros si acc H; [discriminate|].
  cbn [occurrences_loop] in H |- *.
  destruct (-1 <? si); [|exact H].
  destruct (str_find s e (si + len st) =? -1); [exact H|].
  now apply IH.
Qed.

Lemma next_index_nat (s : string) (i : nat) :
  next_index s (Z.of_nat i)
  = Z.of_nat (S i + skip_continuation (str_drop (S i) s)).
Proof.
  unfold next_index.
  replace (Z.to_nat (Z.of_nat i + 1)) with (S i) by lia. lia.
Qed.

Lemma occurrences_loop_enough (s st e : string) (n : nat) (si : Z)
    (acc : list string) :
  si = -1 \/ (0 <= si <= len s /\ len s + 1 - si <= Z.of_nat n) ->
  exists l, occurrences_loop (S n) s st e si acc = Some l
            /\ (List.length l <= List.length acc + n)%nat.
Proof.
  revert si acc; induction n as [|n IH]; intros si acc H.
  - destruct H as [->|H]; [|unfold len in H; lia].
    exists acc. split; [reflexivity | lia].
  - destruct H as [->|[H1 H2]].
    + exists acc. split; [reflexivity | lia].
    + cbn [occurrences_loop]. destruct (Z.ltb_spec (-1) si); [|lia].
      destruct (str_find s e (si + len st) =? -1).
      * exists acc. split; [reflexivity | lia].
      * destruct (IH (str_find s st (next_index s si))
                    (acc ++ [slice (si + len st)
                               (str_find s e (si + len st)) s])%list)
          as [l [Hl Hn]].
        { replace si with (Z.of_nat (Z.to_nat si)) by lia.
          rewrite next_index_nat.
          destruct (str_find_spec s st
                      (S (Z.to_nat si)
                       + skip_continuation (str_drop (S (Z.to_nat si)) s)))
            as [[E _]|[i (E & G1 & G2 & _)]]; cbn zeta in E; rewrite E.
          - now left.
          - right. unfold len in *. lia. }
        exists l. split; [exact Hl|]. rewrite length_app in Hn. simpl in Hn. lia.
Qed.

Lemma occurrences_loop_fuel (s st e : string) (si : Z) (acc l : list string)
    (n fuel : nat) :
  occurrences_loop n s st e si acc = Some l -> (n <= fuel)%nat ->
  occurrences_loop fuel s st e si acc = Some l.
Proof.
  intros H L. induction L as [|m L IH]; [exact H|].
  now apply occurrences_loop_more.
Qed.

Lemma str_find_start (s sub : string) :
  str_find s sub 0 = -1 \/ 0 <= str_find s sub 0 <= len s.
Proof.
  destruct (str_find_spec s sub 0) as [[E _]|[i (E & _ & G & _)]];
    cbn [Z.of_nat] in E; cbn zeta in E; rewrite E; [now left|].
  right. unfold len. lia.
Qed.

(** Characters and the bytes that begin them. *)

Lemma char_count_drop (k : nat) (s : string) :
  (char_count (str_drop k s) <= char_count s)%nat.
Proof.
  revert s; induction k as [|k IH]; intros [|c s]; cbn [str_drop char_count];
    try lia.
  specialize (IH s). destruct (is_continuation c); lia.
Qed.

Lemma char_count_drop_le (i j : nat) (s : string) :
  (i <= j)%nat ->
  (char_count (str_drop j s) <= char_count (str_drop i s))%nat.
Proof.
  intros H. replace j with (i + (j - i))%nat by lia.
  rewrite <- str_drop_drop. apply char_count_drop.
Qed.

Lemma well_started_skip (r : string) :
  well_started (str_drop (skip_continuation r) r) = true.
Proof.
  induction r as [|c r IH]; [reflexivity|].
  cbn [skip_continuation]. destruct (is_continuation c) eqn:E; [exact IH|].
  cbn [str_drop well_started]. now rewrite E.
Qed.

Lemma char_count_started (i : nat) (s : string) :
  (i < String.length s)%nat -> well_started (str_drop i s) = true ->
  char_count (str_drop i s) = S (char_count (str_drop (S i) s)).
Proof.
  intros L W. replace (S i) with (i + 1)%nat by lia. rewrite <- str_drop_drop.
  pose proof (str_drop_length i s) as D.
  destruct (str_drop i s) as [|c r]; [simpl in D; lia|].
  cbn [well_started] in W. cbn [char_count str_drop].
  now destruct (is_continuation c).
Qed.

Lemma starts_with_well_started (st t : string) :
  st <> "" -> well_started st = true -> starts_with st t = true ->
  well_started t = true.
Proof.
  intros Hne W H. destruct st as [|c st]; [contradiction|].
  destruct t as [|d t]; [discriminate|].
  apply starts_with_cons in H as [<- _]. exact W.
Qed.

(** Where a marker is found from a character on, a character begins. *)
Lemma str_find_started (s st : string) (j i : nat) :
  well_started st = true -> well_started (str_drop j s) = true ->
  (j <= i)%nat -> starts_with st (str_drop i s) = true ->
  (forall k, (j <= k)%nat -> (k < i)%nat ->
             starts_with st (str_drop k s) = false) ->
  well_started (str_drop i s) = true.
Proof.
  intros W Wj L H M. destruct st as [|c st].
  - destruct (Nat.eq_dec i j) as [->|N]; [exact Wj|].
    assert (L' : (j < i)%nat) by lia.
    pose proof (M j (le_n j) L') as F. discriminate F.
  - apply (starts_with_well_started (String c st)); [discriminate | exact W | exact H].
Qed.

Lemma occurrences_loop_chars (s st e : string) (n : nat) (si : Z)
    (acc : list string) :
  well_started st = true ->
  si = -1
  \/ (exists i, si = Z.of_nat i /\ (i <= String.length s)%nat
                /\ well_started (str_drop i s) = true
                /\ (char_count (str_drop i s) <= n)%nat) ->
  exists l, occurrences_loop (S (S n)) s st e si acc = Some l
            /\ (List.length l <= List.length acc + S n)%nat.
Proof.
  intros W. revert si acc; induction n as [|n IH]; intros si acc H.
  - destruct H as [->|[i (-> & L & Wi & C)]].
    + exists acc. split; [reflexivity | lia].
    + cbn [occurrences_loop]. destruct (Z.ltb_spec (-1) (Z.of_nat i)); [|lia].
      destruct (str_find s e (Z.of_nat i + len st) =? -1).
      * exists acc. split; [reflexivity | lia].
      * rewrite next_index_nat.
        destruct (str_find_spec s st
                    (S i + skip_continuation (str_drop (S i) s)))
          as [[E _]|[i' (E & G1 & G2 & _)]]; cbn zeta in E; rewrite E.
        -- eexists. split; [reflexivity|]. rewrite length_app. simpl. lia.
        -- exfalso. assert (Li : (i < String.length s)%nat) by lia.
           rewrite (char_count_started i s Li Wi) in C. lia.
  - destruct H as [->|[i (-> & L & Wi & C)]].
    + exists acc. split; [reflexivity | lia].
    + cbn [occurrences_loop]. destruct (Z.ltb_spec (-1) (Z.of_nat i)); [|lia].
      destruct (str_find s e (Z.of_nat i + len st) =? -1).
      * exists acc. split; [reflexivity | lia].
      * rewrite next_index_nat.
        set (j := (S i + skip_continuation (str_drop (S i) s))%nat).
        destruct (str_find_spec s st j)
          as [[E _]|[i' (E & G1 & G2 & G3 & G4)]]; cbn zeta in E; rewrite E.
        -- eexists. split; [reflexivity|]. rewrite length_app. simpl. lia.
        -- assert (Li : (i < String.length s)%nat) by (unfold j in G1; lia).
           rewrite (char_count_started i s Li Wi) in C.
           destruct (IH (Z.of_nat i')
                       (acc ++ [slice (Z.of_nat i + len st)
                                  (str_find s e (Z.of_nat i + len st)) s])%list)
             as [l [Hl Hn]].
           { right. exists i'. split; [reflexivity|]. split; [lia|]. split.
             - apply (str_find_started s st j i' W); try assumption.
               unfold j. rewrite <- str_drop_drop. apply well_started_skip.
             - pose proof (char_count_drop_le (S i) i' s) as M.
               unfold j in G1. lia. }
           exists l. split; [exact Hl|]. rewrite length_app in Hn. simpl in Hn.
           lia.
Qed.

(** X6. The loop of [find_all_occurrences_in_string] ends for every input,
    empty markers too: two more turns than the text has bytes are enough.
    For the encoding of a text, two more turns than [len(string)] are
    enough, a larger bound gives the same list, and the list has at most
    [len(string) + 1] texts. *)
Theorem find_all_occurrences_terminates (s start_substring end_substring
    : string) :
  (exists l,
     forall fuel, (String.length s + 2 <= fuel)%nat ->
       find_all_occurrences_in_string fuel s start_substring end_substring
       = Some l)
  /\ (well_started s = true -> well_started start_substring = true ->
      exists l,
        (forall fuel, (char_count s + 2 <= fuel)%nat ->
           find_all_occurrences_in_string fuel s start_substring
             end_substring = Some l)
        /\ (List.length l <= char_count s + 1)%nat).
Proof.
  unfold find_all_occurrences_in_string. split.
  - destruct (occurrences_loop_enough s start_substring end_substring
                (String.length s + 1) (str_find s start_substring 0) [])
      as [l [H _]].
    { destruct (str_find_start s start_substring) as [E|E]; [now left|].
      right. unfold len in *. lia. }
    exists l. intros fuel Hf.
    apply (occurrences_loop_fuel _ _ _ _ _ _ _ _ H). lia.
  - intros Ws Wst.
    destruct (occurrences_loop_chars s start_substring end_substring
                (char_count s) (str_find s start_substring 0) [] Wst)
      as [l [H L]].
    { destruct (str_find_spec s start_substring 0)
        as [[E _]|[i (E & _ & G2 & G3 & G4)]]; cbn [Z.of_nat] in E;
        cbn zeta in E; rewrite E; [now left|].
      right. exists i. split; [reflexivity|]. split; [lia|]. split.
      - apply (str_find_started s start_substring 0 i Wst); try assumption.
        lia.
      - apply char_count_drop. }
    exists l. split; [|simpl in L; lia].
    intros fuel Hf. apply (occurrences_loop_fuel _ _ _ _ _ _ _ _ H). lia.
Qed.

Lemma find_all_occurrences_terminates_witness :
  exists l,
    (forall fuel, (char_count "[a][b]" + 2 <= fuel)%nat ->
       find_all_occurrences_in_string fuel "[a][b]" "[" "]" = Some l)
    /\ (List.length l <= char_count "[a][b]" + 1)%nat.
Proof.
  exact (proj2 (find_all_occurrences_terminates "[a][b]" "[" "]")
           eq_refl eq_refl).
Defined.

Lemma occurrences_loop_enclosed (s st e : string) (P : string -> Prop) :
  (forall i j,
     starts_with st (str_drop i s) = true ->
     (i + String.length st <= j)%nat ->
     (j + String.length e <= String.length s)%nat ->
     starts_with e (str_drop j s) = true ->
     (forall k, (i + String.length st <= k)%nat -> (k < j)%nat ->
                starts_with e (str_drop k s) = false) ->
     P (str_take (j - (i + String.length st))
          (str_drop (i + String.length st) s))) ->
  forall fuel si acc l,
    si = -1 \/ (exists i, si = Z.of_nat i
                          /\ starts_with st (str_drop i s) = true) ->
    Forall P acc ->
    occurrences_loop fuel s st e si acc = Some l ->
    Forall P l.
Proof.
  intros HP. induction fuel as [|fuel IH]; intros si acc l Hsi Hacc H;
    [discriminate|].
  cbn [occurrences_loop] in H.
  destruct Hsi as [->|[i [-> Hi]]].
  - cbn in H. now injection H as <-.
  - destruct (Z.ltb_spec (-1) (Z.of_nat i)); [|lia].
    replace (Z.of_nat i + len st)
      with (Z.of_nat (i + String.length st)) in H by (unfold len; lia).
    destruct (str_find_spec s e (i + String.length st))
      as [[E _]|[j (E & G1 & G2 & G3 & G4)]]; cbn zeta in E; rewrite E in H.
    + cbn in H. now injection H as <-.
    + destruct (Z.eqb_spec (Z.of_nat j) (-1)); [lia|].
      apply IH in H; [exact H | |].
      * rewrite next_index_nat.
        destruct (str_find_spec s st
                    (S i + skip_continuation (str_drop (S i) s)))
          as [[F _]|[i' (F & _ & _ & F3 & _)]]; cbn zeta in F; rewrite F.
        -- now left.
        -- right. now exists i'.
      * apply Forall_app. split; [exact Hacc|]. constructor; [|constructor].
        unfold slice.
        replace (Z.to_nat (Z.of_nat j - Z.of_nat (i + String.length st)))
          with (j - (i + String.length st))%nat by lia.
        rewrite Nat2Z.id. now apply HP.
Qed.

(** X7. Every text that [find_all_occurrences_in_string] returns stands in the
    string between a start marker and an end marker, and does not contain
    the end marker (when that is not empty). *)
Theorem find_all_occurrences_enclosed (fuel : nat)
    (s start_substring end_substring : string) (l : list string) :
  find_all_occurrences_in_string fuel s start_substring end_substring
  = Some l ->
  forall t, In t l ->
    (exists pre post,
       s = pre ++ start_substring ++ t ++ end_substring ++ post)
    /\ (end_substring <> "" -> has_sub end_substring t = false).
Proof.
  intros H. apply Forall_forall.
  refine (occurrences_loop_enclosed s start_substring end_substring _ _
            fuel _ [] l _ (Forall_nil _) H).
  - intros i j H1 H2 H3 H4 H5. now apply between_markers.
  - destruct (str_find_spec s start_substring 0)
      as [[E _]|[i (E & _ & _ & E3 & _)]]; cbn [Z.of_nat] in E; cbn zeta in E;
      rewrite E; [now left | right; now exists i].
Qed.

(** X8. When the start marker or the end marker does not occur in the string,
    [find_all_occurrences_in_string] returns the empty list after one turn. *)
Theorem find_all_occurrences_none (fuel : nat)
    (s start_substring end_substring : string) :
  has_sub start_substring s = false \/ has_sub end_substring s = false ->
  find_all_occurrences_in_string (S fuel) s start_substring end_substring
  = Some [].
Proof.
  intros H. unfold find_all_occurrences_in_string. cbn [occurrences_loop].
  destruct (Z.ltb_spec (-1) (str_find s start_substring 0)) as [L|L];
    [|reflexivity].
  destruct H as [H|H].
  - rewrite (str_find_absent _ _ H) in L. lia.
  - destruct (str_find_start s start_substring) as [E|E]; [lia|].
    replace (str_find s start_substring 0 + len start_substring)
      with (Z.of_nat (Z.to_nat (str_find s start_substring 0)
                      + String.length start_substring))
      by (unfold len; lia).
    destruct (str_find_spec s end_substring
                (Z.to_nat (str_find s start_substring 0)
                 + String.length start_substring))
      as [[F _]|[j (F & _ & _ & F3 & _)]]; cbn zeta in F; rewrite F.
    + reflexivity.
    + apply occurrence_has_sub in F3. congruence.
Qed.

(** * [remove_non_alphanumeric] *)

Lemma sub_runs_filter (s : string) (skip : nat) :
  (skip <= match_run s)%nat -> sub_runs skip s = str_filter kept_char s.
Proof.
  revert skip; induction s as [|c s IH]; intros skip H; [reflexivity|].
  cbn [sub_runs str_filter match_run] in *.
  destruct (kept_char c) eqn:E.
  - assert (skip = O) by lia. subst skip. rewrite IH by lia. reflexivity.
  - destruct skip as [|k]; [apply IH; lia | apply IH; lia].
Qed.

Lemma str_filter_app (f : ascii -> bool) (a b : string) :
  str_filter f (a ++ b) = str_filter f a ++ str_filter f b.
Proof.
  induction a as [|c a IH]; [reflexivity|].
  cbn [append str_filter]. destruct (f c); rewrite IH; reflexivity.
Qed.

Lemma str_filter_forall (f : ascii -> bool) (s : string) :
  str_forall f (str_filter f s) = true.
Proof.
  induction s as [|c s IH]; [reflexivity|].
  cbn [str_filter]. destruct (f c) eqn:E; [|exact IH].
  cbn [str_forall]. now rewrite E, IH.
Qed.

Lemma str_filter_id (f : ascii -> bool) (s : string) :
  str_forall f s = true <-> str_filter f s = s.
Proof.
  induction s as [|c s IH]; [now split|].
  cbn [str_forall str_filter]. destruct (f c) eqn:E; cbn [andb].
  - rewrite IH. split; [now intros -> | now intros [= H]].
  - split; [discriminate|]. intros H.
    assert (L : String.length (str_filter f s) = S (String.length s))
      by now rewrite H.
    assert (B : forall t, (String.length (str_filter f t) <= String.length t)%nat).
    { clear. induction t as [|d t IHt]; [simpl; lia|].
      cbn [str_filter]. destruct (f d); simpl; lia. }
    specialize (B s). lia.
Qed.

(** X9. Replacing every run of other characters by nothing leaves the letters,
    digits and spaces of the string in their order: the result has only such
    characters, and the string is kept as it is exactly when it had no other
    character. *)
Theorem remove_non_alphanumeric_filter (s : string) :
  remove_non_alphanumeric s = str_filter kept_char s
  /\ str_forall kept_char (remove_non_alphanumeric s) = true
  /\ (remove_non_alphanumeric s = s <-> str_forall kept_char s = true).
Proof.
  assert (E : remove_non_alphanumeric s = str_filter kept_char s).
  { apply sub_runs_filter. lia. }
  rewrite E. repeat split.
  - apply str_filter_forall.
  - apply str_filter_id.
  - apply str_filter_id.
Qed.

(** X10. [remove_non_alphanumeric] can be applied to the parts of a string one by
    one, and applying it twice changes nothing more. *)
Theorem remove_non_alphanumeric_compose (a b : string) :
  remove_non_alphanumeric (a ++ b)
  = remove_non_alphanumeric a ++ remove_non_alphanumeric b
  /\ remove_non_alphanumeric (remove_non_alphanumeric a)
     = remove_non_alphanumeric a.
Proof.
  unfold remove_non_alphanumeric.
  rewrite !sub_runs_filter by lia. split; [apply str_filter_app|].
  apply str_filter_id, str_filter_forall.
Qed.

(** * [find_in_string], as it is called *)

Lemma find_in_string_text (loads : string -> loads_outcome)
    (s start_substring : string) (end_substring : option string) (w : world) :
  find_in_string loads s start_substring end_substring false w
  = (Ok (VStr (find_text s start_substring end_substring)), w).
Proof.
  unfold find_in_string, find_text.
  destruct (-1 <? str_find s start_substring 0); [|reflexivity].
  now rewrite andb_false_r.
Qed.

(** X2. Without an end marker [find_in_string] returns what follows the first
    occurrence of the start marker. *)
Theorem find_in_string_to_the_end (loads : string -> loads_outcome)
    (s start_substring : string) (w : world) :
  has_sub start_substring s = true ->
  exists pre t,
    find_in_string loads s start_substring None false w = (Ok (VStr t), w)
    /\ s = pre ++ start_substring ++ t
    /\ forall pre' post',
         s = pre' ++ start_substring ++ post' ->
         (String.length pre <= String.length pre')%nat.
Proof.
  intros H. destruct (find_text_to_the_end _ _ H) as [pre [E M]].
  exists pre, (find_text s start_substring None).
  split; [apply find_in_string_text | now split].
Qed.

Lemma find_in_string_to_the_end_witness :
  exists pre t,
    find_in_string (fun _ => LoadsValueError "") "id=42;name=x" "name=" None false
      (answering (NetRaise (Timeout "")))
    = (Ok (VStr t), answering (NetRaise (Timeout "")))
    /\ "id=42;name=x" = pre ++ "name=" ++ t
    /\ forall pre' post',
         "id=42;name=x" = pre' ++ "name=" ++ post' ->
         (String.length pre <= String.length pre')%nat.
Proof.
  exact (find_in_string_to_the_end (fun _ => LoadsValueError "") "id=42;name=x" "name="
           (answering (NetRaise (Timeout ""))) eq_refl).
Defined.

(** X3. A text that [find_in_string] returns for an end marker, when it is not
    empty, stands in the string between the start marker and the end
    marker, and does not contain the end marker. *)
Theorem find_in_string_enclosed (loads : string -> loads_outcome)
    (s start_substring end_substring t : string) (w : world) :
  find_in_string loads s start_substring (Some end_substring) false w
  = (Ok (VStr t), w) ->
  t <> "" ->
  (exists pre post, s = pre ++ start_substring ++ t ++ end_substring ++ post)
  /\ has_sub end_substring t = false.
Proof.
  rewrite find_in_string_text. intros [= <-] Hne.
  now apply find_text_enclosed.
Qed.

Lemma find_in_string_enclosed_witness :
  (exists pre post,
     "a<b>bold</b>z" = pre ++ "<b>" ++ "bold" ++ "</b>" ++ post)
  /\ has_sub "</b>" "bold" = false.
Proof.
  refine (find_in_string_enclosed (fun _ => LoadsValueError "") "a<b>bold</b>z" "<b>" "</b>"
            "bold" (answering (NetRaise (Timeout ""))) eq_refl _).
  discriminate.
Defined.

(** X4. When the end marker occurs in the start marker, [find_in_string] finds
    the end before the text begins and returns the empty string, whatever
    the string and whether JSON is asked for or not. *)
Theorem find_in_string_end_inside_start (loads : string -> loads_outcome)
    (s start_substring end_substring : string) (return_json : bool)
    (w : world) :
  has_sub end_substring start_substring = true ->
  find_in_string loads s start_substring (Some end_substring) return_json w
  = (Ok (VStr ""), w).
Proof.
  intros H. unfold find_in_string.
  rewrite (find_text_end_inside_start s _ _ H).
  now destruct (-1 <? str_find s start_substring 0).
Qed.

Lemma find_in_string_end_inside_start_witness :
  find_in_string (fun _ => LoadsValueError "") "a<b>bold</b>z" "<b>" (Some ">") false
    (answering (NetRaise (Timeout "")))
  = (Ok (VStr ""), answering (NetRaise (Timeout ""))).
Proof.
  exact (find_in_string_end_inside_start (fun _ => LoadsValueError "") "a<b>bold</b>z"
           "<b>" ">" false (answering (NetRaise (Timeout ""))) eq_refl).
Defined.

(** X5. With [return_json] a text that is not empty goes through
    [json.loads]: a decoded value is returned in place of the text; a
    [ValueError] is caught, and the text itself is returned after a warning;
    an exception of another class reaches the caller. *)
Theorem find_in_string_json (loads : string -> loads_outcome)
    (s start_substring : string) (end_substring : option string) (t : string)
    (w : world) :
  find_in_string loads s start_substring end_substring false w
  = (Ok (VStr t), w) ->
  t <> "" ->
  find_in_string loads s start_substring end_substring true w
  = match loads t with
    | Loaded v => (Ok v, w)
    | LoadsValueError m =>
        (Ok (VStr t), logged w WARNING ("JSON decode error: " ++ m))
    | LoadsRaises e => (Raise e, w)
    end.
Proof.
  rewrite find_in_string_text. intros [= <-] Hne. unfold find_in_string.
  destruct (-1 <? str_find s start_substring 0) eqn:E.
  - assert (L : (0 <? len (find_text s start_substring end_substring)) = true).
    { apply Z.ltb_lt. unfold len.
      destruct (find_text s start_substring end_substring);
        [contradiction | simpl; lia]. }
    rewrite L. cbn [andb].
    destruct (loads (find_text s start_substring end_substring)); reflexivity.
  - exfalso. apply Hne. unfold find_text. now rewrite E.
Qed.

Lemma find_in_string_json_witness :
  find_in_string
    (fun t => if String.eqb t "42" then Loaded (VInt 42)
              else LoadsRaises (RecursionError "maximum recursion depth exceeded"))
    "id=42;" "id=" (Some ";") true (answering (NetRaise (Timeout "")))
  = (Ok (VInt 42), answering (NetRaise (Timeout "")))
  /\ find_in_string
       (fun t => if String.eqb t "42" then Loaded (VInt 42)
                 else LoadsRaises
                        (RecursionError "maximum recursion depth exceeded"))
       "id=[[;" "id=" (Some ";") true (answering (NetRaise (Timeout "")))
     = (Raise (RecursionError "maximum recursion depth exceeded"),
        answering (NetRaise (Timeout ""))).
Proof.
  split.
  - refine (find_in_string_json
              (fun t => if String.eqb t "42" then Loaded (VInt 42)
                        else LoadsRaises
                               (RecursionError "maximum recursion depth exceeded"))
              "id=42;" "id=" (Some ";") "42"
              (answering (NetRaise (Timeout ""))) eq_refl _).
    discriminate.
  - refine (find_in_string_json
              (fun t => if String.eqb t "42" then Loaded (VInt 42)
                        else LoadsRaises
                               (RecursionError "maximum recursion depth exceeded"))
              "id=[[;" "id=" (Some ";") "[["
              (answering (NetRaise (Timeout ""))) eq_refl _).
    discriminate.
Defined.

Lemma find_in_string_absent_witness :
  find_in_string (fun _ => LoadsValueError "") "abc" "<b>" (Some "</b>") true
    (answering (NetRaise (Timeout "")))
  = (Ok (VStr ""), answering (NetRaise (Timeout ""))).
Proof.
  exact (find_in_string_absent (fun _ => LoadsValueError "") "abc" "<b>" (Some "</b>") true
           (answering (NetRaise (Timeout ""))) eq_refl).
Defined.

Lemma find_all_occurrences_enclosed_witness :
  (exists pre post, "[a][b]" = pre ++ "[" ++ "b" ++ "]" ++ post)
  /\ ("]" <> "" -> has_sub "]" "b" = false).
Proof.
  refine (find_all_occurrences_enclosed 8 "[a][b]" "[" "]" ["a"; "b"] eq_refl
            "b" _).
  right. now left.
Defined.

Lemma find_all_occurrences_none_witness :
  find_all_occurrences_in_string 1 "[a[b" "[" "]" = Some [].
Proof.
  exact (find_all_occurrences_none 0 "[a[b" "[" "]" (or_intror eq_refl)).
Defined.

(** * The order of the parameters *)

Lemma leb_iff (a b : string) :
  String.leb a b = true <-> a = b \/ OrderedTypeEx.String_as_OT.lt a b.
Proof.
  unfold String.leb. destruct (String.compare a b) eqn:E.
  - apply String.compare_eq_iff in E. split; [now left | reflexivity].
  - apply OrderedTypeEx.String_as_OT.cmp_lt in E. split; [now right | reflexivity].
  - split; [discriminate|]. intros [->|H].
    + assert (F : String.compare b b = Eq) by now apply OrderedTypeEx.String_as_OT.cmp_eq.
      congruence.
    + apply OrderedTypeEx.String_as_OT.cmp_lt in H. unfold OrderedTypeEx.String_as_OT.cmp in H. congruence.
Qed.

Lemma leb_trans (a b c : string) :
  String.leb a b = true -> String.leb b c = true -> String.leb a c = true.
Proof.
  rewrite !leb_iff. intros [->|H1] [->|H2]; auto.
  right. eapply OrderedTypeEx.String_as_OT.lt_trans; eassumption.
Qed.

Lemma item_le_trans : Relations_1.Transitive item_le.
Proof. intros x y z. unfold item_le. apply leb_trans. Qed.

(** Two lists in the order of their keys, with the same items and with
    keys that differ from item to item, are the same list. *)
Lemma sorted_unique (l1 l2 : pydict) :
  StronglySorted item_le l1 -> StronglySorted item_le l2 ->
  NoDup (map fst l1) -> Permutation l1 l2 -> l1 = l2.
Proof.
  revert l2; induction l1 as [|x l1 IH]; intros l2 S1 S2 N P.
  - now apply Permutation_nil in P.
  - destruct l2 as [|y l2];
      [now apply Permutation_sym, Permutation_nil in P|].
    inversion S1 as [|? ? S1' F1]; inversion S2 as [|? ? S2' F2]; subst.
    inversion N as [|? ? Nx N']; subst.
    assert (E : x = y).
    { assert (Hx : In x (y :: l2))
        by (apply (Permutation_in _ P); now left).
      assert (Hy : In y (x :: l1))
        by (apply (Permutation_in _ (Permutation_sym P)); now left).
      destruct Hx as [<-|Hx]; [reflexivity|].
      destruct Hy as [<-|Hy]; [reflexivity|].
      exfalso. apply Nx.
      rewrite Forall_forall in F1, F2.
      specialize (F1 _ Hy). specialize (F2 _ Hx). unfold item_le in F1, F2.
      rewrite (String.leb_antisym _ _ F1 F2).
      now apply in_map. }
    subst y. f_equal. apply IH; try assumption.
    now apply Permutation_cons_inv in P.
Qed.

Lemma sorted_permutation_eq (p1 p2 : pydict) :
  NoDup (map fst p1) -> Permutation p1 p2 -> sorted p1 = sorted p2.
Proof.
  intros N P. apply sorted_unique.
  - apply Sorted_StronglySorted; [exact item_le_trans | apply sorted_Sorted].
  - apply Sorted_StronglySorted; [exact item_le_trans | apply sorted_Sorted].
  - apply (Permutation_NoDup (l := map fst p1)); [|exact N].
    apply Permutation_map, sorted_perm.
  - eapply perm_trans; [apply Permutation_sym, sorted_perm|].
    eapply perm_trans; [exact P | apply sorted_perm].
Qed.

(** * Setting an entry of a dictionary *)

Lemma dict_get_set_same {V} (d : list (string * V)) (k : string) (v : V) :
  dict_get (dict_set d k v) k = Some v.
Proof.
  induction d as [|[k' v'] d IH]; cbn [dict_set dict_get].
  - now rewrite String.eqb_refl.
  - destruct (String.eqb k k') eqn:E; cbn [dict_get].
    + now rewrite String.eqb_refl.
    + now rewrite E.
Qed.

Lemma dict_get_set_other {V} (d : list (string * V)) (k k' : string) (v : V) :
  k' <> k -> dict_get (dict_set d k v) k' = dict_get d k'.
Proof.
  intros H. apply String.eqb_neq in H.
  induction d as [|[k1 v1] d IH]; cbn [dict_set dict_get].
  - now rewrite H.
  - destruct (String.eqb_spec k k1) as [<-|E]; cbn [dict_get].
    + now rewrite H.
    + now rewrite IH.
Qed.

Lemma dict_set_keys_in {V} (d : list (string * V)) (k x : string) (v : V) :
  In x (map fst (dict_set d k v)) -> x = k \/ In x (map fst d).
Proof.
  induction d as [|[k1 v1] d IH]; cbn [dict_set].
  - intros [<-|[]]. now left.
  - destruct (String.eqb_spec k k1) as [<-|E]; cbn [map fst In].
    + intros [<-|H]; [now left | right; now right].
    + intros [<-|H]; [right; now left|].
      destruct (IH H) as [->|H']; [now left | right; now right].
Qed.

Lemma dict_set_NoDup {V} (d : list (string * V)) (k : string) (v : V) :
  NoDup (map fst d) -> NoDup (map fst (dict_set d k v)).
Proof.
  induction d as [|[k1 v1] d IH]; intros N; cbn [dict_set].
  - repeat constructor. intros [].
  - inversion N as [|? ? Nx N']; subst.
    destruct (String.eqb_spec k k1) as [<-|E]; cbn [map fst].
    + now constructor.
    + constructor; [|now apply IH].
      intros H. apply dict_set_keys_in in H as [H|H]; [congruence | contradiction].
Qed.

Lemma dict_set_permutation {V} (d1 d2 : list (string * V)) (k : string) (v : V) :
  NoDup (map fst d1) -> Permutation d1 d2 ->
  Permutation (dict_set d1 k v) (dict_set d2 k v).
Proof.
  intros N P.
  assert (F : forall d : list (string * V),
            NoDup (map fst d) ->
            Permutation (dict_set d k v)
              ((k, v) :: filter (fun kv => negb (String.eqb k (fst kv))) d)).
  { clear. induction d as [|[k1 v1] d IH]; intros N; cbn [dict_set filter fst].
    - apply Permutation_refl.
    - inversion N as [|? ? Nx N']; subst.
      destruct (String.eqb_spec k k1) as [<-|E]; cbn [negb].
      + apply perm_skip.
        assert (G : forall l : list (string * V),
                  ~ In k (map fst l) ->
                  filter (fun kv => negb (String.eqb k (fst kv))) l = l).
        { clear. induction l as [|[a b] l IHl]; intros H; [reflexivity|].
          cbn [filter fst]. destruct (String.eqb_spec k a) as [->|E].
          - exfalso. apply H. now left.
          - cbn [negb]. rewrite IHl; [reflexivity|].
            intros H'. apply H. now right. }
        now rewrite G.
      + eapply perm_trans; [apply perm_skip, IH, N' | apply perm_swap]. }
  eapply perm_trans; [apply F, N|].
  eapply perm_trans; [|apply Permutation_sym, F].
  - apply perm_skip.
    clear F N. induction P; cbn [filter]; try apply Permutation_refl.
    + destruct (negb _); [now apply perm_skip | assumption].
    + destruct (negb (String.eqb k (fst y))), (negb (String.eqb k (fst x)));
        try apply Permutation_refl. apply perm_swap.
    + eapply perm_trans; eassumption.
  - apply (Permutation_NoDup (l := map fst d1)); [|exact N].
    now apply Permutation_map.
Qed.

(** * More on the signed executor *)

Lemma signed_payload_permutation (p1 p2 : pydict) (exchange : string)
    (timestamp : Z) :
  NoDup (map fst p1) -> Permutation p1 p2 ->
  NoDup (map fst (signed_payload (Some p1) exchange timestamp))
  /\ Permutation (signed_payload (Some p1) exchange timestamp)
       (signed_payload (Some p2) exchange timestamp).
Proof.
  intros N P. unfold signed_payload.
  destruct (String.eqb exchange "binance").
  - split; [now apply dict_set_NoDup | now apply dict_set_permutation].
  - now split.
Qed.

(** X11. The order in which the caller filled the parameter dictionary has no
    effect on a signed call: two dictionaries with the same items give the
    same query string, and the same run of the executor. *)
Theorem signed_request_order_independent (http_method url_path : string)
    (p1 p2 : pydict) (exchange : string) (base_url : option string)
    (keys : option (list (string * string))) (w : world) :
  NoDup (map fst p1) -> Permutation p1 p2 ->
  signed_query_string (signed_payload (Some p1) exchange (clock w))
  = signed_query_string (signed_payload (Some p2) exchange (clock w))
  /\ send_signed_request http_method url_path (Some p1) exchange base_url
       keys w
     = send_signed_request http_method url_path (Some p2) exchange base_url
         keys w.
Proof.
  intros N P.
  assert (E : sorted (signed_payload (Some p1) exchange (clock w))
              = sorted (signed_payload (Some p2) exchange (clock w))).
  { destruct (signed_payload_permutation p1 p2 exchange (clock w) N P).
    now apply sorted_permutation_eq. }
  assert (Q : signed_query_string (signed_payload (Some p1) exchange (clock w))
              = signed_query_string
                  (signed_payload (Some p2) exchange (clock w))).
  { unfold signed_query_string. now rewrite E. }
  split; [exact Q|].
  unfold send_signed_request. unfold bind at 1 3. unfold get_timestamp.
  cbn zeta. now rewrite Q.
Qed.

Lemma signed_request_order_independent_witness :
  signed_query_string
    (signed_payload (Some [("symbol", VStr "BTCUSDT"); ("limit", VInt 5)])
       "binance" 1700000000000)
  = signed_query_string
      (signed_payload (Some [("limit", VInt 5); ("symbol", VStr "BTCUSDT")])
         "binance" 1700000000000).
Proof.
  refine (proj1 (signed_request_order_independent "GET" "/fapi/v1/trades"
                   [("symbol", VStr "BTCUSDT"); ("limit", VInt 5)]
                   [("limit", VInt 5); ("symbol", VStr "BTCUSDT")]
                   "binance" None None (answering (NetRaise (Timeout "")))
                   _ _)).
  - repeat constructor; simpl; intuition discriminate.
  - apply perm_swap.
Defined.

(** X12. For ["binance"] the timestamp of the call replaces a [timestamp] that
    the caller passed; the other parameters keep their values, and the keys
    stay different from one another. Other exchanges leave the parameters
    as they are. *)
Theorem signed_payload_timestamp (p : pydict) (exchange : string)
    (timestamp : Z) :
  (exchange = "binance" ->
   dict_get (signed_payload (Some p) exchange timestamp) "timestamp"
   = Some (VInt timestamp)
   /\ (forall k, k <> "timestamp" ->
         dict_get (signed_payload (Some p) exchange timestamp) k
         = dict_get p k)
   /\ (NoDup (map fst p) ->
       NoDup (map fst (signed_payload (Some p) exchange timestamp)))
   /\ (dict_mem p "timestamp" = true ->
       List.length (signed_payload (Some p) exchange timestamp)
       = List.length p))
  /\ (exchange <> "binance" ->
      signed_payload (Some p) exchange timestamp = p).
Proof.
  unfold signed_payload. split.
  - intros ->. cbn [String.eqb Ascii.eqb Bool.eqb].
    split; [apply dict_get_set_same|]. split; [|split].
    + intros k Hk. now apply dict_get_set_other.
    + apply dict_set_NoDup.
    + unfold dict_mem. induction p as [|[k v] p IH]; cbn [dict_get dict_set].
      * discriminate.
      * destruct (String.eqb "timestamp" k); [reflexivity|].
        intros H. cbn [List.length]. now rewrite IH.
  - intros H. apply String.eqb_neq in H. now rewrite H.
Qed.

Lemma signed_payload_timestamp_witness :
  dict_get (signed_payload (Some [("timestamp", VInt 1); ("a", VInt 2)])
              "binance" 1700000000000) "timestamp"
  = Some (VInt 1700000000000)
  /\ List.length (signed_payload (Some [("timestamp", VInt 1); ("a", VInt 2)])
                    "binance" 1700000000000) = 2%nat.
Proof.
  destruct (proj1 (signed_payload_timestamp
                     [("timestamp", VInt 1); ("a", VInt 2)] "binance"
                     1700000000000) eq_refl) as (H1 & _ & _ & H4).
  exact (conj H1 (H4 eq_refl)).
Defined.

(** * Credentials that are not complete *)

(** X13. [hashing] looks up [keys["secret"]], and for ["bybit"] [keys["key"]]
    before it; an entry that is missing makes it raise [KeyError] with the
    name of that entry. Only ["bybit"] needs the entry [key]. *)
Theorem hashing_missing_entry (query_string exchange secret : string)
    (timestamp : Z) (keys : list (string * string)) :
  (dict_get keys "key" = None ->
   hashing query_string "bybit" timestamp (Some keys) = Raise (KeyError "key"))
  /\ (dict_get keys "secret" = None ->
      exchange <> "bybit" \/ dict_get keys "key" <> None ->
      hashing query_string exchange timestamp (Some keys)
      = Raise (KeyError "secret"))
  /\ (dict_get keys "key" = None -> dict_get keys "secret" = Some secret ->
      exchange <> "bybit" ->
      hashing query_string exchange timestamp (Some keys)
      = Ok (hmac_sha256_hex (encode_utf8 secret) (encode_utf8 query_string))).
Proof.
  unfold hashing, getitem, result_bind. cbn [keys_or_default]. repeat split.
  - intros H. cbn [String.eqb Ascii.eqb Bool.eqb]. now rewrite H.
  - intros Hs [Hx|Hk].
    + apply String.eqb_neq in Hx. now rewrite Hx, Hs.
    + destruct (String.eqb exchange "bybit"); [|now rewrite Hs].
      destruct (dict_get keys "key"); [now rewrite Hs | contradiction].
  - intros _ Hs Hx. apply String.eqb_neq in Hx. now rewrite Hx, Hs.
Qed.

Lemma hashing_missing_entry_witness :
  hashing "a=1" "bybit" 5 (Some [("secret", "S")]) = Raise (KeyError "key")
  /\ hashing "a=1" "binance" 5 (Some [("key", "K")]) = Raise (KeyError "secret")
  /\ hashing "a=1" "binance" 5 (Some [("secret", "S")])
     = Ok (hmac_sha256_hex (encode_utf8 "S") (encode_utf8 "a=1")).
Proof.
  split; [|split].
  - exact (proj1 (hashing_missing_entry "a=1" "binance" "S" 5 [("secret", "S")])
             eq_refl).
  - refine (proj1 (proj2 (hashing_missing_entry "a=1" "binance" "S" 5
                            [("key", "K")])) eq_refl _).
    left. discriminate.
  - refine (proj2 (proj2 (hashing_missing_entry "a=1" "binance" "S" 5
                            [("secret", "S")])) eq_refl eq_refl _).
    discriminate.
Defined.

(** X14. A [keys] dictionary without [secret] makes a signed call for
    ["binance"] raise [KeyError] before anything is logged or sent; for
    another exchange a dictionary without [key] makes it raise [KeyError]
    after the debug record, with nothing sent. In both cases the exception
    reaches the caller. *)
Theorem signed_incomplete_keys (http_method url_path : string)
    (payload : option pydict) (exchange : string) (base_url : option string)
    (keys : list (string * string)) (w : world) :
  (exchange = "binance" -> dict_get keys "secret" = None ->
   send_signed_request http_method url_path payload exchange base_url
     (Some keys) w
   = (Raise (KeyError "secret"), w))
  /\ (exchange <> "binance" -> dict_get keys "key" = None ->
      send_signed_request http_method url_path payload exchange base_url
        (Some keys) w
      = (Raise (KeyError "key"),
         logged w DEBUG
           ("Requesting " ++ base_url_text base_url ++ url_path ++ "?"
            ++ signed_query_string (signed_payload payload exchange (clock w))))).
Proof.
  split.
  - intros -> Hs. unfold send_signed_request.
    unfold bind at 1. unfold get_timestamp at 1. unfold bind at 1.
    cbn [String.eqb Ascii.eqb Bool.eqb]. unfold bind at 1. unfold lift at 1.
    unfold hashing, getitem, result_bind. cbn [keys_or_default].
    cbn [String.eqb Ascii.eqb Bool.eqb]. now rewrite Hs.
  - intros Hx Hk. apply String.eqb_neq in Hx. unfold send_signed_request.
    unfold bind at 1. unfold get_timestamp at 1. unfold bind at 1.
    rewrite Hx. unfold ret at 1. rewrite bind_log_debug, try_finish.
    unfold signed_try. unfold bind at 1. unfold lift at 1.
    unfold getitem. cbn [keys_or_default]. now rewrite Hk.
Qed.

Lemma signed_incomplete_keys_witness :
  send_signed_request "GET" "/fapi/v2/account" None "binance" None
    (Some [("key", "K")]) (answering (NetRaise (Timeout "")))
  = (Raise (KeyError "secret"), answering (NetRaise (Timeout ""))).
Proof.
  exact (proj1 (signed_incomplete_keys "GET" "/fapi/v2/account" None "binance"
                  None [("key", "K")] (answering (NetRaise (Timeout ""))))
           eq_refl eq_refl).
Defined.

(** * Responses that are accepted *)

Lemma classify_no_markers (url : string) (body : pyval) :
  run_pure (py_in "code" body) = Ok false ->
  run_pure (py_in "retCode" body) = Ok false ->
  run_pure (classify_public url body) = Ok tt
  /\ run_pure (classify_signed url body) = Ok tt.
Proof.
  intros H1 H2.
  destruct body; unfold run_pure, py_in, ret, raise in H1, H2;
    cbn [fst] in H1, H2; try discriminate;
    injection H1 as H1; injection H2 as H2;
    unfold run_pure, classify_public, classify_signed, check_retCode, bind,
      py_in, ret;
    rewrite H1; cbn iota beta; rewrite H2; split; reflexivity.
Qed.

(** X15. A decoded body in which neither [code] nor [retCode] is found (a
    dictionary without these keys, a list without these strings as elements)
    is handed back unchanged with the headers of the response by both
    executors, and nothing but the debug record is logged. *)
Theorem executors_return_body (v : verb) (w : world) (r : response)
    (body : pyval) :
  resp_json r = inr body ->
  run_pure (py_in "code" body) = Ok false ->
  run_pure (py_in "retCode" body) = Ok false ->
  (forall (url : string) (url_path : option string) (payload : option pydict),
     let target := public_url url url_path payload in
     let req := public_request v target w in
     network w req = NetReturn r ->
     send_public_request url (verb_name v) url_path payload true w
     = (Ok (OHeaders (resp_headers r), OVal body),
        sent (logged w DEBUG ("Requesting " ++ target)) req))
  /\ (forall (url_path : string) (payload : option pydict)
        (exchange : string) (base_url : option string)
        (keys : option (list (string * string))) (key secret : string),
        dict_get (keys_or_default keys) "key" = Some key ->
        dict_get (keys_or_default keys) "secret" = Some secret ->
        let target :=
          signed_url base_url url_path payload exchange secret (clock w) in
        let req :=
          signed_request v base_url url_path payload exchange key secret w in
        network w req = NetReturn r ->
        send_signed_request (verb_name v) url_path payload exchange base_url
          keys w
        = (Ok (OHeaders (resp_headers r), OVal body),
           sent (logged w DEBUG ("Requesting " ++ target)) req)).
Proof.
  intros Hj H1 H2. split.
  - intros url url_path payload target req Hn.
    destruct (classify_no_markers target body H1 H2) as [Hc _].
    rewrite public_unfold, public_try_run. fold target.
    change (network _) with (network w).
    change (public_request v target _) with req.
    now rewrite Hn, Hj, Hc.
  - intros url_path payload exchange base_url keys key secret Hk Hs target req
      Hn.
    destruct (classify_no_markers target body H1 H2) as [_ Hc].
    rewrite (signed_unfold _ _ _ _ _ _ key secret w Hk Hs). fold target.
    unfold logged at 1.
    rewrite (signed_try_run v base_url url_path payload exchange keys key
               secret _ w Hk Hs).
    fold target. fold req. now rewrite Hn, Hj, Hc.
Qed.

Lemma executors_return_body_witness :
  send_public_request "https://fapi.binance.com" "GET"
    (Some "/fapi/v1/ticker/price") None true
    (answering (NetReturn (Response [] ""
                             (inr (VList [VDict [("price", VStr "1")]])))))
  = (Ok (OHeaders [], OVal (VList [VDict [("price", VStr "1")]])),
     sent (logged (answering
                     (NetReturn (Response [] ""
                                   (inr (VList [VDict [("price", VStr "1")]])))))
             DEBUG "Requesting https://fapi.binance.com/fapi/v1/ticker/price")
       (public_request GET "https://fapi.binance.com/fapi/v1/ticker/price"
          (answering (NetRaise (Timeout ""))))).
Proof.
  exact (proj1 (executors_return_body GET
                  (answering
                     (NetReturn (Response [] ""
                                   (inr (VList [VDict [("price", VStr "1")]])))))
                  (Response [] "" (inr (VList [VDict [("price", VStr "1")]])))
                  (VList [VDict [("price", VStr "1")]]) eq_refl eq_refl eq_refl)
           "https://fapi.binance.com" (Some "/fapi/v1/ticker/price") None
           eq_refl).
Defined.

(** X16. With [json=False] the public executor returns the headers and the raw
    text of any response: the body is neither decoded nor classified, so
    that an error envelope and a body that is not JSON pass as well. *)
Theorem public_raw_text (v : verb) (url : string) (url_path : option string)
    (payload : option pydict) (w : world) (r : response) :
  let target := public_url url url_path payload in
  let req := public_request v target w in
  network w req = NetReturn r ->
  send_public_request url (verb_name v) url_path payload false w
  = (Ok (OHeaders (resp_headers r), OVal (VStr (resp_text r))),
     sent (logged w DEBUG ("Requesting " ++ target)) req).
Proof.
  intros target req Hn. rewrite public_unfold, public_try_run. fold target.
  change (network _) with (network w).
  change (public_request v target _) with req. now rewrite Hn.
Qed.

Lemma public_raw_text_witness :
  fst (send_public_request "https://api.bybit.com" "GET" None None false
         (answering (NetReturn (Response [] "<html>busy</html>"
                                  (inl "Expecting value")))))
  = Ok (OHeaders [], OVal (VStr "<html>busy</html>")).
Proof.
  exact (f_equal fst
           (public_raw_text GET "https://api.bybit.com" None None
              (answering (NetReturn (Response [] "<html>busy</html>"
                                       (inl "Expecting value"))))
              (Response [] "<html>busy</html>" (inl "Expecting value"))
              eq_refl)).
Defined.

(** * Exceptions that are caught, and exceptions that are not *)

(** X17. Every exception of [requests] met while the request is sent, not only
    the three that have a clause of their own, ends in the pair of empty
    strings, in both executors. *)
Theorem request_exceptions_absorbed (v : verb) (w : world) (e : exn) :
  isinstance e cls_RequestException = true ->
  (forall (url : string) (url_path : option string) (payload : option pydict)
     (json : bool),
     network w (public_request v (public_url url url_path payload) w)
     = NetRaise e ->
     fst (send_public_request url (verb_name v) url_path payload json w)
     = Ok (OVal (VStr ""), OVal (VStr "")))
  /\ (forall (url_path : string) (payload : option pydict)
        (exchange : string) (base_url : option string)
        (keys : option (list (string * string))) (key secret : string),
        dict_get (keys_or_default keys) "key" = Some key ->
        dict_get (keys_or_default keys) "secret" = Some secret ->
        network w (signed_request v base_url url_path payload exchange key
                     secret w) = NetRaise e ->
        fst (send_signed_request (verb_name v) url_path payload exchange
               base_url keys w)
        = Ok (OVal (VStr ""), OVal (VStr ""))).
Proof.
  intros He. split.
  - intros url url_path payload json Hn.
    rewrite public_unfold, public_try_run.
    change (network _) with (network w).
    change (public_request v ?u (logged w ?l ?m)) with (public_request v u w).
    rewrite Hn. destruct e; try discriminate; reflexivity.
  - intros url_path payload exchange base_url keys key secret Hk Hs Hn.
    rewrite (signed_unfold _ _ _ _ _ _ key secret w Hk Hs).
    unfold logged at 1.
    rewrite (signed_try_run v base_url url_path payload exchange keys key
               secret _ w Hk Hs).
    rewrite Hn. destruct e; try discriminate; reflexivity.
Qed.

Lemma request_exceptions_absorbed_witness :
  fst (send_public_request "htp://x" "GET" None None true
         (answering (NetRaise (RequestException "No connection adapters"))))
  = Ok (OVal (VStr ""), OVal (VStr "")).
Proof.
  exact (proj1 (request_exceptions_absorbed GET
                  (answering
                     (NetRaise (RequestException "No connection adapters")))
                  (RequestException "No connection adapters") eq_refl)
           "htp://x" None None true eq_refl).
Defined.

(** X18. A body that does not decode is logged by the public executor as a JSON
    decode error; the signed executor, whose clause for [RequestException]
    comes before the one for [JSONDecodeError], logs it as a request
    exception. *)
Theorem decode_fault_log (v : verb) (w : world) (r : response) (m : string) :
  resp_json r = inl m ->
  (forall (url : string) (url_path : option string) (payload : option pydict),
     network w (public_request v (public_url url url_path payload) w)
     = NetReturn r ->
     log (snd (send_public_request url (verb_name v) url_path payload true w))
     = List.app (log w)
         [(DEBUG, "Requesting " ++ public_url url url_path payload);
          (WARNING, "JSON decode error: " ++ m)])
  /\ (forall (url_path : string) (payload : option pydict)
        (exchange : string) (base_url : option string)
        (keys : option (list (string * string))) (key secret : string),
        dict_get (keys_or_default keys) "key" = Some key ->
        dict_get (keys_or_default keys) "secret" = Some secret ->
        network w (signed_request v base_url url_path payload exchange key
                     secret w) = NetReturn r ->
        log (snd (send_signed_request (verb_name v) url_path payload exchange
                    base_url keys w))
        = List.app (log w)
            [(DEBUG, "Requesting "
                     ++ signed_url base_url url_path payload exchange secret
                          (clock w));
             (WARNING, "Request exception: " ++ m)]).
Proof.
  intros Hj. split.
  - intros url url_path payload Hn.
    rewrite public_unfold, public_try_run.
    change (network _) with (network w).
    change (public_request v ?u (logged w ?l ?m)) with (public_request v u w).
    rewrite Hn, Hj. cbn. now rewrite <- app_assoc.
  - intros url_path payload exchange base_url keys key secret Hk Hs Hn.
    rewrite (signed_unfold _ _ _ _ _ _ key secret w Hk Hs).
    unfold logged at 1.
    rewrite (signed_try_run v base_url url_path payload exchange keys key
               secret _ w Hk Hs).
    rewrite Hn, Hj. cbn. now rewrite <- app_assoc.
Qed.

Lemma decode_fault_log_witness :
  log (snd (send_public_request "https://x" "GET" None None true
              (answering (NetReturn (Response [] "<html>"
                                       (inl "Expecting value"))))))
  = [(DEBUG, "Requesting https://x");
     (WARNING, "JSON decode error: Expecting value")].
Proof.
  exact (proj1 (decode_fault_log GET
                  (answering (NetReturn (Response [] "<html>"
                                           (inl "Expecting value"))))
                  (Response [] "<html>" (inl "Expecting value"))
                  "Expecting value" eq_refl)
           "https://x" None None eq_refl).
Defined.

(** X19. A decoded body that is [null], a boolean or a number cannot be searched
    for [code]: both executors let the [TypeError] reach the caller instead
    of returning the pair of empty strings. *)
Theorem scalar_body_raises (v : verb) (w : world) (r : response)
    (body : pyval) :
  resp_json r = inr body ->
  body = VNone \/ (exists b, body = VBool b) \/ (exists z, body = VInt z) ->
  (forall (url : string) (url_path : option string) (payload : option pydict),
     network w (public_request v (public_url url url_path payload) w)
     = NetReturn r ->
     fst (send_public_request url (verb_name v) url_path payload true w)
     = Raise (TypeError ("argument of type '" ++ type_name body
                         ++ "' is not iterable")))
  /\ (forall (url_path : string) (payload : option pydict)
        (exchange : string) (base_url : option string)
        (keys : option (list (string * string))) (key secret : string),
        dict_get (keys_or_default keys) "key" = Some key ->
        dict_get (keys_or_default keys) "secret" = Some secret ->
        network w (signed_request v base_url url_path payload exchange key
                     secret w) = NetReturn r ->
        fst (send_signed_request (verb_name v) url_path payload exchange
               base_url keys w)
        = Raise (TypeError ("argument of type '" ++ type_name body
                            ++ "' is not iterable"))).
Proof.
  intros Hj Hb. split.
  - intros url url_path payload Hn.
    rewrite public_unfold, public_try_run.
    change (network _) with (network w).
    change (public_request v ?u (logged w ?l ?m)) with (public_request v u w).
    rewrite Hn, Hj.
    destruct Hb as [->|[[b ->]|[z ->]]]; reflexivity.
  - intros url_path payload exchange base_url keys key secret Hk Hs Hn.
    rewrite (signed_unfold _ _ _ _ _ _ key secret w Hk Hs).
    unfold logged at 1.
    rewrite (signed_try_run v base_url url_path payload exchange keys key
               secret _ w Hk Hs).
    rewrite Hn, Hj.
    destruct Hb as [->|[[b ->]|[z ->]]]; reflexivity.
Qed.

Lemma scalar_body_raises_witness :
  fst (send_public_request "https://x" "GET" None None true
         (answering (NetReturn (Response [] "null" (inr VNone)))))
  = Raise (TypeError "argument of type 'NoneType' is not iterable").
Proof.
  exact (proj1 (scalar_body_raises GET
                  (answering (NetReturn (Response [] "null" (inr VNone))))
                  (Response [] "null" (inr VNone)) VNone eq_refl
                  (or_introl eq_refl))
           "https://x" None None eq_refl).
Defined.

(** * The debug record of a signed call *)

(** X20. The debug record that a signed call writes before it sends holds the
    URL of the request in full; for ["binance"] that URL ends with the
    signature. At most one more record, a warning, follows. *)
Theorem signed_debug_log (v : verb) (url_path : string)
    (payload : option pydict) (exchange : string) (base_url : option string)
    (keys : option (list (string * string))) (key secret : string)
    (w : world) :
  dict_get (keys_or_default keys) "key" = Some key ->
  dict_get (keys_or_default keys) "secret" = Some secret ->
  exists req rest,
    wire (snd (send_signed_request (verb_name v) url_path payload exchange
                 base_url keys w)) = List.app (wire w) [req]
    /\ log (snd (send_signed_request (verb_name v) url_path payload exchange
                   base_url keys w))
       = List.app (log w) ((DEBUG, "Requesting " ++ req_url req) :: rest)
    /\ (List.length rest <= 1)%nat
    /\ (exchange = "binance" ->
        exists front,
          req_url req
          = front ++ "&signature="
            ++ hmac_sha256_hex (encode_utf8 secret)
                 (encode_utf8
                    (signed_query_string
                       (signed_payload payload exchange (clock w))))).
Proof.
  intros Hk Hs.
  exists (signed_request v base_url url_path payload exchange key secret w).
  assert (L : exists rest,
            log (snd (send_signed_request (verb_name v) url_path payload
                        exchange base_url keys w))
            = List.app (log w)
                ((DEBUG, "Requesting "
                         ++ signed_url base_url url_path payload exchange
                              secret (clock w)) :: rest)
            /\ (List.length rest <= 1)%nat).
  { rewrite (signed_unfold _ _ _ _ _ _ key secret w Hk Hs).
    unfold logged at 1.
    rewrite (signed_try_run v base_url url_path payload exchange keys key
               secret _ w Hk Hs).
    destruct (network w _) as [e|r].
    - destruct e; cbn; rewrite <- ?app_assoc; eexists; split;
        try reflexivity; simpl; lia.
    - destruct (resp_json r) as [m|body].
      + cbn; rewrite <- ?app_assoc; eexists; split; try reflexivity; simpl; lia.
      + destruct (run_pure _) as [u|e].
        * cbn; eexists; split; try reflexivity; simpl; lia.
        * destruct e; cbn; rewrite <- ?app_assoc; eexists; split;
            try reflexivity; simpl; lia. }
  destruct L as [rest [L1 L2]]. exists rest.
  split; [now apply signed_wire|]. split; [exact L1|]. split; [exact L2|].
  intros ->. unfold signed_request, signed_url. cbn [req_url String.eqb Ascii.eqb Bool.eqb].
  eexists. reflexivity.
Qed.

Lemma signed_debug_log_witness :
  exists req rest,
    wire (snd (send_signed_request "GET" "/fapi/v2/account" None "binance"
                 (Some "https://fapi.binance.com") None
                 (answering (NetRaise (Timeout "")))))
    = [req]
    /\ log (snd (send_signed_request "GET" "/fapi/v2/account" None "binance"
                   (Some "https://fapi.binance.com") None
                   (answering (NetRaise (Timeout "")))))
       = (DEBUG, "Requesting " ++ req_url req) :: rest
    /\ (List.length rest <= 1)%nat
    /\ ("binance" = "binance" ->
        exists front,
          req_url req
          = front ++ "&signature="
            ++ hmac_sha256_hex (encode_utf8 "")
                 (encode_utf8
                    (signed_query_string
                       (signed_payload None "binance" 1700000000000)))).
Proof.
  exact (signed_debug_log GET "/fapi/v2/account" None "binance"
           (Some "https://fapi.binance.com") None "" ""
           (answering (NetRaise (Timeout ""))) eq_refl eq_refl).
Defined.

(** * The headers of a session *)

(** X21. [dispatch_request] changes the seven headers and no other: a header
    that a new session has under another name keeps its value, and a header
    that it has under one of the seven names, in any case of letters, is
    replaced. *)
Theorem dispatch_session_other_headers (defaults : headers)
    (key signature : string) (timestamp : Z) (name : string) :
  let h := session_headers
             (dispatch_session defaults key signature timestamp) in
  (existsb (header_eqb name)
     ["Content-Type"; "X-MBX-APIKEY"; "X-BAPI-API-KEY"; "X-BAPI-SIGN";
      "X-BAPI-SIGN-TYPE"; "X-BAPI-TIMESTAMP"; "X-BAPI-RECV-WINDOW"] = false ->
   header_get h name = header_get defaults name)
  /\ (header_eqb name "Content-Type" = true ->
      header_get h name = Some "application/json;charset=utf-8")
  /\ (header_eqb name "X-BAPI-SIGN" = true ->
      header_get h name = Some signature).
Proof.
  cbn zeta. unfold dispatch_session. cbn [session_headers].
  rewrite headers_update_get. cbn [rev List.app header_get].
  split; [|split].
  - intros H. cbn [existsb] in H.
    repeat (apply orb_false_iff in H as [? H]).
    repeat match goal with E : header_eqb name _ = false |- _ =>
             rewrite E; clear E end.
    reflexivity.
  - intros H. apply header_eqb_eq in H.
    repeat match goal with
    | |- context [header_eqb name ?s] =>
        lazymatch s with
        | "Content-Type" => fail
        | _ => let E := fresh in
               assert (E : header_eqb name s = false)
                 by (apply not_true_iff_false; intros E;
                     apply header_eqb_eq in E; rewrite H in E; discriminate E);
               rewrite E; clear E
        end
    end.
    assert (E : header_eqb name "Content-Type" = true)
      by now apply header_eqb_eq.
    now rewrite E.
  - intros H. apply header_eqb_eq in H.
    repeat match goal with
    | |- context [header_eqb name ?s] =>
        lazymatch s with
        | "X-BAPI-SIGN" => fail
        | _ => let E := fresh in
               assert (E : header_eqb name s = false)
                 by (apply not_true_iff_false; intros E;
                     apply header_eqb_eq in E; rewrite H in E; discriminate E);
               rewrite E; clear E
        end
    end.
    assert (E : header_eqb name "X-BAPI-SIGN" = true)
      by now apply header_eqb_eq.
    now rewrite E.
Qed.

Lemma dispatch_session_other_headers_witness :
  header_get
    (session_headers
       (dispatch_session [("User-Agent", "python-requests");
                          ("content-type", "text/plain")] "K" "abc" 5))
    "user-agent" = Some "python-requests"
  /\ header_get
       (session_headers
          (dispatch_session [("User-Agent", "python-requests");
                             ("content-type", "text/plain")] "K" "abc" 5))
       "content-type" = Some "application/json;charset=utf-8".
Proof.
  split.
  - exact (proj1 (dispatch_session_other_headers
                    [("User-Agent", "python-requests");
                     ("content-type", "text/plain")] "K" "abc" 5 "user-agent")
             eq_refl).
  - exact (proj1 (proj2 (dispatch_session_other_headers
                           [("User-Agent", "python-requests");
                            ("content-type", "text/plain")] "K" "abc" 5
                           "content-type")) eq_refl).
Defined.

(** * The URL of a public call *)

Lemma append_cons_not_nil (a b : string) (c : ascii) : a ++ String c b <> "".
Proof. destruct a; discriminate. Qed.

Lemma encode_item_nonempty (doseq : bool) (kv : string * pyval) (x : string) :
  In x (encode_item doseq kv) -> x <> "".
Proof.
  destruct kv as [k v]. unfold encode_item.
  assert (G : forall t, quote_plus k ++ "=" ++ t <> "")
    by (intros t; apply append_cons_not_nil).
  destruct doseq; [destruct v|]; cbn [In];
    try (intros [<-|[]]; apply G).
  - intros H. apply in_map_iff in H as [y [<- _]]. apply G.
  - intros H. apply in_map_iff in H as [y [<- _]]. apply G.
Qed.

Lemma encode_item_nil (kv : string * pyval) :
  encode_item true kv = [] <-> snd kv = VList [] \/ snd kv = VDict [].
Proof.
  destruct kv as [k v]. unfold encode_item. cbn [snd].
  destruct v as [| | | |l|d]; try (split; [discriminate | intros [H|H]; discriminate]).
  - destruct l; cbn [map]; split; try discriminate; auto.
    intros [H|H]; discriminate.
  - destruct d; cbn [map]; split; try discriminate; auto.
    intros [H|H]; discriminate.
Qed.

Lemma append_same_l (a b : string) : a ++ b = a -> b = "".
Proof. induction a as [|c a IH]; [easy|]. intros [= H]. now apply IH. Qed.

(** Among the values of [pyval], the URL stays as it is exactly when every
    parameter is an empty list or an empty dictionary. *)
Lemma public_url_bare_iff (url : string) (url_path : option string)
    (payload : pydict) :
  public_url url url_path (Some payload)
  = match url_path with Some p => url ++ p | None => url end
  <-> Forall (fun kv => snd kv = VList [] \/ snd kv = VDict []) payload.
Proof.
  unfold public_url, urlencode.
  set (base := match url_path with Some p => url ++ p | None => url end).
  assert (N : flat_map (encode_item true) payload = []
              <-> Forall (fun kv => snd kv = VList [] \/ snd kv = VDict [])
                    payload).
  { induction payload as [|kv p IH]; cbn [flat_map].
    - split; [constructor | reflexivity].
    - split.
      + intros H. apply app_eq_nil in H as [H1 H2].
        constructor; [now apply encode_item_nil | now apply IH].
      + intros H. inversion H as [|? ? H1 H2]; subst.
        apply encode_item_nil in H1. apply IH in H2. now rewrite H1, H2. }
  assert (J : join "&" (flat_map (encode_item true) payload) = ""
              <-> flat_map (encode_item true) payload = []).
  { apply join_nil_iff. intros x H. apply in_flat_map in H as [kv [_ H]].
    now apply encode_item_nonempty in H. }
  rewrite <- N, <- J.
  destruct (String.eqb_spec (join "&" (flat_map (encode_item true) payload)) "")
    as [E|E].
  - now split.
  - split; [|contradiction]. intros H. apply append_same_l in H. discriminate.
Qed.

(** X22. A parameter whose value is an empty list or an empty dictionary
    leaves no trace in the URL of a public call: when every parameter is
    such, and when there is no parameter, the URL is left as it is, without
    [?]. A parameter whose value is a string, a number, a boolean, [None] or
    a list or dictionary that is not empty makes the executor append [?] and
    a query string that is not empty. *)
Theorem public_url_bare (url : string) (url_path : option string)
    (payload : pydict) :
  let base := match url_path with Some p => url ++ p | None => url end in
  public_url url url_path None = base
  /\ (Forall (fun kv => snd kv = VList [] \/ snd kv = VDict []) payload ->
      public_url url url_path (Some payload) = base)
  /\ (Exists (fun kv => gives_pair (snd kv) = true) payload ->
      urlencode payload true <> ""
      /\ public_url url url_path (Some payload)
         = base ++ "?" ++ urlencode payload true).
Proof.
  cbn zeta. split; [reflexivity|]. split.
  - apply public_url_bare_iff.
  - intros H.
    assert (N : public_url url url_path (Some payload)
                <> match url_path with Some p => url ++ p | None => url end).
    { intros E. apply public_url_bare_iff in E.
      apply Exists_exists in H as [kv [Hin Hg]].
      rewrite Forall_forall in E. destruct (E kv Hin) as [F|F];
        rewrite F in Hg; discriminate. }
    unfold public_url in N |- *.
    destruct (String.eqb_spec (urlencode payload true) "") as [E|E];
      [contradiction | now split].
Qed.

Lemma public_url_bare_witness :
  public_url "https://api.bybit.com" (Some "/v5/market/time")
    (Some [("ids", VList []); ("opts", VDict [])])
  = "https://api.bybit.com" ++ "/v5/market/time"
  /\ public_url "https://api.bybit.com" (Some "/v5/market/time")
       (Some [("ids", VList []); ("category", VStr "")])
     = ("https://api.bybit.com" ++ "/v5/market/time") ++ "?"
       ++ urlencode [("ids", VList []); ("category", VStr "")] true.
Proof.
  split.
  - refine (proj1 (proj2 (public_url_bare "https://api.bybit.com"
                            (Some "/v5/market/time")
                            [("ids", VList []); ("opts", VDict [])])) _).
    constructor; [left; reflexivity|].
    constructor; [right; reflexivity|]. constructor.
  - refine (proj2 (proj2 (proj2 (public_url_bare "https://api.bybit.com"
                                   (Some "/v5/market/time")
                                   [("ids", VList []); ("category", VStr "")]))
                     _)).
    apply Exists_cons_tl, Exists_cons_hd. reflexivity.
Defined.

(** * Error envelopes *)

Lemma classify_signed_rules (url : string) (d : pydict) :
  (forall code msg,
     dict_get d "code" = Some code -> dict_get d "msg" = Some msg ->
     run_pure (classify_signed url (VDict d))
     = Raise (HTTPRequestError url code msg))
  /\ (dict_get d "code" = None ->
      forall rc rm,
        dict_get d "retCode" = Some rc -> py_ne_zero rc = true ->
        dict_get d "retMsg" = Some rm ->
        run_pure (classify_signed url (VDict d))
        = Raise (HTTPRequestError url rc rm)).
Proof.
  unfold run_pure, classify_signed, check_retCode, bind, py_in, py_getitem,
    lift, ret, raise, getitem, dict_mem.
  split.
  - intros code msg Hc Hm. now rewrite Hc, Hm.
  - intros Hc rc rm Hrc Hne Hrm. now rewrite Hc, Hrc, Hne, Hrm.
Qed.

(** An envelope with its message field is classified as an error by both
    executors. *)
Lemma complete_envelope_classified (url : string) (d : pydict) :
  (exists code s,
     dict_get d "code" = Some code /\ dict_get d "msg" = Some (VStr s)
     /\ s <> "")
  \/ (dict_get d "code" = None
      /\ exists rc rm,
           dict_get d "retCode" = Some rc /\ py_ne_zero rc = true
           /\ dict_get d "retMsg" = Some rm) ->
  exists code msg,
    run_pure (classify_public url (VDict d))
    = Raise (HTTPRequestError url code msg)
    /\ run_pure (classify_signed url (VDict d))
       = Raise (HTTPRequestError url code msg).
Proof.
  intros [(code & s & Hc & Hm & Hs)|(Hc & rc & rm & Hrc & Hne & Hrm)].
  - exists code, (VStr s). split.
    + now apply (proj1 (classify_public_rules url d)).
    + now apply (proj1 (classify_signed_rules url d)).
  - exists rc, rm. split.
    + apply (proj1 (proj2 (classify_public_rules url d) (or_introl Hc)));
        assumption.
    + now apply (proj2 (classify_signed_rules url d)).
Qed.

(** X23. An error envelope that carries its message is turned into the pair
    of empty strings by both executors, with one warning after the debug
    record: a dictionary with [code] and a [msg] that is a string and not
    empty, or a dictionary without [code] whose [retCode] is not zero and
    which has a [retMsg]. *)
Theorem complete_envelope_gives_empty_pair (v : verb) (w : world)
    (r : response) (d : pydict) :
  resp_json r = inr (VDict d) ->
  (exists code s,
     dict_get d "code" = Some code /\ dict_get d "msg" = Some (VStr s)
     /\ s <> "")
  \/ (dict_get d "code" = None
      /\ exists rc rm,
           dict_get d "retCode" = Some rc /\ py_ne_zero rc = true
           /\ dict_get d "retMsg" = Some rm) ->
  (forall (url : string) (url_path : option string) (payload : option pydict),
     let target := public_url url url_path payload in
     let req := public_request v target w in
     network w req = NetReturn r ->
     exists text,
       send_public_request url (verb_name v) url_path payload true w
       = (Ok (OVal (VStr ""), OVal (VStr "")),
          logged (sent (logged w DEBUG ("Requesting " ++ target)) req)
            WARNING text))
  /\ (forall (url_path : string) (payload : option pydict)
        (exchange : string) (base_url : option string)
        (keys : option (list (string * string))) (key secret : string),
        dict_get (keys_or_default keys) "key" = Some key ->
        dict_get (keys_or_default keys) "secret" = Some secret ->
        let target :=
          signed_url base_url url_path payload exchange secret (clock w) in
        let req :=
          signed_request v base_url url_path payload exchange key secret w in
        network w req = NetReturn r ->
        exists text,
          send_signed_request (verb_name v) url_path payload exchange base_url
            keys w
          = (Ok (OVal (VStr ""), OVal (VStr "")),
             logged (sent (logged w DEBUG ("Requesting " ++ target)) req)
               WARNING text)).
Proof.
  intros Hj He. split.
  - intros url url_path payload target req Hn.
    destruct (complete_envelope_classified target d He)
      as (code & msg & Hc & _).
    rewrite public_unfold, public_try_run. fold target.
    change (network _) with (network w).
    change (public_request v target _) with req.
    rewrite Hn, Hj, Hc. eexists. reflexivity.
  - intros url_path payload exchange base_url keys key secret Hk Hs target req
      Hn.
    destruct (complete_envelope_classified target d He)
      as (code & msg & _ & Hc).
    rewrite (signed_unfold _ _ _ _ _ _ key secret w Hk Hs). fold target.
    unfold logged at 1.
    rewrite (signed_try_run v base_url url_path payload exchange keys key
               secret _ w Hk Hs).
    fold target. fold req. rewrite Hn, Hj, Hc. eexists. reflexivity.
Qed.

Lemma complete_envelope_gives_empty_pair_witness :
  fst (send_signed_request "GET" "/v5/account/info" None "bybit"
         (Some "https://api.bybit.com") None
         (answering (NetReturn (Response [] ""
                                  (inr (VDict [("retCode", VInt 10001);
                                               ("retMsg", VStr "oops")]))))))
  = Ok (OVal (VStr ""), OVal (VStr "")).
Proof.
  pose (d := [("retCode", VInt 10001); ("retMsg", VStr "oops")]).
  pose (r := Response [] "" (inr (VDict d))).
  assert (E : (exists code s,
                 dict_get d "code" = Some code
                 /\ dict_get d "msg" = Some (VStr s) /\ s <> "")
              \/ (dict_get d "code" = None
                  /\ exists rc rm,
                       dict_get d "retCode" = Some rc
                       /\ py_ne_zero rc = true
                       /\ dict_get d "retMsg" = Some rm)).
  { right. split; [reflexivity|].
    exists (VInt 10001), (VStr "oops"). repeat split. }
  destruct (proj2 (complete_envelope_gives_empty_pair GET
                     (answering (NetReturn r)) r d eq_refl E)
              "/v5/account/info" None "bybit" (Some "https://api.bybit.com")
              None "" "" eq_refl eq_refl eq_refl) as [text H].
  exact (f_equal fst H).
Defined.

(** X24. An error envelope without its message is not turned into the pair
    of empty strings: for a dictionary without [code], with a [retCode] that
    is not zero and without [retMsg], the lookup of [retMsg] raises
    [KeyError] in both executors, and the exception reaches the caller after
    the request was sent. *)
Theorem envelope_without_message_raises (v : verb) (w : world)
    (r : response) (d : pydict) (rc : pyval) :
  resp_json r = inr (VDict d) ->
  dict_get d "code" = None ->
  dict_get d "retCode" = Some rc -> py_ne_zero rc = true ->
  dict_get d "retMsg" = None ->
  (forall (url : string) (url_path : option string) (payload : option pydict),
     let target := public_url url url_path payload in
     let req := public_request v target w in
     network w req = NetReturn r ->
     send_public_request url (verb_name v) url_path payload true w
     = (Raise (KeyError "retMsg"),
        sent (logged w DEBUG ("Requesting " ++ target)) req))
  /\ (forall (url_path : string) (payload : option pydict)
        (exchange : string) (base_url : option string)
        (keys : option (list (string * string))) (key secret : string),
        dict_get (keys_or_default keys) "key" = Some key ->
        dict_get (keys_or_default keys) "secret" = Some secret ->
        let target :=
          signed_url base_url url_path payload exchange secret (clock w) in
        let req :=
          signed_request v base_url url_path payload exchange key secret w in
        network w req = NetReturn r ->
        send_signed_request (verb_name v) url_path payload exchange base_url
          keys w
        = (Raise (KeyError "retMsg"),
           sent (logged w DEBUG ("Requesting " ++ target)) req)).
Proof.
  intros Hj Hc Hrc Hne Hrm.
  assert (C : forall url,
            run_pure (classify_public url (VDict d)) = Raise (KeyError "retMsg")
            /\ run_pure (classify_signed url (VDict d))
               = Raise (KeyError "retMsg")).
  { intros url.
    unfold run_pure, classify_public, classify_signed, check_retCode, bind,
      py_in, py_getitem, lift, ret, raise, getitem, dict_mem.
    now rewrite Hc, Hrc, Hne, Hrm. }
  split.
  - intros url url_path payload target req Hn.
    rewrite public_unfold, public_try_run. fold target.
    change (network _) with (network w).
    change (public_request v target _) with req.
    now rewrite Hn, Hj, (proj1 (C target)).
  - intros url_path payload exchange base_url keys key secret Hk Hs target req
      Hn.
    rewrite (signed_unfold _ _ _ _ _ _ key secret w Hk Hs). fold target.
    unfold logged at 1.
    rewrite (signed_try_run v base_url url_path payload exchange keys key
               secret _ w Hk Hs).
    fold target. fold req. now rewrite Hn, Hj, (proj2 (C target)).
Qed.

Lemma envelope_without_message_raises_witness :
  fst (send_public_request "https://api.bybit.com" "GET"
         (Some "/v5/market/time") None true
         (answering (NetReturn (Response [] ""
                                  (inr (VDict [("retCode", VInt 10001)]))))))
  = Raise (KeyError "retMsg").
Proof.
  exact (f_equal fst
           (proj1 (envelope_without_message_raises GET
                     (answering
                        (NetReturn (Response [] ""
                                      (inr (VDict [("retCode", VInt 10001)])))))
                     (Response [] "" (inr (VDict [("retCode", VInt 10001)])))
                     [("retCode", VInt 10001)] (VInt 10001)
                     eq_refl eq_refl eq_refl eq_refl eq_refl)
              "https://api.bybit.com" (Some "/v5/market/time") None eq_refl)).
Defined.

(** C4, where the code departs from it. The reply [{"retCode": 10001}], an
    error envelope that has no [retMsg], makes both executors raise
    [KeyError] to the caller instead of returning the pair of empty
    strings; with [retMsg] in the envelope the pair is returned. *)
Theorem error_envelope_without_message_escapes :
  let bare := NetReturn (Response [] "" (inr (VDict [("retCode", VInt 10001)]))) in
  let full := NetReturn (Response [] ""
                           (inr (VDict [("retCode", VInt 10001);
                                        ("retMsg", VStr "oops")]))) in
  fst (send_public_request "https://api.bybit.com" "GET"
         (Some "/v5/market/time") None true (answering bare))
  = Raise (KeyError "retMsg")
  /\ fst (send_signed_request "GET" "/v5/account/info" None "bybit"
            (Some "https://api.bybit.com") None (answering bare))
     = Raise (KeyError "retMsg")
  /\ fst (send_public_request "https://api.bybit.com" "GET"
            (Some "/v5/market/time") None true (answering full))
     = Ok (OVal (VStr ""), OVal (VStr ""))
  /\ fst (send_signed_request "GET" "/v5/account/info" None "bybit"
            (Some "https://api.bybit.com") None (answering full))
     = Ok (OVal (VStr ""), OVal (VStr "")).
Proof. vm_compute. repeat split. Qed.
